(** * nmpi_saga: the job lifecycle orchestrator (NMPI queue -> SAGA backend)

    A shallow embedding of [nmpi/nmpi_saga.py].  Python strings are [string],
    Python integers are [Z] (floor division is [Z.div]), dictionaries with a
    fixed key set are records whose removable keys are options, and the
    effects of the module (clock, remote queue, backend, file system) are
    threaded through an explicit [World]. *)

From Stdlib Require Import String Ascii List ZArith Lia Bool Arith DecimalString.
From Stdlib Require DecimalPos DecimalZ.
Import ListNotations.

Set Warnings "-register-all".
Open Scope string_scope.
Open Scope Z_scope.

(** ** Python string primitives *)

Module PyStr.

Fixpoint take (n : nat) (s : string) : string :=
  match n, s with
  | O, _ => ""
  | S _, EmptyString => ""
  | S k, String c r => String c (take k r)
  end.

Fixpoint drop (n : nat) (s : string) : string :=
  match n, s with
  | O, _ => s
  | S _, EmptyString => ""
  | S k, String _ r => drop k r
  end.

Definition len (s : string) : Z := Z.of_nat (String.length s).

(** A slice bound as Python normalises it: a negative bound counts from the
    end, and the result is clipped to [0, len]. *)
Definition clip (s : string) (k : Z) : nat :=
  if k <? 0 then Z.to_nat (Z.max 0 (len s + k))
  else Z.to_nat (Z.min k (len s)).

(** [s[:k]] *)
Definition slice_to (s : string) (k : Z) : string := take (clip s k) s.

(** [s[k:]] *)
Definition slice_from (s : string) (k : Z) : string := drop (clip s k) s.

(** The last [n] characters of [s] (all of [s] when it is shorter). *)
Definition last_chars (n : nat) (s : string) : string :=
  drop (String.length s - n) s.

Fixpoint startswith (p s : string) : bool :=
  match p, s with
  | EmptyString, _ => true
  | String _ _, EmptyString => false
  | String a p', String b s' => Ascii.eqb a b && startswith p' s'
  end.

Definition endswith (p s : string) : bool :=
  String.eqb (last_chars (String.length p) s) p
  && (String.length p <=? String.length s)%nat.

Fixpoint mem (x : string) (l : list string) : bool :=
  match l with
  | [] => false
  | y :: r => String.eqb x y || mem x r
  end.

End PyStr.

(** ** Module constants *)

Definition DEFAULT_SCRIPT_NAME : string := "run.py {system}".
Definition DEFAULT_PYNN_VERSION : string := "0.7".
Definition MAX_LOG_SIZE : Z := 10000.

Definition NL : string := String (ascii_of_nat 10) "".

(** The marker spliced into a truncated stream. *)
Definition TRUNCATED : string := NL ++ NL ++ "... truncated..." ++ NL ++ NL.

(** ** truncate_string *)

Definition truncate_string (stream : string) (max_length : Z) : string :=
  if PyStr.len stream >? max_length then
    PyStr.slice_to stream (max_length / 2)
      ++ TRUNCATED ++ PyStr.slice_from stream ((- max_length) / 2)
  else stream.

(** The truncation as the specification words it: the first M/2 characters,
    the marker, the last M/2 characters. *)
Definition truncate_string_spec (stream : string) (M : Z) : string :=
  if PyStr.len stream >? M then
    PyStr.take (Z.to_nat (M / 2)) stream
      ++ TRUNCATED ++ PyStr.last_chars (Z.to_nat (M / 2)) stream
  else stream.

(** ** Exceptions, job records and the backend *)

Inductive exn : Type :=
| KeyError (key : string)
| TypeError (msg : string)
| AttributeError (msg : string)
| ValueError (msg : string)
| IndexError (msg : string)
| AssertionError (msg : string)
| IOError (msg : string)
| Exception_ (msg : string).

(** [repr(exception)] *)
Definition repr (e : exn) : string :=
  match e with
  | KeyError k => "KeyError('" ++ k ++ "',)"
  | TypeError m => "TypeError('" ++ m ++ "',)"
  | AttributeError m => "AttributeError('" ++ m ++ "',)"
  | ValueError m => "ValueError('" ++ m ++ "',)"
  | IndexError m => "IndexError('" ++ m ++ "',)"
  | AssertionError m => "AssertionError('" ++ m ++ "',)"
  | IOError m => "IOError('" ++ m ++ "',)"
  | Exception_ m => "Exception('" ++ m ++ "',)"
  end.

(** The states of a SAGA job that the module names. *)
Inductive State : Type := PENDING | RUNNING | DONE | FAILED | CANCELED.

Definition State_eqb (a b : State) : bool :=
  match a, b with
  | PENDING, PENDING | RUNNING, RUNNING | DONE, DONE
  | FAILED, FAILED | CANCELED, CANCELED => true
  | _, _ => false
  end.

Definition State_name (s : State) : string :=
  match s with
  | PENDING => "Pending" | RUNNING => "Running" | DONE => "Done"
  | FAILED => "Failed" | CANCELED => "Canceled"
  end.

(** The job dictionary served by the queue.  [log] is an option because the
    code pops that key; the other keys are always present. *)
Record Job : Type := mkJob {
  id : Z;
  code : string;
  command : option string;
  hardware_config : option (list (string * string));
  status : string;
  log : option string;
  input_data : option (list string);
  output_data : list string;
  resource_uri : string;
  timestamp_completion : option string;
  resource_usage : option Z;
  provenance : option (list (string * string))
}.

Definition with_status (v : string) (j : Job) : Job :=
  mkJob (id j) (code j) (command j) (hardware_config j) v (log j)
        (input_data j) (output_data j) (resource_uri j)
        (timestamp_completion j) (resource_usage j) (provenance j).

Definition with_log (v : option string) (j : Job) : Job :=
  mkJob (id j) (code j) (command j) (hardware_config j) (status j) v
        (input_data j) (output_data j) (resource_uri j)
        (timestamp_completion j) (resource_usage j) (provenance j).

Definition with_output_data (v : list string) (j : Job) : Job :=
  mkJob (id j) (code j) (command j) (hardware_config j) (status j) (log j)
        (input_data j) v (resource_uri j)
        (timestamp_completion j) (resource_usage j) (provenance j).

Definition with_timestamp_completion (v : option string) (j : Job) : Job :=
  mkJob (id j) (code j) (command j) (hardware_config j) (status j) (log j)
        (input_data j) (output_data j) (resource_uri j)
        v (resource_usage j) (provenance j).

Definition with_resource_usage (v : option Z) (j : Job) : Job :=
  mkJob (id j) (code j) (command j) (hardware_config j) (status j) (log j)
        (input_data j) (output_data j) (resource_uri j)
        (timestamp_completion j) v (provenance j).

Definition with_provenance (v : option (list (string * string))) (j : Job) : Job :=
  mkJob (id j) (code j) (command j) (hardware_config j) (status j) (log j)
        (input_data j) (output_data j) (resource_uri j)
        (timestamp_completion j) (resource_usage j) v.

Definition Job_eq_dec (a b : Job) : {a = b} + {a <> b}.
Proof.
  repeat decide equality.
Defined.

(** Dictionary equality, as [==] and [in] use it. *)
Definition Job_eqb (a b : Job) : bool :=
  if Job_eq_dec a b then true else false.

Record JobDescription : Type := mkDesc {
  working_directory : string;
  executable : string;
  queue : option string;
  arguments : list string;
  output : string;
  error : string
}.

(** A SAGA job handle.  [handle] is the identity of the Python object, the
    only thing [==] compares on it. *)
Record SagaJob : Type := mkSaga {
  handle : nat;
  saga_id : string;
  description : JobDescription;
  start_time : Z
}.

(** The configuration keys the orchestrator reads. *)
Record Config : Type := mkConfig {
  job_server : string;
  WORKING_DIRECTORY : string;
  DATA_DIRECTORY : string;
  DATA_SERVER : string;
  JOB_EXECUTABLE_PYNN_7 : string;
  JOB_EXECUTABLE_PYNN_8 : string;
  JOB_QUEUE : option string;
  DEFAULT_PYNN_BACKEND : string
}.

(** A directory as [os.walk] sees it: the regular files with their
    modification times, and the sub-directories by name. *)
Inductive dir : Type :=
| Dir (files : list (string * Z)) (subdirs : list (string * dir)).

(** Requests sent to the queue server. *)
Inductive Request : Type :=
| PutJob (url : string) (body : Job)
| PutLog (job_id : Z) (content : string)
| PostDataItem (url : string).

(** ** The world the module runs in *)

(** The services the module calls and does not define: the queue server
    behind [nmpi.Client], the SAGA backend, the clock, the file system and
    the helpers of the Python library.  Each is a function of what the
    module passes to it (and of a call counter where answers change). *)
Record Env : Type := mkEnv {
  next_job : nat -> option Job;
  put_ok : Request -> bool;
  create_data_item : string -> exn + string;
  download_data_url : Job -> string -> option exn;
  isoformat : nat -> string;
  time_time : nat -> Z;
  saga_state : nat -> nat -> State;
  create_job : JobDescription -> exn + string;
  saga_run : nat -> option exn;
  read_file : string -> option string;
  tree_at : string -> dir;
  path_exists : string -> bool;
  makedirs_ok : string -> bool;
  write_ok : string -> bool;
  copyfile_ok : string -> string -> bool;
  subprocess_call : list string -> Z;
  urlparse : string -> string * string;
  format_system : string -> string -> exn + string
}.

(** The mutable state: dictionaries and lists live in stores indexed by
    object identity, so that two names for one object see one value. *)
Record World : Type := mkWorld {
  dicts : nat -> Job;
  ndicts : nat;
  lists : nat -> list (nat * SagaJob);
  nlists : nat;
  nsaga : nat;
  fetches : nat;
  ticks : nat;
  polls : nat;
  remote : list Request;
  made_dirs : list string;
  written : list (string * string);
  copied : list (string * string)
}.

Definition upd {A : Type} (f : nat -> A) (k : nat) (v : A) : nat -> A :=
  fun x => if Nat.eqb x k then v else f x.

Definition set_dicts (w : World) (d : nat -> Job) (n : nat) : World :=
  mkWorld d n (lists w) (nlists w) (nsaga w) (fetches w) (ticks w) (polls w)
          (remote w) (made_dirs w) (written w) (copied w).

Definition set_lists (w : World) (l : nat -> list (nat * SagaJob)) (n : nat) : World :=
  mkWorld (dicts w) (ndicts w) l n (nsaga w) (fetches w) (ticks w) (polls w)
          (remote w) (made_dirs w) (written w) (copied w).

Definition set_nsaga (w : World) (n : nat) : World :=
  mkWorld (dicts w) (ndicts w) (lists w) (nlists w) n (fetches w) (ticks w)
          (polls w) (remote w) (made_dirs w) (written w) (copied w).

Definition set_fetches (w : World) (n : nat) : World :=
  mkWorld (dicts w) (ndicts w) (lists w) (nlists w) (nsaga w) n (ticks w)
          (polls w) (remote w) (made_dirs w) (written w) (copied w).

Definition set_ticks (w : World) (n : nat) : World :=
  mkWorld (dicts w) (ndicts w) (lists w) (nlists w) (nsaga w) (fetches w) n
          (polls w) (remote w) (made_dirs w) (written w) (copied w).

Definition set_polls (w : World) (n : nat) : World :=
  mkWorld (dicts w) (ndicts w) (lists w) (nlists w) (nsaga w) (fetches w)
          (ticks w) n (remote w) (made_dirs w) (written w) (copied w).

Definition set_remote (w : World) (r : list Request) : World :=
  mkWorld (dicts w) (ndicts w) (lists w) (nlists w) (nsaga w) (fetches w)
          (ticks w) (polls w) r (made_dirs w) (written w) (copied w).

Definition set_made_dirs (w : World) (d : list string) : World :=
  mkWorld (dicts w) (ndicts w) (lists w) (nlists w) (nsaga w) (fetches w)
          (ticks w) (polls w) (remote w) d (written w) (copied w).

Definition set_written (w : World) (f : list (string * string)) : World :=
  mkWorld (dicts w) (ndicts w) (lists w) (nlists w) (nsaga w) (fetches w)
          (ticks w) (polls w) (remote w) (made_dirs w) f (copied w).

Definition set_copied (w : World) (f : list (string * string)) : World :=
  mkWorld (dicts w) (ndicts w) (lists w) (nlists w) (nsaga w) (fetches w)
          (ticks w) (polls w) (remote w) (made_dirs w) (written w) f.

(** ** The monad of a Python call: a result, an exception, or no answer
    within the fuel given to its loops *)

Inductive outcome (A : Type) : Type :=
| Ok (a : A) (w : World)
| Raise (e : exn) (w : World)
| Diverge.

Arguments Ok {A} a w.
Arguments Raise {A} e w.
Arguments Diverge {A}.

Definition M (A : Type) : Type := World -> outcome A.

Definition ret {A : Type} (a : A) : M A := fun w => Ok a w.

Definition bind {A B : Type} (c : M A) (k : A -> M B) : M B :=
  fun w => match c w with
           | Ok a w' => k a w'
           | Raise e w' => Raise e w'
           | Diverge => Diverge
           end.

Definition raise {A : Type} (e : exn) : M A := fun w => Raise e w.

Definition diverge {A : Type} : M A := fun _ => Diverge.

(** [try: c except Exception as e: h e] *)
Definition try_except {A : Type} (c : M A) (h : exn -> M A) : M A :=
  fun w => match c w with
           | Ok a w' => Ok a w'
           | Raise e w' => h e w'
           | Diverge => Diverge
           end.

Definition returned {A : Type} (o : outcome A) : bool :=
  match o with Ok _ _ => true | _ => false end.

Declare Scope py_scope.
Delimit Scope py_scope with py.
Notation "x <- c ;; k" := (bind c (fun x => k))
  (at level 61, c at next level, right associativity) : py_scope.
Notation "c ;;; k" := (bind c (fun _ => k))
  (at level 61, right associativity) : py_scope.
Open Scope py_scope.

(** ** posixpath and str helpers *)

Module PyPath.

Definition slash : ascii := "/"%char.
Definition dot : ascii := "."%char.

(** [(p[:i], p[i:])] for [i = p.rfind(c) + 1]. *)
Fixpoint rsplit_at (c : ascii) (p : string) : string * string :=
  match p with
  | EmptyString => ("", "")
  | String a r =>
      let (h, t) := rsplit_at c r in
      match h with
      | EmptyString =>
          if Ascii.eqb a c then (String a "", r) else ("", String a r)
      | _ => (String a h, t)
      end
  end.

Fixpoint rstrip (c : ascii) (s : string) : string :=
  match s with
  | EmptyString => ""
  | String a r =>
      let r' := rstrip c r in
      match r' with
      | EmptyString => if Ascii.eqb a c then "" else String a ""
      | _ => String a r'
      end
  end.

(** [posixpath.join(a, b)] *)
Definition join (a b : string) : string :=
  if PyStr.startswith "/" b then b
  else if String.eqb a "" || PyStr.endswith "/" a then a ++ b
  else a ++ "/" ++ b.

Definition basename (p : string) : string := snd (rsplit_at slash p).

Definition dirname (p : string) : string :=
  let head := fst (rsplit_at slash p) in
  match rstrip slash head with
  | EmptyString => head
  | stripped => stripped
  end.

(** [posixpath.splitext(p)]: a leading run of dots of the last component
    does not start an extension. *)
Definition splitext (p : string) : string * string :=
  let (d, base) := rsplit_at slash p in
  let (h, t) := rsplit_at dot base in
  match h with
  | EmptyString => (p, "")
  | _ =>
      let stem := PyStr.take (String.length h - 1) h in
      match rstrip dot stem with
      | EmptyString => (p, "")
      | _ => (d ++ stem, String dot t)
      end
  end.

(** [s.split(" ")] *)
Fixpoint split_space (s : string) : list string :=
  match s with
  | EmptyString => [""]
  | String a r =>
      match split_space r with
      | [] => [String a ""]
      | x :: xs =>
          if Ascii.eqb a " "%char then "" :: x :: xs else String a x :: xs
      end
  end.

End PyPath.

(** [str(n)] for an integer *)
Definition str_of_Z (n : Z) : string :=
  DecimalString.NilZero.string_of_int (Z.to_int n).

(** A value of either of the two Python types that reach [get_code]. *)
Inductive pyobj : Type :=
| PStr (s : string)
| PDict (ref : nat).

Section Orchestrator.

Variable env : Env.
Variable cfg : Config.

(** *** Primitive effects *)

Definition get_dict (r : nat) : M Job := fun w => Ok (dicts w r) w.

Definition modify (r : nat) (f : Job -> Job) : M unit :=
  fun w => Ok tt (set_dicts w (upd (dicts w) r (f (dicts w r))) (ndicts w)).

(** [d.pop("log", default)] *)
Definition pop_log (r : nat) : M (option string) :=
  j <- get_dict r ;;
  modify r (with_log None) ;;;
  ret (log j).

Definition or_default (o : option string) (d : string) : string :=
  match o with Some s => s | None => d end.

(** A fresh dictionary object holding [j]. *)
Definition new_dict (j : Job) : M nat :=
  fun w => Ok (ndicts w) (set_dicts w (upd (dicts w) (ndicts w) j) (S (ndicts w))).

(** A fresh list object holding [l]. *)
Definition new_list (l : list (nat * SagaJob)) : M nat :=
  fun w => Ok (nlists w) (set_lists w (upd (lists w) (nlists w) l) (S (nlists w))).

Definition get_list (a : nat) : M (list (nat * SagaJob)) :=
  fun w => Ok (lists w a) w.

Definition set_list (a : nat) (l : list (nat * SagaJob)) : M unit :=
  fun w => Ok tt (set_lists w (upd (lists w) a l) (nlists w)).

(** [datetime.now().isoformat()] *)
Definition now : M string :=
  fun w => Ok (isoformat env (ticks w)) (set_ticks w (S (ticks w))).

(** [time.time()] *)
Definition time_now : M Z :=
  fun w => Ok (time_time env (ticks w)) (set_ticks w (S (ticks w))).

(** [nmpi.Client._put]: the request reaches the server or the call raises. *)
Definition _put (rq : Request) : M unit :=
  fun w => if put_ok env rq then Ok tt (set_remote w (remote w ++ [rq]))
           else Raise (IOError "PUT failed") w.

(** [saga_job.wait(timeout)] lets backend time pass. *)
Definition saga_wait (saga_job : SagaJob) : M unit :=
  fun w => Ok tt (set_polls w (S (polls w))).

(** [saga_job.get_state()] *)
Definition get_state (saga_job : SagaJob) : M State :=
  fun w => Ok (saga_state env (handle saga_job) (polls w))
              (set_polls w (S (polls w))).

(** *** Status functions *)

(** [read_output]: both streams, or two empty strings when either file
    cannot be read. *)
Definition read_output (saga_job : SagaJob) : M (string * string) :=
  let job_desc := description saga_job in
  let outfile := PyPath.join (working_directory job_desc) (output job_desc) in
  let errfile := PyPath.join (working_directory job_desc) (error job_desc) in
  match read_file env outfile, read_file env errfile with
  | Some stdout, Some stderr => ret (stdout, stderr)
  | _, _ => ret ("", "")
  end.

Definition job_pending (nmpi_job : nat) (saga_job : SagaJob) : M nat :=
  modify nmpi_job (with_status "submitted") ;;;
  l <- pop_log nmpi_job ;;
  let log := or_default l "" in
  let log := log ++ ("Job ID: " ++ saga_id saga_job ++ NL) in
  t <- now ;;
  let log := log ++ (t ++ "    pending" ++ NL) in
  modify nmpi_job (with_log (Some log)) ;;;
  ret nmpi_job.

Definition job_running (nmpi_job : nat) (saga_job : SagaJob) : M nat :=
  modify nmpi_job (with_status "running") ;;;
  l <- pop_log nmpi_job ;;
  let log := or_default l "" in
  t <- now ;;
  let log := log ++ (t ++ "    running" ++ NL) in
  modify nmpi_job (with_log (Some log)) ;;;
  ret nmpi_job.

Definition job_done (nmpi_job : nat) (saga_job : SagaJob) : M nat :=
  modify nmpi_job (with_status "finished") ;;;
  timestamp <- now ;;
  modify nmpi_job (with_timestamp_completion (Some timestamp)) ;;;
  modify nmpi_job (with_resource_usage (Some 1)) ;;;
  modify nmpi_job (with_provenance (Some [])) ;;;
  l <- pop_log nmpi_job ;;
  let log := or_default l "" in
  t <- now ;;
  let log := log ++ (t ++ "    finished" ++ NL) in
  out <- read_output saga_job ;;
  let log := log ++ (NL ++ NL) in
  let log := log ++ truncate_string (fst out) MAX_LOG_SIZE in
  let log := log ++ (NL ++ NL) in
  let log := log ++ truncate_string (snd out) MAX_LOG_SIZE in
  modify nmpi_job (with_log (Some log)) ;;;
  ret nmpi_job.

Definition job_failed (nmpi_job : nat) (saga_job : SagaJob) : M nat :=
  modify nmpi_job (with_status "error") ;;;
  l <- pop_log nmpi_job ;;
  let log := or_default l "" in
  t <- now ;;
  let log := log ++ (t ++ "    failed" ++ NL ++ NL) in
  out <- read_output saga_job ;;
  let log := log ++ truncate_string (fst out) MAX_LOG_SIZE in
  let log := log ++ (NL ++ NL ++ "stdout" ++ NL ++ "------" ++ NL ++ NL) in
  let log := log ++ truncate_string (snd out) MAX_LOG_SIZE in
  modify nmpi_job (with_log (Some log)) ;;;
  ret nmpi_job.

(** The states switch: a dictionary from backend state to status function. *)
Definition default_job_states : list (State * (nat -> SagaJob -> M nat)) :=
  [ (PENDING, job_pending);
    (RUNNING, job_running);
    (DONE, job_done);
    (FAILED, job_failed) ].

(** [job_states[key]] *)
Fixpoint lookup_state (key : State)
         (job_states : list (State * (nat -> SagaJob -> M nat)))
  : option (nat -> SagaJob -> M nat) :=
  match job_states with
  | [] => None
  | (k, f) :: rest => if State_eqb key k then Some f else lookup_state key rest
  end.

(** *** HardwareClient *)

(** [get_next_job]: the queue answers with a job, parsed into a fresh
    dictionary, or with a warning, which the client turns into [None]. *)
Definition get_next_job : M (option nat) :=
  fun w =>
    let w' := set_fetches w (S (fetches w)) in
    match next_job env (fetches w) with
    | Some j => bind (new_dict j) (fun r => ret (Some r)) w'
    | None => Ok None w'
    end.

Definition update_job (job : nat) : M unit :=
  l <- pop_log job ;;
  j <- get_dict job ;;
  _put (PutJob (job_server cfg ++ resource_uri j) j) ;;;
  match l with
  | Some (String c r) => _put (PutLog (id j) (String c r))
  | _ => ret tt
  end.

Definition kill_job (job : nat) (error_message : string) : M unit :=
  j <- get_dict job ;;
  if negb (PyStr.mem (status j) ["running"; "submitted"]) then
    raise (Exception_ ("You cannot kill a job with status " ++ status j))
  else
    modify job (with_status "error") ;;;
    l <- pop_log job ;;
    let log := or_default l "" in
    j <- get_dict job ;;
    _put (PutJob (job_server cfg ++ resource_uri j) j) ;;;
    let log := log ++ ("Internal error. Please resubmit the job" ++ NL) in
    let log := log ++ error_message in
    _put (PutLog (id j) log).


(** *** Harvesting: _find_new_data_files *)

(** [l.remove(x)] on a list that holds [x] *)
Fixpoint remove_first (x : string) (l : list string) : list string :=
  match l with
  | [] => []
  | y :: r => if String.eqb x y then r else y :: remove_first x r
  end.

(** [for igdir in ignoredirs: if igdir in dirs: dirs.remove(igdir)] *)
Definition prune_dirs (ignoredirs dirs : list string) : list string :=
  fold_left
    (fun ds igdir => if PyStr.mem igdir ds then remove_first igdir ds else ds)
    ignoredirs dirs.

Fixpoint assoc {A : Type} (k : string) (l : list (string * A)) : option A :=
  match l with
  | [] => None
  | (k', v) :: r => if String.eqb k k' then Some v else assoc k r
  end.

(** [os.walk(top)], top-down: the triple of the directory itself, then the
    walks of the sub-directories whose names the consumer left in [dirs].
    [on_dirs] is what the consumer does to [dirs] before the generator is
    resumed. *)
Fixpoint os_walk (on_dirs : list string -> list string) (top : string) (d : dir)
  : list (string * list string * list (string * Z)) :=
  match d with
  | Dir files subs =>
      let dirs := on_dirs (map fst subs) in
      let below :=
        (fix walk_subs (l : list (string * dir)) :=
           match l with
           | [] => []
           | (name, sd) :: r =>
               (name, os_walk on_dirs (PyPath.join top name) sd) :: walk_subs r
           end) subs in
      (top, dirs, files)
        :: flat_map (fun name => match assoc name below with
                                 | Some triples => triples
                                 | None => []
                                 end) dirs
  end.

Definition default_ignoredirs : list string :=
  [".smt"; ".hg"; ".svn"; ".git"; ".bzr"].
Definition default_ignore_extensions : list string := [".pyc"].

(** [_find_new_data_files(root, timestamp, ignoredirs, ignore_extensions)]
    over the tree [t] that the file system holds at [root]. *)
Definition _find_new_data_files (t : dir) (root : string) (timestamp : Z)
           (ignoredirs ignore_extensions : list string) : list string :=
  let length_root := PyStr.len root + PyStr.len "/" in
  flat_map
    (fun triple =>
       let '(root, _, files) := triple in
       flat_map
         (fun file =>
            if negb (PyStr.mem (snd (PyPath.splitext (fst file))) ignore_extensions)
            then
              let relative_path :=
                PyPath.join (PyStr.slice_from root length_root) (fst file) in
              let last_modified := snd file in
              if last_modified >=? timestamp then [relative_path] else []
            else [])
         files)
    (os_walk (prune_dirs ignoredirs) root t).

(** The harvest as the specification words it.  [file_in t ds f m]: the
    tree holds a file named [f], modified at [m], in the directory reached
    from the root through the sub-directories [ds]. *)
Inductive file_in : dir -> list string -> string -> Z -> Prop :=
| file_here files subs f m :
    In (f, m) files -> file_in (Dir files subs) [] f m
| file_below files subs name sd ds f m :
    In (name, sd) subs -> file_in sd ds f m ->
    file_in (Dir files subs) (name :: ds) f m.

(** The path of a file relative to the root. *)
Definition relative (ds : list string) (f : string) : string :=
  String.concat "/" (ds ++ [f]).

Definition harvest_spec (t : dir) (timestamp : Z)
           (ignoredirs ignore_extensions : list string) (p : string) : Prop :=
  exists ds f m,
    file_in t ds f m
    /\ timestamp <= m
    /\ (forall d, In d ds -> ~ In d ignoredirs)
    /\ ~ In (snd (PyPath.splitext f)) ignore_extensions
    /\ p = relative ds f.

(** What a file system guarantees of a tree: entry names are not empty and
    hold no separator, and no directory holds two sub-directories of one
    name. *)
Definition valid_name (n : string) : bool :=
  negb (String.eqb n "")
  && forallb (fun c => negb (Ascii.eqb c "/"%char)) (list_ascii_of_string n).

Fixpoint nodupb (l : list string) : bool :=
  match l with
  | [] => true
  | x :: r => negb (PyStr.mem x r) && nodupb r
  end.

Fixpoint wf_dir (d : dir) : bool :=
  match d with
  | Dir files subs =>
      forallb (fun fm => valid_name (fst fm)) files
      && nodupb (map fst subs)
      && (fix wf_subs (l : list (string * dir)) : bool :=
            match l with
            | [] => true
            | (name, sd) :: r => valid_name name && wf_dir sd && wf_subs r
            end) subs
  end.

(** A root path that names a directory without a trailing separator, as
    [path.join(WORKING_DIRECTORY, 'job_%s' % id)] does. *)
Definition valid_root (root : string) : bool :=
  negb (String.eqb root "") && negb (PyStr.endswith "/" root).

(** *** File-system effects *)

Definition exists_path (p : string) : M bool :=
  fun w => Ok (path_exists env p || PyStr.mem p (made_dirs w)) w.

Definition makedirs (p : string) : M unit :=
  fun w => if makedirs_ok env p then Ok tt (set_made_dirs w (made_dirs w ++ [p]))
           else Raise (IOError ("cannot create " ++ p)) w.

(** [with codecs.open(p, 'w') as f: f.write(content)] *)
Definition write_file (p content : string) : M unit :=
  fun w => if write_ok env p then Ok tt (set_written w (written w ++ [(p, content)]))
           else Raise (IOError ("cannot write " ++ p)) w.

Definition copyfile (src dst : string) : M unit :=
  fun w => if copyfile_ok env src dst
           then Ok tt (set_copied w (copied w ++ [(src, dst)]))
           else Raise (IOError ("cannot copy " ++ src)) w.

Definition create_working_directory (workdir : string) : M unit :=
  ex <- exists_path workdir ;;
  if negb ex then makedirs workdir else ret tt.

(** *** Code provisioning *)

(** [o['code']]: a dictionary gives its entry, a string refuses the key. *)
Definition subscript_code (o : pyobj) : M string :=
  match o with
  | PStr _ => raise (TypeError "string indices must be integers, not str")
  | PDict r => j <- get_dict r ;; ret (code j)
  end.

(** A path argument must be a string. *)
Definition as_path (o : pyobj) : M string :=
  match o with
  | PStr s => ret s
  | PDict _ => raise (TypeError "coercing to Unicode: need string or buffer, dict found")
  end.

Definition endswith_any (suffixes : list string) (s : string) : bool :=
  existsb (fun x => PyStr.endswith x s) suffixes.

Definition write_script (working_directory nmpi_job : pyobj) (script_name : string)
  : M (option string) :=
  try_except
    (wd <- as_path working_directory ;;
     create_working_directory wd ;;;
     c <- subscript_code nmpi_job ;;
     write_file script_name c ;;;
     ret None)
    (fun exception =>
       ret (Some ("Exception occured while writing script: " ++ repr exception))).

Definition get_code (working_directory nmpi_job : pyobj) (script_name : string)
  : M (option string) :=
  c <- subscript_code nmpi_job ;;
  let url_candidate := urlparse env c in
  let scheme := fst url_candidate in
  let upath := snd url_candidate in
  if negb (String.eqb scheme "")
     && endswith_any [".tar.gz"; ".zip"; ".tgz"] upath then
    url <- subscript_code nmpi_job ;;
    wd <- as_path working_directory ;;
    create_working_directory wd ;;;
    let target := PyPath.join wd (PyPath.basename upath) in
    if negb (subprocess_call env ["curl"; url; "-o"; target] =? 0) then
      ret (Some ("Unable to retrieve code from url: " ++ url))
    else if endswith_any [".tar.gz"; ".tgz"] upath then
      if negb (subprocess_call env ["tar"; "xfz"; target; "--directory"; wd] =? 0)
      then ret (Some "Unable extract tar file, malformed archive?")
      else ret None
    else if PyStr.endswith ".zip" upath then
      if negb (subprocess_call env ["unzip"; "-o"; target; "-d"; wd] =? 0)
      then ret (Some "Unable expand zip file, malformed archive?")
      else ret None
    else raise (AssertionError "unreachable")
  else if PyStr.mem scheme ["http"; "https"; "ssh"] then
    url <- subscript_code nmpi_job ;;
    wd <- as_path working_directory ;;
    if subprocess_call env ["git"; "clone"; "--recursive"; url; wd] =? 0
    then ret None
    else write_script working_directory nmpi_job script_name
  else write_script working_directory nmpi_job script_name.

Definition get_input_data (nmpi_job : nat) (working_directory : string)
  : M (option string) :=
  j <- get_dict nmpi_job ;;
  match input_data j with
  | Some (_ :: _) =>
      match download_data_url env j working_directory with
      | Some exception =>
          ret (Some ("Exception occurred while downloading input data: "
                       ++ repr exception))
      | None => ret None
      end
  | _ => ret None
  end.

(** Truth value of an optional message: [None] and [""] are false. *)
Definition truthy (o : option string) : bool :=
  match o with
  | Some (String _ _) => true
  | _ => false
  end.

(** *** JobRunner *)

Definition _build_job_description (nmpi_job : nat) : M JobDescription :=
  j <- get_dict nmpi_job ;;
  let job_id := id j in
  let wd := PyPath.join (WORKING_DIRECTORY cfg) ("job_" ++ str_of_Z job_id) in
  let pyNN_version :=
    match hardware_config j with
    | None => DEFAULT_PYNN_VERSION
    | Some hc => match assoc "pyNN_version" hc with
                 | Some v => v
                 | None => DEFAULT_PYNN_VERSION
                 end
    end in
  exe <- (if String.eqb pyNN_version "0.7" then ret (JOB_EXECUTABLE_PYNN_7 cfg)
          else if String.eqb pyNN_version "0.8" then ret (JOB_EXECUTABLE_PYNN_8 cfg)
          else raise (ValueError ("Supported PyNN versions: 0.7, 0.8. "
                                    ++ pyNN_version ++ " not supported"))) ;;
  let script_name :=
    match command j with
    | Some (String a r) => String a r
    | _ => DEFAULT_SCRIPT_NAME
    end in
  match format_system env script_name (DEFAULT_PYNN_BACKEND cfg) with
  | inl exception => raise exception
  | inr command_line =>
      let command_line := PyPath.join wd command_line in
      ret (mkDesc wd exe (JOB_QUEUE cfg) (PyPath.split_space command_line)
                  ("saga_" ++ str_of_Z job_id ++ ".out")
                  ("saga_" ++ str_of_Z job_id ++ ".err"))
  end.

(** [self.service.create_job(job_desc)]: a new handle object. *)
Definition service_create_job (job_desc : JobDescription) : M (nat * string) :=
  fun w => match create_job env job_desc with
           | inl e => Raise e w
           | inr sid => Ok (nsaga w, sid) (set_nsaga w (S (nsaga w)))
           end.

Definition saga_job_run (h : nat) : M unit :=
  fun w => match saga_run env h with
           | Some e => Raise e w
           | None => Ok tt w
           end.

(** [JobRunner.run].  The call of [get_code] passes the job first and the
    working directory second, as the source does. *)
Definition run (nmpi_job : nat) : M (option SagaJob * string) :=
  built <- try_except
             (job_desc <- _build_job_description nmpi_job ;; ret (inr job_desc))
             (fun exception =>
                ret (inl ("Failed to build job description with error: "
                            ++ repr exception))) ;;
  match built with
  | inl msg => ret (None, msg)
  | inr job_desc =>
      script_name <- match arguments job_desc with
                     | x :: _ => ret x
                     | [] => raise (IndexError "list index out of range")
                     end ;;
      err <- get_code (PDict nmpi_job) (PStr (working_directory job_desc))
                      script_name ;;
      if truthy err then
        ret (None, "Failed to obtain source code: " ++ or_default err "")
      else
        err <- get_input_data nmpi_job (working_directory job_desc) ;;
        if truthy err then ret (None, "Failed to download input data.")
        else
          created <- try_except
                       (c <- service_create_job job_desc ;; ret (inr c))
                       (fun exception =>
                          ret (inl ("Failed to create job on cluster with exception: "
                                      ++ repr exception))) ;;
          match created with
          | inl msg => ret (None, msg)
          | inr (h, sid) =>
              t <- time_now ;;
              let saga_job := mkSaga h sid job_desc t in
              try_except
                (saga_job_run h ;;; ret (Some saga_job, ""))
                (fun exception =>
                   ret (None, "Failed to run saga job with exception: "
                                ++ repr exception))
          end
  end.

Definition _update_status (nmpi_job : nat) (saga_job : SagaJob)
           (job_states : list (State * (nat -> SagaJob -> M nat))) : M nat :=
  saga_state <- get_state saga_job ;;
  match lookup_state saga_state job_states with
  | None => raise (KeyError (State_name saga_state))
  | Some set_status =>
      nmpi_job <- set_status nmpi_job saga_job ;;
      update_job nmpi_job ;;;
      ret nmpi_job
  end.

(** [self.client.create_data_item(url)] *)
Definition client_create_data_item (url : string) : M string :=
  fun w => match create_data_item env url with
           | inl e => Raise e w
           | inr resource_uri =>
               Ok resource_uri (set_remote w (remote w ++ [PostDataItem url]))
           end.

(** The copy loop of [_handle_output_data]: the first failure returns its
    message. *)
Fixpoint copy_new_files (wd output_dir : string) (new_files : list string)
  : M (option string) :=
  match new_files with
  | [] => ret None
  | new_file :: rest =>
      r <- try_except
             (let new_file_path := PyPath.join output_dir new_file in
              ex <- exists_path (PyPath.dirname new_file_path) ;;
              (if negb ex then makedirs (PyPath.dirname new_file_path)
               else ret tt) ;;;
              copyfile (PyPath.join wd new_file) new_file_path ;;;
              ret None)
             (fun exception =>
                ret (Some ("Failed to copy files : " ++ repr exception))) ;;
      match r with
      | Some msg => ret (Some msg)
      | None => copy_new_files wd output_dir rest
      end
  end.

(** The first half of [_handle_output_data]: copy the new files to the data
    directory when it is not the working directory. *)
Definition copy_output (job_desc : JobDescription) (new_files : list string)
  : M (option string) :=
  let output_dir :=
    PyPath.join (DATA_DIRECTORY cfg)
                (PyPath.basename (working_directory job_desc)) in
  if negb (String.eqb (DATA_DIRECTORY cfg) (WORKING_DIRECTORY cfg)) then
    ex <- exists_path (DATA_DIRECTORY cfg) ;;
    made <- (if negb ex then
               try_except (makedirs (DATA_DIRECTORY cfg) ;;; ret None)
                          (fun exception => ret (Some (repr exception)))
             else ret None) ;;
    match made with
    | Some msg => ret (Some msg)
    | None => copy_new_files (working_directory job_desc) output_dir new_files
    end
  else ret None.

(** The registration loop of [_handle_output_data]. *)
Fixpoint post_data_items (nmpi_job : nat) (wd : string) (new_files : list string)
  : M (option string) :=
  match new_files with
  | [] => ret None
  | new_file :: rest =>
      let url := DATA_SERVER cfg ++ "/" ++ PyPath.basename wd ++ "/" ++ new_file in
      r <- try_except
             (resource_uri <- client_create_data_item url ;;
              modify nmpi_job
                     (fun j => with_output_data (output_data j ++ [resource_uri]) j) ;;;
              ret None)
             (fun exception =>
                ret (Some ("Failed to create data item remotely at " ++ url
                             ++ ": " ++ repr exception))) ;;
      match r with
      | Some msg => ret (Some msg)
      | None => post_data_items nmpi_job wd rest
      end
  end.

(** [_handle_output_data] from the line after the harvest on (l.613-654),
    for the list [new_files] the harvest returned. *)
Definition handle_new_files (nmpi_job : nat) (job_desc : JobDescription)
           (new_files : list string) : M (option string) :=
  copy_err <- copy_output job_desc new_files ;;
  match copy_err with
  | Some msg => ret (Some msg)
  | None =>
      post_err <- post_data_items nmpi_job (working_directory job_desc) new_files ;;
      match post_err with
      | Some msg => ret (Some msg)
      | None =>
          try_except
            (update_job nmpi_job ;;; ret None)
            (fun exception =>
               ret (Some ("Failed to update the job reflecting the produced output data: "
                            ++ repr exception)))
      end
  end.

(** [_handle_output_data].  The harvest of l.611-612 stands outside every
    [try]; it is computed from [tree_at], the tree of the files that
    [os.walk] lists and [os.stat] answers for, so the function is modelled
    on a file system where the harvest returns.  Where [os.stat] fails (a
    file that vanished after the listing, a dangling link) the source leaves
    [_handle_output_data] with OSError before anything else is done. *)
Definition _handle_output_data (nmpi_job : nat) (saga_job : SagaJob)
  : M (option string) :=
  let job_desc := description saga_job in
  let new_files :=
    _find_new_data_files (tree_at env (working_directory job_desc))
                         (working_directory job_desc) (start_time saga_job)
                         default_ignoredirs default_ignore_extensions in
  handle_new_files nmpi_job job_desc new_files.

(** [nmpi_job in pending_jobs]: some collected dictionary equals it. *)
Definition job_in (nmpi_job : nat) (pending_jobs : list nat) : M bool :=
  fun w => Ok (existsb (fun r => Job_eqb (dicts w r) (dicts w nmpi_job)) pending_jobs) w.

(** [retrieve_pending_jobs]: the loop leaves [pending_jobs] as it found it. *)
Fixpoint retrieve_loop (fuel : nat) (pending_jobs : list nat) : M (list nat) :=
  match fuel with
  | O => diverge
  | S n =>
      nmpi_job <- get_next_job ;;
      match nmpi_job with
      | None => ret pending_jobs
      | Some r =>
          dup <- job_in r pending_jobs ;;
          if dup then ret pending_jobs else retrieve_loop n pending_jobs
      end
  end.

Definition retrieve_pending_jobs (fuel : nat) : M (list nat) :=
  retrieve_loop fuel [].

Definition list_append (a : nat) (x : nat * SagaJob) : M unit :=
  l <- get_list a ;; set_list a (l ++ [x]).

Fixpoint submit_loop (pending_jobs : list nat) (saga_jobs : nat) : M unit :=
  match pending_jobs with
  | [] => ret tt
  | nmpi_job :: rest =>
      r <- run nmpi_job ;;
      (if truthy (Some (snd r)) then kill_job nmpi_job (snd r)
       else
         match fst r with
         | None => raise (AttributeError "'NoneType' object has no attribute 'get_state'")
         | Some saga_job =>
             _update_status nmpi_job saga_job default_job_states ;;;
             list_append saga_jobs (nmpi_job, saga_job)
         end) ;;;
      submit_loop rest saga_jobs
  end.

(** [submit_jobs] returns the list object it filled. *)
Definition submit_jobs (pending_jobs : list nat) : M nat :=
  saga_jobs <- new_list [] ;;
  submit_loop pending_jobs saga_jobs ;;;
  ret saga_jobs.

(** Equality of two [(nmpi_job, saga_job)] tuples: the dictionaries by
    value, the handles by identity. *)
Definition tuple_eqb (w : World) (a b : nat * SagaJob) : bool :=
  Job_eqb (dicts w (fst a)) (dicts w (fst b))
  && Nat.eqb (handle (snd a)) (handle (snd b)).

Fixpoint remove_tuple (w : World) (x : nat * SagaJob) (l : list (nat * SagaJob))
  : option (list (nat * SagaJob)) :=
  match l with
  | [] => None
  | y :: r =>
      if tuple_eqb w y x then Some r
      else match remove_tuple w x r with
           | Some r' => Some (y :: r')
           | None => None
           end
  end.

(** [l.remove(x)] on the list object at [a] *)
Definition list_remove (a : nat) (x : nat * SagaJob) : M unit :=
  fun w => match remove_tuple w x (lists w a) with
           | Some l' => set_list a l' w
           | None => Raise (ValueError "list.remove(x): x not in list") w
           end.

(** The body of the [for] loop of [wait_on_completion] for one tuple.  A
    state that is neither DONE nor FAILED reaches the test against
    [saga_job.job.CANCELED]; a SAGA job has no attribute [job]. *)
Definition wait_step (pending_jobs : nat) (nmpi_job : nat) (saga_job : SagaJob)
  : M unit :=
  saga_wait saga_job ;;;
  state <- get_state saga_job ;;
  match state with
  | DONE =>
      err <- _handle_output_data nmpi_job saga_job ;;
      if truthy err then
        kill_job nmpi_job (or_default err "") ;;;
        list_remove pending_jobs (nmpi_job, saga_job)
      else
        list_remove pending_jobs (nmpi_job, saga_job) ;;;
        _update_status nmpi_job saga_job default_job_states ;;;
        ret tt
  | FAILED =>
      list_remove pending_jobs (nmpi_job, saga_job) ;;;
      _update_status nmpi_job saga_job default_job_states ;;;
      ret tt
  | _ => raise (AttributeError "'Job' object has no attribute 'job'")
  end.

(** [for nmpi_job, saga_job in pending_jobs]: the iterator holds an index
    into the list object, which the body shortens while it runs. *)
Fixpoint for_pending (steps : nat) (i : nat) (pending_jobs : nat) : M unit :=
  match steps with
  | O => diverge
  | S k =>
      l <- get_list pending_jobs ;;
      match nth_error l i with
      | None => ret tt
      | Some (nmpi_job, saga_job) =>
          wait_step pending_jobs nmpi_job saga_job ;;;
          for_pending k (S i) pending_jobs
      end
  end.

(** [wait_on_completion].  [pending_jobs is []] compares the identity of
    the list with that of a list just made. *)
Fixpoint wait_on_completion (fuel : nat) (pending_jobs : nat) : M unit :=
  match fuel with
  | O => diverge
  | S n =>
      empty <- new_list [] ;;
      if Nat.eqb pending_jobs empty then ret tt
      else
        l <- get_list pending_jobs ;;
        for_pending (S (List.length l)) 0 pending_jobs ;;;
        wait_on_completion n pending_jobs
  end.

(** [next]: one cycle; the value returned is the list object that
    [wait_on_completion] worked on. *)
Definition next (fuel : nat) : M nat :=
  pending_nmpi_jobs <- retrieve_pending_jobs fuel ;;
  pending_saga_jobs <- submit_jobs pending_nmpi_jobs ;;
  wait_on_completion fuel pending_saga_jobs ;;;
  ret pending_saga_jobs.

End Orchestrator.

(** ** A concrete platform for the examples *)

Module Example.

Definition job1 : Job :=
  mkJob 1 "print('hi')" None None "submitted" None None [] "/api/v2/queue/1"
        None None None.

Definition cfg0 : Config :=
  mkConfig "https://nmpi.example" "/work" "/work" "https://data.example"
           "/usr/bin/python7" "/usr/bin/python8" None "nest".

Definition tree0 : dir :=
  Dir [("a.txt", 5); ("b.pyc", 9); ("old", 1)]
      [("sub", Dir [("x", 3)] [(".git", Dir [("HEAD", 10)] [])]);
       (".git", Dir [("c", 10)] [])].

(** A queue that serves [job1] once and then has nothing, a backend whose
    jobs are DONE at once, and a data server that refuses [sub/x]. *)
Definition env0 : Env :=
  mkEnv (fun n => match n with O => Some job1 | _ => None end)
        (fun _ => true)
        (fun url => if PyStr.endswith "sub/x" url
                    then inl (IOError "refused")
                    else inr ("/api/v2/dataitem/" ++ url))
        (fun _ _ => None)
        (fun n => "2016-01-01T00:00:0" ++ str_of_Z (Z.of_nat n))
        (fun n => Z.of_nat n)
        (fun _ _ => DONE)
        (fun _ => inr "[slurm]-[42]")
        (fun _ => None)
        (fun p => Some ("contents of " ++ p))
        (fun _ => tree0)
        (fun _ => true)
        (fun _ => true)
        (fun _ => true)
        (fun _ _ => true)
        (fun _ => 0)
        (fun s => ("", s))
        (fun template system =>
           if String.eqb template DEFAULT_SCRIPT_NAME
           then inr ("run.py " ++ system) else inr template).

Definition w0 : World :=
  mkWorld (fun _ => job1) 1 (fun _ => []) 0 0 0 0 0 [] [] [] [].

Definition desc1 : JobDescription :=
  mkDesc "/work/job_1" "/usr/bin/python7" None ["/work/job_1/run.py"; "nest"]
         "saga_1.out" "saga_1.err".

Definition saga1 : SagaJob := mkSaga 0 "[slurm]-[42]" desc1 3.

(** [env0] with a backend that reports every job canceled. *)
Definition env_canceled : Env :=
  mkEnv (next_job env0) (put_ok env0) (create_data_item env0)
        (download_data_url env0) (isoformat env0) (time_time env0)
        (fun _ _ => CANCELED)
        (create_job env0) (saga_run env0) (read_file env0) (tree_at env0)
        (path_exists env0) (makedirs_ok env0) (write_ok env0)
        (copyfile_ok env0) (subprocess_call env0) (urlparse env0)
        (format_system env0).

(** [w0] with [job1] in flight: the list object 0 holds its tuple. *)
Definition w1 : World :=
  set_lists w0 (upd (lists w0) 0%nat [(0%nat, saga1)]) 1.

End Example.

(** * The rest of the module *)

(** ** HardwareClient.reset_job *)

(** [reset_job]: the job goes back to "submitted"; the log line is sent
    first, then the job as it is (its log included). *)
Definition reset_job (env : Env) (cfg : Config) (job : nat) : M unit :=
  modify job (with_status "submitted") ;;;
  j <- get_dict job ;;
  _put env (PutLog (id j) ("reset status to 'submitted'" ++ NL)) ;;;
  j <- get_dict job ;;
  _put env (PutJob (job_server cfg ++ resource_uri j) j).

(** ** load_config *)

(** A value of the configuration after the literals have been evaluated. *)
Inductive conf_value : Type :=
| CStr (s : string)
| CBool (b : bool)
| CNone.

(** [s.split(c)] for a one-character separator *)
Fixpoint split_on (c : ascii) (s : string) : list string :=
  match s with
  | EmptyString => [""]
  | String a r =>
      match split_on c r with
      | [] => [String a ""]
      | x :: xs => if Ascii.eqb a c then "" :: x :: xs else String a x :: xs
      end
  end.

(** The characters [str.strip()] removes: space, tab, newline, carriage
    return, vertical tab, form feed. *)
Definition is_space (a : ascii) : bool :=
  let n := nat_of_ascii a in
  Nat.eqb n 32 || (Nat.leb 9 n && Nat.leb n 13).

Fixpoint lstrip (s : string) : string :=
  match s with
  | EmptyString => ""
  | String a r => if is_space a then lstrip r else s
  end.

Fixpoint rstrip (s : string) : string :=
  match s with
  | EmptyString => ""
  | String a r =>
      match rstrip r with
      | EmptyString => if is_space a then "" else String a ""
      | r' => String a r'
      end
  end.

(** [s.strip()] *)
Definition strip (s : string) : string := rstrip (lstrip s).

(** [d[k] = v] on a dictionary kept as an association list *)
Fixpoint dict_set {A : Type} (k : string) (v : A) (d : list (string * A))
  : list (string * A) :=
  match d with
  | [] => [(k, v)]
  | (k', v') :: r =>
      if String.eqb k k' then (k, v) :: r else (k', v') :: dict_set k v r
  end.

(** The body of the loop over the lines of the file: comment lines and
    lines of fewer than five characters are passed over; any other line
    must split at "=" into exactly a key and a value. *)
Definition load_line (conf : list (string * string)) (line : string)
  : exn + list (string * string) :=
  if negb (PyStr.startswith "#" line) && (5 <=? PyStr.len line) then
    match split_on "="%char line with
    | [key; val] => inr (dict_set (strip key) (strip val) conf)
    | [] | [_] => inl (ValueError "need more than 1 value to unpack")
    | _ => inl (ValueError "too many values to unpack")
    end
  else inr conf.

Fixpoint load_lines (conf : list (string * string)) (lines : list string)
  : exn + list (string * string) :=
  match lines with
  | [] => inr conf
  | line :: rest =>
      match load_line conf line with
      | inl e => inl e
      | inr conf' => load_lines conf' rest
      end
  end.

(** [eval(val)] for the three literals the second loop looks for *)
Definition eval_literal (val : string) : conf_value :=
  if String.eqb val "True" then CBool true
  else if String.eqb val "False" then CBool false
  else if String.eqb val "None" then CNone
  else CStr val.

(** [load_config], on the lines of the file (each with its line end). *)
Definition load_config (lines : list string) : exn + list (string * conf_value) :=
  match load_lines [] lines with
  | inl e => inl e
  | inr conf => inr (map (fun kv => (fst kv, eval_literal (snd kv))) conf)
  end.

(** ** More example platforms *)

Module Example2.

(** [Example.env0] with a queue that serves [job1] at every fetch, as the
    server does while the job stays submitted. *)
Definition env_busy : Env :=
  mkEnv (fun _ => Some Example.job1) (put_ok Example.env0)
        (create_data_item Example.env0) (download_data_url Example.env0)
        (isoformat Example.env0) (time_time Example.env0)
        (saga_state Example.env0) (create_job Example.env0)
        (saga_run Example.env0) (read_file Example.env0)
        (tree_at Example.env0) (path_exists Example.env0)
        (makedirs_ok Example.env0) (write_ok Example.env0)
        (copyfile_ok Example.env0) (subprocess_call Example.env0)
        (urlparse Example.env0) (format_system Example.env0).

(** [Example.env0] with a backend whose jobs have FAILED. *)
Definition env_failed : Env :=
  mkEnv (next_job Example.env0) (put_ok Example.env0)
        (create_data_item Example.env0) (download_data_url Example.env0)
        (isoformat Example.env0) (time_time Example.env0)
        (fun _ _ => FAILED) (create_job Example.env0)
        (saga_run Example.env0) (read_file Example.env0)
        (tree_at Example.env0) (path_exists Example.env0)
        (makedirs_ok Example.env0) (write_ok Example.env0)
        (copyfile_ok Example.env0) (subprocess_call Example.env0)
        (urlparse Example.env0) (format_system Example.env0).

(** A platform for code given as a URL: [urlparse] splits at "://", every
    command fails, and directories exist and can be made, or not, as [dirs]
    says. *)
Definition env_url (dirs : bool) : Env :=
  mkEnv (next_job Example.env0) (put_ok Example.env0)
        (create_data_item Example.env0) (download_data_url Example.env0)
        (isoformat Example.env0) (time_time Example.env0)
        (saga_state Example.env0) (create_job Example.env0)
        (saga_run Example.env0) (read_file Example.env0)
        (tree_at Example.env0)
        (fun _ => dirs) (fun _ => dirs) (write_ok Example.env0)
        (copyfile_ok Example.env0)
        (fun _ => 1)
        (fun s => if PyStr.startswith "https://" s
                  then ("https", PyStr.drop 8 s) else ("", s))
        (format_system Example.env0).

(** [Example.env0] with a data server that accepts every file. *)
Definition env_open : Env :=
  mkEnv (next_job Example.env0) (put_ok Example.env0)
        (fun url => inr ("/api/v2/dataitem/" ++ url))
        (download_data_url Example.env0)
        (isoformat Example.env0) (time_time Example.env0)
        (saga_state Example.env0) (create_job Example.env0)
        (saga_run Example.env0) (read_file Example.env0)
        (tree_at Example.env0) (path_exists Example.env0)
        (makedirs_ok Example.env0) (write_ok Example.env0)
        (copyfile_ok Example.env0) (subprocess_call Example.env0)
        (urlparse Example.env0) (format_system Example.env0).

(** A job that asks for a PyNN version the platform does not have. *)
Definition job_bad : Job :=
  mkJob 2 "print('hi')" None (Some [("pyNN_version", "0.9")]) "submitted"
        (Some "queued") None [] "/api/v2/queue/2" None None None.

Definition w_bad : World :=
  mkWorld (fun _ => job_bad) 1 (fun _ => []) 0 0 0 0 0 [] [] [] [].

(** A job whose code is the URL of an archive, and one whose code is the
    URL of a repository. *)
Definition job_archive : Job :=
  mkJob 3 "https://example.com/x.tar.gz" None None "submitted" None None []
        "/api/v2/queue/3" None None None.

Definition job_repo : Job :=
  mkJob 4 "https://example.com/repo" None None "submitted" None None []
        "/api/v2/queue/4" None None None.

Definition w_archive : World :=
  mkWorld (fun _ => job_archive) 1 (fun _ => []) 0 0 0 0 0 [] [] [] [].

Definition w_repo : World :=
  mkWorld (fun _ => job_repo) 1 (fun _ => []) 0 0 0 0 0 [] [] [] [].

(** Three jobs in flight in the list object 0. *)
Definition saga_n (h : nat) : SagaJob :=
  mkSaga h "[slurm]-[42]" Example.desc1 3.

Definition w3 : World :=
  set_lists Example.w0
            (upd (lists Example.w0) 0%nat
                 [(0%nat, saga_n 0); (0%nat, saga_n 1); (0%nat, saga_n 2)]) 1.

(** [Example.env0] on which the file of the error stream cannot be read. *)
Definition env_nostderr : Env :=
  mkEnv (next_job Example.env0) (put_ok Example.env0)
        (create_data_item Example.env0) (download_data_url Example.env0)
        (isoformat Example.env0) (time_time Example.env0)
        (saga_state Example.env0) (create_job Example.env0)
        (saga_run Example.env0)
        (fun p => if PyStr.endswith ".err" p then None
                  else Some ("contents of " ++ p))
        (tree_at Example.env0) (path_exists Example.env0)
        (makedirs_ok Example.env0) (write_ok Example.env0)
        (copyfile_ok Example.env0) (subprocess_call Example.env0)
        (urlparse Example.env0) (format_system Example.env0).

(** A configuration file. *)
Definition cfg_lines : list string :=
  [ "# NMPI configuration" ++ NL;
    "AUTH_USER = nmpi" ++ NL;
    "A=1" ++ NL;
    "VERIFY_SSL=False" ++ NL;
    "JOB_QUEUE=None" ++ NL;
    "AUTH_USER = other" ++ NL ].

End Example2.

(** * Vocabulary of the properties *)

(** [c] ends, normally or by an exception (it does not run out of fuel), in
    a world with the same [proj]. *)
Definition preserves {X : Type} (proj : World -> X) {A : Type} (c : M A) : Prop :=
  forall w, match c w with
            | Ok _ w' | Raise _ w' => proj w' = proj w
            | Diverge => False
            end.

(** The store of list objects: their contents and the allocation mark. *)
Definition list_store (w : World) : (nat -> list (nat * SagaJob)) * nat :=
  (lists w, nlists w).

(** What [read_output] returns, as a value. *)
Definition streams (env : Env) (s : SagaJob) : string * string :=
  let job_desc := description s in
  match read_file env (PyPath.join (working_directory job_desc) (output job_desc)),
        read_file env (PyPath.join (working_directory job_desc) (error job_desc))
  with
  | Some stdout, Some stderr => (stdout, stderr)
  | _, _ => ("", "")
  end.

(** What one application of a status function does: it returns the same
    dictionary with the status set and one block appended to the log; the
    block is [pre], the clock reading number [k] of the call, [suf]; the
    call reads the clock [n] times and touches nothing else. *)
Definition appends (env : Env) (f : nat -> SagaJob -> M nat) (s : SagaJob)
           (target pre suf : string) (k n : nat) : Prop :=
  forall r w, exists w1,
    f r s w = Ok r w1
    /\ status (dicts w1 r) = target
    /\ log (dicts w1 r)
       = Some (or_default (log (dicts w r)) ""
                 ++ pre ++ isoformat env (ticks w + k) ++ suf)
    /\ ticks w1 = (ticks w + n)%nat
    /\ remote w1 = remote w /\ written w1 = written w /\ lists w1 = lists w.

(** Side-effect-free, as the specification words it: whatever the call
    returns, every job dictionary, the one it was given included, is as the
    caller left it. *)
Definition side_effect_free (f : nat -> SagaJob -> M nat) (s : SagaJob) : Prop :=
  forall (r : nat) (w : World) (r' : nat) (w' : World),
    f r s w = Ok r' w' -> dicts w' = dicts w.

(** The world [w'] is [w] but for the dictionary [r] and the clock: every
    other dictionary, the lists, the allocation marks, the backend, the
    queue and the file system are as in [w]. *)
Definition in_place (r : nat) (w w' : World) : Prop :=
  (forall r', r' <> r -> dicts w' r' = dicts w r')
  /\ ndicts w' = ndicts w
  /\ lists w' = lists w /\ nlists w' = nlists w
  /\ nsaga w' = nsaga w /\ fetches w' = fetches w /\ polls w' = polls w
  /\ remote w' = remote w /\ made_dirs w' = made_dirs w
  /\ written w' = written w /\ copied w' = copied w.

(** The keys of the job that describe the request: [j'] holds under them
    what [j] holds. *)
Definition same_request (j j' : Job) : Prop :=
  id j' = id j /\ code j' = code j /\ command j' = command j
  /\ hardware_config j' = hardware_config j /\ input_data j' = input_data j
  /\ output_data j' = output_data j /\ resource_uri j' = resource_uri j.

(** The completion keys of [j'] after the status function of the state [st]
    was applied to [j], the clock standing at reading [t] when it was
    called: [job_done] writes them, the other three leave them. *)
Definition completion (env : Env) (st : State) (t : nat) (j j' : Job) : Prop :=
  match st with
  | DONE =>
      timestamp_completion j' = Some (isoformat env t)
      /\ resource_usage j' = Some 1
      /\ provenance j' = Some []
  | _ =>
      timestamp_completion j' = timestamp_completion j
      /\ resource_usage j' = resource_usage j
      /\ provenance j' = provenance j
  end.

(** Applying the status function of the state [st] twice to one job: both
    calls return the dictionary they were given, updated in place; the
    status after the second is the status after the first; each call
    appended to the log one block [pre ++ t ++ suf] in which only the clock
    reading [t], taken during that call, varies; the keys of the request are
    untouched and the completion keys are those of [completion]; and each
    call leaves the rest of the world as it found it ([in_place]). *)
Definition repeatable (env : Env) (st : State) (f : nat -> SagaJob -> M nat)
           (s : SagaJob) : Prop :=
  exists target pre suf : string,
  forall (nmpi_job : nat) (w : World),
  exists (w1 w2 : World) (n1 n2 : nat),
    f nmpi_job s w = Ok nmpi_job w1
    /\ f nmpi_job s w1 = Ok nmpi_job w2
    /\ status (dicts w1 nmpi_job) = target
    /\ status (dicts w2 nmpi_job) = target
    /\ (ticks w <= n1 < ticks w1)%nat
    /\ (ticks w1 <= n2 < ticks w2)%nat
    /\ log (dicts w1 nmpi_job)
       = Some (or_default (log (dicts w nmpi_job)) ""
                 ++ (pre ++ isoformat env n1 ++ suf))
    /\ log (dicts w2 nmpi_job)
       = Some (or_default (log (dicts w nmpi_job)) ""
                 ++ (pre ++ isoformat env n1 ++ suf)
                 ++ (pre ++ isoformat env n2 ++ suf))
    /\ same_request (dicts w nmpi_job) (dicts w1 nmpi_job)
    /\ same_request (dicts w1 nmpi_job) (dicts w2 nmpi_job)
    /\ completion env st (ticks w) (dicts w nmpi_job) (dicts w1 nmpi_job)
    /\ completion env st (ticks w1) (dicts w1 nmpi_job) (dicts w2 nmpi_job)
    /\ in_place nmpi_job w w1
    /\ in_place nmpi_job w1 w2.

(** The URL under which [_handle_output_data] registers a new file. *)
Definition item_url (cfg : Config) (wd new_file : string) : string :=
  DATA_SERVER cfg ++ "/" ++ PyPath.basename wd ++ "/" ++ new_file.

(** The last character of a string. *)
Fixpoint last_char (s : string) : option ascii :=
  match s with
  | EmptyString => None
  | String c EmptyString => Some c
  | String _ r => last_char r
  end.

(** A path that [join] extends with a separator. *)
Definition good (s : string) : Prop := s <> "" /\ PyStr.endswith "/" s = false.

(** The directory reached from [top] through the components [ds]. *)
Fixpoint under (top : string) (ds : list string) : string :=
  match ds with
  | [] => top
  | n :: r => under (top ++ "/" ++ n) r
  end.

(** Induction on a directory tree, with the hypothesis for every
    sub-directory. *)
Fixpoint dir_rec' (P : dir -> Prop)
         (H : forall files subs,
             Forall (fun p => P (snd p)) subs -> P (Dir files subs))
         (d : dir) : P d :=
  match d with
  | Dir files subs =>
      H files subs
        ((fix each (l : list (string * dir)) : Forall (fun p => P (snd p)) l :=
            match l with
            | [] => Forall_nil _
            | p :: r => Forall_cons p (dir_rec' P H (snd p)) (each r)
            end) subs)
  end.

(** The body of the loop over [os.walk], for one triple. *)
Definition visit (root : string) (timestamp : Z) (ignore_extensions : list string)
           (triple : string * list string * list (string * Z))
  : list string :=
  let '(r, _, files) := triple in
  flat_map
    (fun file =>
       if negb (PyStr.mem (snd (PyPath.splitext (fst file))) ignore_extensions)
       then
         if snd file >=? timestamp
         then [PyPath.join (PyStr.slice_from r (PyStr.len root + PyStr.len "/"))
                           (fst file)]
         else []
       else [])
    files.

(** No character of [s] is the separator. *)
Definition no_slash (s : string) : bool :=
  forallb (fun c => negb (Ascii.eqb c "/"%char)) (list_ascii_of_string s).

(** The queue status each backend state with an entry in the switch maps to. *)
Definition status_of_state (st : State) : string :=
  match st with
  | PENDING => "submitted"
  | RUNNING => "running"
  | DONE => "finished"
  | FAILED => "error"
  | CANCELED => ""
  end.

(** The requests [update_job] sends for a job: the job without its log,
    then the log when there is a non-empty one. *)
Definition update_requests (cfg : Config) (j : Job) : list Request :=
  PutJob (job_server cfg ++ resource_uri j) (with_log None j)
    :: match log j with
       | Some (String c r) => [PutLog (id j) (String c r)]
       | _ => []
       end.

(** [c] returns a value from every world: it neither raises nor runs out
    of fuel. *)
Definition always_returns {A : Type} (c : M A) : Prop :=
  forall w, exists a w', c w = Ok a w'.

(** The elements a loop leaves behind when it removes the element it is at
    and then steps to the next index: those at the odd positions. *)
Fixpoint passed_over {A : Type} (l : list A) : list A :=
  match l with
  | _ :: y :: r => y :: passed_over r
  | _ => []
  end.

(** The number of occurrences of a character in a string. *)
Fixpoint count_char (c : ascii) (s : string) : nat :=
  match s with
  | EmptyString => 0
  | String a r => (if Ascii.eqb a c then 1 else 0) + count_char c r
  end.

(** A line that [load_config] reads: no comment, at least five characters. *)
Definition read_line (line : string) : bool :=
  negb (PyStr.startswith "#" line) && (5 <=? PyStr.len line).

(** * Properties *)

(** ** Log truncation *)

Section Truncation.

Lemma take_length (n : nat) (s : string) :
  String.length (PyStr.take n s) = Nat.min n (String.length s).
Proof.
  revert s; induction n as [|n IH]; intros [|c r]; simpl; auto.
Qed.

Lemma drop_length (n : nat) (s : string) :
  String.length (PyStr.drop n s) = (String.length s - n)%nat.
Proof.
  revert s; induction n as [|n IH]; intros [|c r]; simpl; auto.
Qed.

Lemma str_length_app (a b : string) :
  String.length (a ++ b) = (String.length a + String.length b)%nat.
Proof.
  induction a as [|c a IH]; simpl; [reflexivity | now rewrite IH].
Qed.

Lemma len_append (a b : string) : PyStr.len (a ++ b) = PyStr.len a + PyStr.len b.
Proof.
  unfold PyStr.len. rewrite str_length_app. lia.
Qed.

Lemma slice_to_head (s : string) (M : Z) :
  1 <= M -> PyStr.len s > M ->
  PyStr.slice_to s (M / 2) = PyStr.take (Z.to_nat (M / 2)) s.
Proof.
  intros HM Hlen. unfold PyStr.slice_to, PyStr.clip.
  assert (0 <= M / 2 <= M) by (split; [apply Z.div_pos | apply Z.div_le_upper_bound]; lia).
  destruct (Z.ltb_spec (M / 2) 0); [lia|].
  rewrite Z.min_l by lia. reflexivity.
Qed.

Lemma neg_half (M : Z) : (- M) / 2 = - ((M + 1) / 2).
Proof.
  pose proof (Z.div_mod (- M) 2) as H1. pose proof (Z.div_mod (M + 1) 2) as H2.
  pose proof (Z.mod_pos_bound (- M) 2) as B1.
  pose proof (Z.mod_pos_bound (M + 1) 2) as B2.
  lia.
Qed.

Lemma slice_from_tail (s : string) (M : Z) :
  1 <= M -> PyStr.len s > M ->
  PyStr.slice_from s ((- M) / 2)
  = PyStr.last_chars (Z.to_nat ((M + 1) / 2)) s.
Proof.
  intros HM Hlen. unfold PyStr.slice_from, PyStr.clip, PyStr.last_chars.
  rewrite neg_half.
  assert (1 <= (M + 1) / 2 <= M)
    by (split; [apply Z.div_le_lower_bound | apply Z.div_le_upper_bound]; lia).
  destruct (Z.ltb_spec (- ((M + 1) / 2)) 0); [|lia].
  f_equal. unfold PyStr.len in *. lia.
Qed.

End Truncation.

(** C5, as stated, fails for an odd maximum: with M = 3 the code keeps the
    last two characters of "abcde", the specification's wording the last one. *)
Lemma truncate_string_odd_counterexample :
  truncate_string "abcde" 3 <> truncate_string_spec "abcde" 3.
Proof.
  vm_compute. discriminate.
Qed.

(** C5 (amended): for a maximum M >= 1, a string longer than M becomes its
    first floor(M/2) characters, the marker, and its last ceil(M/2)
    characters (which is the specification's wording when M is even, as the
    configured 10000 is); a string of length at most M is returned
    unchanged; and the result is never longer than M plus the marker. *)
Theorem truncate_string_shape (s : string) (M : Z) :
  1 <= M ->
  (PyStr.len s > M ->
   truncate_string s M
   = PyStr.take (Z.to_nat (M / 2)) s ++ TRUNCATED
       ++ PyStr.last_chars (Z.to_nat ((M + 1) / 2)) s)
  /\ (PyStr.len s > M -> M mod 2 = 0 ->
      truncate_string s M = truncate_string_spec s M)
  /\ (PyStr.len s <= M -> truncate_string s M = s)
  /\ PyStr.len (truncate_string s M) <= M + PyStr.len TRUNCATED.
Proof.
  intros HM.
  assert (Hlong : PyStr.len s > M ->
                  truncate_string s M
                  = PyStr.take (Z.to_nat (M / 2)) s ++ TRUNCATED
                      ++ PyStr.last_chars (Z.to_nat ((M + 1) / 2)) s).
  { intros Hlen. unfold truncate_string.
    destruct (Z.gtb_spec (PyStr.len s) M); [|lia].
    rewrite slice_to_head, slice_from_tail by assumption. reflexivity. }
  repeat split.
  - exact Hlong.
  - intros Hlen Heven. rewrite (Hlong Hlen). unfold truncate_string_spec.
    destruct (Z.gtb_spec (PyStr.len s) M); [|lia].
    replace ((M + 1) / 2) with (M / 2); [reflexivity|].
    pose proof (Z.div_mod M 2). pose proof (Z.div_mod (M + 1) 2).
    pose proof (Z.mod_pos_bound (M + 1) 2). lia.
  - intros Hlen. unfold truncate_string.
    destruct (Z.gtb_spec (PyStr.len s) M); [lia|reflexivity].
  - destruct (Z_le_gt_dec (PyStr.len s) M) as [Hle|Hgt].
    + unfold truncate_string.
      destruct (Z.gtb_spec (PyStr.len s) M); [lia|].
      unfold PyStr.len in *. lia.
    + rewrite (Hlong Hgt). rewrite !len_append.
      unfold PyStr.len at 1 3. unfold PyStr.last_chars.
      rewrite take_length, drop_length.
      pose proof (Z.div_mod M 2). pose proof (Z.div_mod (M + 1) 2).
      pose proof (Z.mod_pos_bound M 2). pose proof (Z.mod_pos_bound (M + 1) 2).
      assert (0 <= M / 2) by (apply Z.div_pos; lia).
      assert (0 <= (M + 1) / 2) by (apply Z.div_pos; lia).
      unfold PyStr.len in *. lia.
Qed.

(** The theorem at M = 3 on "abcde". *)
Lemma truncate_string_shape_witness :
  1 <= 3
  /\ truncate_string "abcde" 3
     = PyStr.take 1 "abcde" ++ TRUNCATED ++ PyStr.last_chars 2 "abcde".
Proof.
  split; [lia|].
  apply (proj1 (truncate_string_shape "abcde" 3 ltac:(lia))).
  vm_compute. reflexivity.
Defined.

(** ** Frame reasoning: what a computation leaves alone *)

Section Frames.

Context {X : Type} (proj : World -> X).

Lemma preserves_ret {A : Type} (a : A) : preserves proj (ret a).
Proof. intros w; reflexivity. Qed.

Lemma preserves_raise {A : Type} (e : exn) : preserves proj (@raise A e).
Proof. intros w; reflexivity. Qed.

Lemma preserves_bind {A B : Type} (c : M A) (k : A -> M B) :
  preserves proj c -> (forall a, preserves proj (k a)) -> preserves proj (bind c k).
Proof.
  intros Hc Hk w. unfold bind. specialize (Hc w).
  destruct (c w) as [a w1|e w1|]; auto.
  specialize (Hk a w1). destruct (k a w1); congruence.
Qed.

Lemma preserves_try {A : Type} (c : M A) (h : exn -> M A) :
  preserves proj c -> (forall e, preserves proj (h e)) -> preserves proj (try_except c h).
Proof.
  intros Hc Hh w. unfold try_except. specialize (Hc w).
  destruct (c w) as [a w1|e w1|]; auto.
  specialize (Hh e w1). destruct (h e w1); congruence.
Qed.

Lemma preserves_ok {A : Type} (c : M A) (w w' : World) (a : A) :
  preserves proj c -> c w = Ok a w' -> proj w' = proj w.
Proof. intros H E. specialize (H w). now rewrite E in H. Qed.

Lemma preserves_raised {A : Type} (c : M A) (w w' : World) (e : exn) :
  preserves proj c -> c w = Raise e w' -> proj w' = proj w.
Proof. intros H E. specialize (H w). now rewrite E in H. Qed.

Lemma preserves_finishes {A : Type} (c : M A) (w : World) :
  preserves proj c -> c w <> Diverge.
Proof. intros H E. specialize (H w). now rewrite E in H. Qed.

(** What is preserved stays preserved under a function of it. *)
Lemma preserves_compose {Y A : Type} (g : X -> Y) (c : M A) :
  preserves proj c -> preserves (fun w => g (proj w)) c.
Proof.
  intros H w. specialize (H w). destruct (c w); auto; now rewrite H.
Qed.

End Frames.

(** A primitive effect preserves a projection it does not write. *)
Ltac prim_frame :=
  let w := fresh "w" in
  intros w; cbv beta iota zeta delta [get_dict modify new_dict get_list set_list now
    time_now _put saga_wait get_state exists_path makedirs write_file copyfile
    client_create_data_item service_create_job saga_job_run list_remove job_in
    read_output ret];
  repeat (match goal with
          | |- context [match ?x with _ => _ end] =>
              lazymatch x with
              | context [match _ with _ => _ end] => fail
              | _ => destruct x
              end
          end; cbv beta iota zeta);
  try reflexivity.

Create HintDb frames.

(** Composite computations: follow the structure of the code. *)
Ltac frame_step :=
  first
    [ solve [auto with frames]
    | apply preserves_ret
    | apply preserves_raise
    | apply preserves_bind; [|intros ?]
    | apply preserves_try; [|intros ?]
    | match goal with
      | H : preserves _ ?c |- preserves _ ?c => exact H
      | H : forall x, preserves _ _ |- preserves _ _ => apply H
      | |- preserves _ (match ?x with _ => _ end) => destruct x
      | |- preserves _ (if ?x then _ else _) => destruct x
      | |- preserves _ (let (_, _) := ?x in _) => destruct x
      end ].

Ltac frame := repeat frame_step; auto with frames; try solve [prim_frame].

(** Everything the wait loop calls, the removal from the list apart, leaves
    the store of lists alone. *)
Section ListStoreFrame.

Variable env : Env.
Variable cfg : Config.

Lemma store_pop_log r : preserves list_store (pop_log r).
Proof. unfold pop_log. frame. Qed.
Hint Resolve store_pop_log : frames.

Lemma store_read_output s : preserves list_store (read_output env s).
Proof. prim_frame. Qed.
Hint Resolve store_read_output : frames.

Lemma store_job_pending r s : preserves list_store (job_pending env r s).
Proof. unfold job_pending. frame. Qed.

Lemma store_job_running r s : preserves list_store (job_running env r s).
Proof. unfold job_running. frame. Qed.

Lemma store_job_done r s : preserves list_store (job_done env r s).
Proof. unfold job_done. frame. Qed.

Lemma store_job_failed r s : preserves list_store (job_failed env r s).
Proof. unfold job_failed. frame. Qed.

Lemma store_update_job r : preserves list_store (update_job env cfg r).
Proof. unfold update_job. frame. Qed.
Hint Resolve store_update_job : frames.

Lemma store_kill_job r m : preserves list_store (kill_job env cfg r m).
Proof. unfold kill_job. frame. Qed.

Lemma store_update_status r s :
  preserves list_store (_update_status env cfg r s (default_job_states env)).
Proof.
  unfold _update_status. apply preserves_bind; [prim_frame|intros st].
  destruct st; simpl; frame;
    auto using store_job_pending, store_job_running, store_job_done,
               store_job_failed.
Qed.

Lemma store_copy_new_files wd od l :
  preserves list_store (copy_new_files env wd od l).
Proof. induction l as [|f l IH]; simpl; frame. Qed.
Hint Resolve store_copy_new_files : frames.

Lemma store_copy_output d l : preserves list_store (copy_output env cfg d l).
Proof. unfold copy_output. frame. Qed.

Lemma store_post_data_items r wd l :
  preserves list_store (post_data_items env cfg r wd l).
Proof. induction l as [|f l IH]; simpl; frame. Qed.
Hint Resolve store_post_data_items : frames.

Lemma store_handle_output_data r s :
  preserves list_store (_handle_output_data env cfg r s).
Proof. unfold _handle_output_data, handle_new_files, copy_output. frame. Qed.

End ListStoreFrame.

(** The wait loop: one tuple, then one pass over the list. *)
Section WaitLoop.

Variable env : Env.
Variable cfg : Config.

Lemma remove_tuple_length w x l l' :
  remove_tuple w x l = Some l' -> S (List.length l') = List.length l.
Proof.
  revert l'; induction l as [|y l IH]; intros l'; cbn [remove_tuple]; [discriminate|].
  destruct (tuple_eqb w y x).
  - intros E; inversion E; reflexivity.
  - destruct (remove_tuple w x l) as [r|]; [|discriminate].
    intros E; inversion E. cbn [List.length]. now rewrite (IH r eq_refl).
Qed.

(** [l.remove(x)] makes no list and shortens the one it works on. *)
Lemma list_remove_effect a x w :
  match list_remove a x w with
  | Ok _ w' => nlists w' = nlists w
               /\ S (List.length (lists w' a)) = List.length (lists w a)
  | Raise _ w' => w' = w
  | Diverge => False
  end.
Proof.
  unfold list_remove.
  destruct (remove_tuple w x (lists w a)) as [l'|] eqn:E; [|reflexivity].
  unfold set_list. cbn [nlists lists set_lists]. split; [reflexivity|].
  unfold upd. rewrite Nat.eqb_refl. exact (remove_tuple_length _ _ _ _ E).
Qed.

Lemma nlists_list_remove a x : preserves nlists (list_remove a x).
Proof.
  intros w. pose proof (list_remove_effect a x w) as H.
  destruct (list_remove a x w); [tauto|now subst|exact H].
Qed.

Lemma nlists_of_store {A : Type} (c : M A) :
  preserves list_store c -> preserves nlists c.
Proof. exact (preserves_compose list_store snd c). Qed.

Lemma lists_of_store {A : Type} (c : M A) :
  preserves list_store c -> preserves lists c.
Proof. exact (preserves_compose list_store fst c). Qed.

(** One tuple: the step finishes and makes no list. *)
Lemma nlists_wait_step a r s : preserves nlists (wait_step env cfg a r s).
Proof.
  unfold wait_step.
  repeat first
    [ apply nlists_list_remove
    | apply nlists_of_store;
      first [ apply store_handle_output_data | apply store_kill_job
            | apply store_update_status ]
    | frame_step
    | solve [prim_frame] ].
Qed.

(** One tuple: the list does not grow. *)
Lemma wait_step_shrinks a r s w :
  match wait_step env cfg a r s w with
  | Ok _ w' => (List.length (lists w' a) <= List.length (lists w a))%nat
  | _ => True
  end.
Proof.
  unfold wait_step. unfold bind at 1, saga_wait. unfold bind at 1, get_state.
  destruct (saga_state env _ _); try exact I.
  - unfold bind at 1.
    match goal with
    | |- context [_handle_output_data env cfg r s ?W] => set (w0 := W)
    end.
    assert (Hw0 : lists w0 = lists w) by reflexivity.
    pose proof (lists_of_store _ (store_handle_output_data env cfg r s) w0) as Hh.
    destruct (_handle_output_data env cfg r s w0) as [err w1|e w1|]; try exact I.
    destruct (truthy err).
    + unfold bind at 1.
      pose proof (lists_of_store _ (store_kill_job env cfg r (or_default err "")) w1) as Hk.
      destruct (kill_job env cfg r (or_default err "") w1) as [u w2|e w2|]; try exact I.
      pose proof (list_remove_effect a (r, s) w2) as Hr.
      destruct (list_remove a (r, s) w2) as [u' w3|e w3|]; try exact I.
      rewrite <- Hw0, <- Hh, <- Hk. lia.
    + unfold bind at 1.
      pose proof (list_remove_effect a (r, s) w1) as Hr.
      destruct (list_remove a (r, s) w1) as [u' w2|e w2|]; try exact I.
      unfold bind at 1.
      pose proof (lists_of_store _ (store_update_status env cfg r s) w2) as Hu.
      destruct (_update_status env cfg r s (default_job_states env) w2)
        as [n w3|e w3|]; try exact I.
      unfold ret. rewrite Hu, <- Hw0, <- Hh. lia.
  - unfold bind at 1.
    match goal with
    | |- context [list_remove a (r, s) ?W] => set (w0 := W)
    end.
    assert (Hw0 : lists w0 = lists w) by reflexivity.
    pose proof (list_remove_effect a (r, s) w0) as Hr.
    destruct (list_remove a (r, s) w0) as [u' w2|e w2|]; try exact I.
    unfold bind at 1.
    pose proof (lists_of_store _ (store_update_status env cfg r s) w2) as Hu.
    destruct (_update_status env cfg r s (default_job_states env) w2)
      as [n w3|e w3|]; try exact I.
    unfold ret. rewrite Hu, <- Hw0. lia.
Qed.

(** One pass of the [for] loop ends within the steps allotted to it, and
    makes no list. *)
Lemma for_pending_settles steps i a w :
  (List.length (lists w a) - i < steps)%nat ->
  match for_pending env cfg steps i a w with
  | Ok _ w' | Raise _ w' => nlists w' = nlists w
  | Diverge => False
  end.
Proof.
  revert i w; induction steps as [|k IH]; intros i w Hlen; [lia|].
  cbn [for_pending]. unfold bind at 1, get_list.
  destruct (nth_error (lists w a) i) as [[r s]|] eqn:En; [|reflexivity].
  assert (Hi : (i < List.length (lists w a))%nat)
    by (apply nth_error_Some; congruence).
  unfold bind at 1.
  pose proof (nlists_wait_step a r s w) as Hn.
  pose proof (wait_step_shrinks a r s w) as Hs.
  destruct (wait_step env cfg a r s w) as [u w1|e w1|]; [|exact Hn|exact Hn].
  specialize (IH (S i) w1). rewrite Hn in IH. apply IH. lia.
Qed.

End WaitLoop.

(** ** Retrieval, waiting and the cycle *)

Section Cycle.

Variable env : Env.
Variable cfg : Config.

(** The retrieval loop hands back the list it was given. *)
Lemma retrieve_loop_keeps fuel pending w l w' :
  retrieve_loop env fuel pending w = Ok l w' -> l = pending.
Proof.
  revert w; induction fuel as [|n IH]; intros w; simpl; [discriminate|].
  unfold bind, get_next_job.
  destruct (next_job env (fetches w)) as [j|]; simpl.
  - unfold bind, job_in; simpl.
    match goal with |- context [existsb ?f ?l] => destruct (existsb f l) end.
    + unfold ret. intros E; inversion E; reflexivity.
    + apply IH.
  - unfold ret. intros E; inversion E; reflexivity.
Qed.

(** The retrieval loop raises nothing. *)
Lemma retrieve_loop_no_raise fuel pending w e w' :
  retrieve_loop env fuel pending w <> Raise e w'.
Proof.
  revert w; induction fuel as [|n IH]; intros w; simpl; [discriminate|].
  unfold bind, get_next_job.
  destruct (next_job env (fetches w)) as [j|]; simpl.
  - unfold bind, job_in; simpl.
    match goal with |- context [existsb ?f ?l] => destruct (existsb f l) end.
    + unfold ret. discriminate.
    + apply IH.
  - unfold ret. discriminate.
Qed.

(** One round of the outer loop, spelled out. *)
Lemma wait_on_completion_S n a w :
  wait_on_completion env cfg (S n) a w
  = let w1 := set_lists w (upd (lists w) (nlists w) []) (S (nlists w)) in
    if Nat.eqb a (nlists w) then Ok tt w1
    else match for_pending env cfg (S (List.length (lists w1 a))) 0 a w1 with
         | Ok _ w2 => wait_on_completion env cfg n a w2
         | Raise e w2 => Raise e w2
         | Diverge => Diverge
         end.
Proof.
  cbn [wait_on_completion]. unfold bind at 1, new_list.
  destruct (Nat.eqb a (nlists w)); reflexivity.
Qed.

(** Once the list object exists, no list made later is that object, so
    the test [pending_jobs is []] fails and the loop has no exit. *)
Lemma wait_has_no_exit fuel a w :
  (a < nlists w)%nat -> returned (wait_on_completion env cfg fuel a w) = false.
Proof.
  revert w; induction fuel as [|n IH]; intros w Ha; [reflexivity|].
  rewrite wait_on_completion_S. cbv zeta.
  destruct (Nat.eqb_spec a (nlists w)) as [E|_]; [lia|].
  match goal with |- context [for_pending env cfg ?s ?i ?x ?w0] =>
    pose proof (for_pending_settles env cfg s i x w0 ltac:(lia)) as Hfr;
    destruct (for_pending env cfg s i x w0) as [u w2|e w2|]
  end; try reflexivity.
  apply IH. simpl in Hfr. lia.
Qed.

(** With nothing in flight the loop spins: it neither returns nor raises. *)
Lemma wait_empty_diverges fuel a w :
  (a < nlists w)%nat -> lists w a = [] ->
  wait_on_completion env cfg fuel a w = Diverge.
Proof.
  revert w; induction fuel as [|n IH]; intros w Ha Hl; [reflexivity|].
  rewrite wait_on_completion_S. cbv zeta.
  destruct (Nat.eqb_spec a (nlists w)) as [E|Hne]; [lia|].
  assert (Hl1 : lists (set_lists w (upd (lists w) (nlists w) []) (S (nlists w))) a = []).
  { simpl. unfold upd. destruct (Nat.eqb_spec a (nlists w)); [lia|assumption]. }
  rewrite Hl1. cbn [List.length for_pending].
  unfold bind at 1, get_list. rewrite Hl1. cbn [nth_error]. unfold ret.
  apply IH; [simpl; lia | exact Hl1].
Qed.

End Cycle.

(** C1 (the code departs from it): [retrieve_pending_jobs] never adds a job
    to the list it returns; whenever it returns, it returns the empty list,
    whatever the queue served. *)
Theorem retrieve_pending_jobs_returns_empty (env : Env) (fuel : nat)
        (w w' : World) (l : list nat) :
  retrieve_pending_jobs env fuel w = Ok l w' -> l = [].
Proof.
  unfold retrieve_pending_jobs. apply retrieve_loop_keeps.
Qed.

(** The queue serves [job1] and then nothing: the job is fetched (a
    dictionary is made for it) and the list returned is empty. *)
Lemma retrieve_pending_jobs_returns_empty_witness :
  next_job Example.env0 0 = Some Example.job1
  /\ next_job Example.env0 1 = None
  /\ exists w', retrieve_pending_jobs Example.env0 2 Example.w0 = Ok [] w'
                /\ fetches w' = 2%nat.
Proof.
  split; [reflexivity|]. split; [reflexivity|].
  destruct (retrieve_pending_jobs Example.env0 2 Example.w0) as [l w'| |] eqn:E.
  - exists w'.
    rewrite (retrieve_pending_jobs_returns_empty Example.env0 2 Example.w0 w' l E).
    split; [reflexivity|].
    vm_compute in E. inversion E. reflexivity.
  - vm_compute in E. discriminate E.
  - vm_compute in E. discriminate E.
Defined.

(** C2 (the code departs from it): [wait_on_completion] never returns.  Its
    only exit is the test [pending_jobs is []], which compares the identity
    of the in-flight list with a list made on the spot; when the in-flight
    list is empty the loop goes on polling nothing. *)
Theorem wait_on_completion_never_returns (env : Env) (cfg : Config)
        (fuel : nat) (pending_jobs : nat) (w : World) :
  (pending_jobs < nlists w)%nat ->
  returned (wait_on_completion env cfg fuel pending_jobs w) = false
  /\ (lists w pending_jobs = [] ->
      wait_on_completion env cfg fuel pending_jobs w = Diverge).
Proof.
  intros Ha. split.
  - now apply wait_has_no_exit.
  - now apply wait_empty_diverges.
Qed.

(** One job in flight, DONE at the backend: the loop is still running after
    five rounds. *)
Lemma wait_on_completion_never_returns_witness :
  (0 < nlists Example.w1)%nat
  /\ returned (wait_on_completion Example.env0 Example.cfg0 5 0 Example.w1) = false.
Proof.
  split; [vm_compute; lia|].
  apply (proj1 (wait_on_completion_never_returns
                  Example.env0 Example.cfg0 5 0 Example.w1
                  ltac:(vm_compute; lia))).
Defined.

(** In that run the job leaves the in-flight list in the first pass, and the
    rounds after it poll an empty list. *)
Example wait_on_completion_drains_then_spins :
  (exists w', for_pending Example.env0 Example.cfg0 2 0 0 Example.w1 = Ok tt w'
              /\ lists w' 0%nat = [])
  /\ wait_on_completion Example.env0 Example.cfg0 5 0 Example.w1 = Diverge.
Proof.
  split; [|vm_compute; reflexivity].
  destruct (for_pending Example.env0 Example.cfg0 2 0 0 Example.w1)
    as [[] w'| |] eqn:E; vm_compute in E; try discriminate E.
  exists w'. split; [reflexivity|].
  inversion E. reflexivity.
Qed.

(** C3 (the code departs from it): [next] never returns a value.  Retrieval
    hands an empty list to [submit_jobs], and [wait_on_completion] then has
    no exit; the list [next] would return is the list object that the wait
    loop removes every finished job from. *)
Theorem next_never_returns (env : Env) (cfg : Config) (fuel : nat) (w : World) :
  returned (next env cfg fuel w) = false.
Proof.
  unfold next. unfold bind at 1.
  destruct (retrieve_pending_jobs env fuel w) as [l w1|e w1|] eqn:E;
    [|reflexivity|reflexivity].
  apply retrieve_loop_keeps in E. subst l.
  unfold bind at 1. unfold submit_jobs. unfold bind at 1, new_list.
  cbn [submit_loop]. unfold bind at 1. unfold ret at 1. unfold ret at 1.
  unfold bind at 1.
  match goal with |- context [wait_on_completion env cfg fuel ?a ?w0] =>
    pose proof (wait_has_no_exit env cfg fuel a w0) as H;
    destruct (wait_on_completion env cfg fuel a w0)
  end; try reflexivity.
  simpl in H. discriminate H. lia.
Qed.

(** The cycle on the example platform: the queue serves one job, and the
    cycle is still running when the fuel is spent. *)
Example next_diverges_on_example :
  next Example.env0 Example.cfg0 7 Example.w0 = Diverge.
Proof.
  vm_compute. reflexivity.
Qed.

(** ** The queue client: kill_job *)

Lemma mem_In (x : string) (l : list string) : PyStr.mem x l = true <-> In x l.
Proof.
  induction l as [|y l IH]; simpl; [split; [discriminate|tauto]|].
  rewrite orb_true_iff, IH, String.eqb_eq. split; intros [H|H]; auto.
Qed.

Lemma mem_not_In (x : string) (l : list string) : PyStr.mem x l = false <-> ~ In x l.
Proof.
  rewrite <- mem_In. destruct (PyStr.mem x l); split; congruence.
Qed.

(** C6: [kill_job] on a job whose status is neither running nor submitted
    raises and leaves the job and the server as they were; on a running or
    submitted job it sets the status to error, whatever the server answers,
    and, the server accepting the two requests, it sends the job and then
    the log followed by the operator message and the supplied message. *)
Theorem kill_job_contract (env : Env) (cfg : Config) (job : nat)
        (error_message : string) (w : World) :
  let j := dicts w job in
  (~ In (status j) ["running"; "submitted"] ->
   kill_job env cfg job error_message w
   = Raise (Exception_ ("You cannot kill a job with status " ++ status j)) w)
  /\ (In (status j) ["running"; "submitted"] ->
      let j' := with_log None (with_status "error" j) in
      let sent := PutJob (job_server cfg ++ resource_uri j) j' in
      let logged := PutLog (id j)
                      (or_default (log j) ""
                         ++ ("Internal error. Please resubmit the job" ++ NL)
                         ++ error_message) in
      exists w',
        (kill_job env cfg job error_message w = Ok tt w'
         \/ exists e, kill_job env cfg job error_message w = Raise e w')
        /\ dicts w' job = j'
        /\ (put_ok env sent = true -> put_ok env logged = true ->
            kill_job env cfg job error_message w = Ok tt w'
            /\ remote w' = (remote w ++ [sent; logged])%list)).
Proof.
  intros j. split.
  - intros Hout. apply mem_not_In in Hout.
    unfold kill_job. unfold bind at 1, get_dict. fold j. rewrite Hout. reflexivity.
  - intros Hin j' sent logged. apply mem_In in Hin.
    remember (kill_job env cfg job error_message w) as k eqn:Hk.
    unfold kill_job in Hk. unfold bind at 1, get_dict in Hk. fold j in Hk.
    rewrite Hin in Hk. cbn [negb] in Hk.
    unfold bind, modify, pop_log, get_dict, bind, modify, ret, _put in Hk.
    cbn [dicts set_dicts ndicts remote set_remote] in Hk. unfold upd in Hk.
    rewrite !Nat.eqb_refl in Hk.
    cbn [log with_log with_status resource_uri id] in Hk.
    fold j j' in Hk. fold sent in Hk.
    assert (Happ : (or_default (log j) ""
                      ++ "Internal error. Please resubmit the job" ++ NL)
                     ++ error_message
                   = or_default (log j) ""
                       ++ ("Internal error. Please resubmit the job" ++ NL)
                       ++ error_message).
    { generalize (or_default (log j) "") as a.
      intros a; induction a as [|c a IH]; simpl; [reflexivity|].
      simpl in IH. now rewrite IH. }
    rewrite Happ in Hk. fold logged in Hk.
    destruct (put_ok env sent) eqn:Es.
    + destruct (put_ok env logged) eqn:El; subst k.
      * eexists. split; [left; reflexivity|].
        split; [cbn; now rewrite Nat.eqb_refl|].
        intros _ _. split; [reflexivity|].
        cbn. rewrite <- app_assoc. reflexivity.
      * eexists. split; [right; eexists; reflexivity|].
        split; [cbn; now rewrite Nat.eqb_refl|].
        intros _ Hf. discriminate Hf.
    + subst k. eexists. split; [right; eexists; reflexivity|].
      split; [cbn; now rewrite Nat.eqb_refl|].
      intros Hf. discriminate Hf.
Qed.

(** A finished job cannot be killed; a submitted one ends in error with its
    log sent. *)
Lemma kill_job_contract_witness :
  (let finished := set_dicts Example.w0
                     (upd (dicts Example.w0) 0%nat
                          (with_status "finished" Example.job1)) 1 in
   kill_job Example.env0 Example.cfg0 0 "boom" finished
   = Raise (Exception_ "You cannot kill a job with status finished") finished)
  /\ exists w',
      kill_job Example.env0 Example.cfg0 0 "boom" Example.w0 = Ok tt w'
      /\ status (dicts w' 0%nat) = "error"
      /\ remote w'
         = [PutJob "https://nmpi.example/api/v2/queue/1"
                   (with_log None (with_status "error" Example.job1));
            PutLog 1 ("Internal error. Please resubmit the job" ++ NL ++ "boom")].
Proof.
  split.
  - intros finished.
    apply (proj1 (kill_job_contract Example.env0 Example.cfg0 0 "boom" finished)).
    vm_compute. intros [H|[H|[]]]; discriminate H.
  - destruct (proj2 (kill_job_contract Example.env0 Example.cfg0 0 "boom" Example.w0))
      as [w' [_ [Hd Hok]]].
    + vm_compute. right. left. reflexivity.
    + destruct Hok as [Hk Hr]; [reflexivity|reflexivity|].
      exists w'. split; [exact Hk|]. split; [rewrite Hd; reflexivity|].
      rewrite Hr. reflexivity.
Defined.

(** ** Status mapping *)

Lemma append_assoc (a b c : string) : (a ++ b) ++ c = a ++ b ++ c.
Proof.
  induction a as [|x a IH]; simpl; [reflexivity | now rewrite IH].
Qed.

Section StatusMapping.

Variable env : Env.


Ltac run_status_fn f :=
  unfold f, bind, modify, pop_log, bind, get_dict, modify, now, ret;
  cbn [dicts set_dicts ndicts ticks set_ticks remote written lists];
  unfold upd; rewrite ?Nat.eqb_refl;
  cbn [status log with_status with_log with_timestamp_completion
       with_resource_usage with_provenance].

Ltac status_fn_world r :=
  unfold same_request, completion, in_place;
  cbn [dicts set_dicts ndicts lists nlists nsaga fetches polls ticks set_ticks
       remote made_dirs written copied];
  unfold upd; rewrite ?Nat.eqb_refl;
  cbn [id code command hardware_config status log input_data output_data
       resource_uri timestamp_completion resource_usage provenance
       with_status with_log with_timestamp_completion with_resource_usage
       with_provenance];
  repeat split;
  let r' := fresh "r'" in let Hr := fresh "Hr" in
  intros r' Hr; destruct (Nat.eqb_spec r' r); [contradiction|reflexivity].

Lemma job_pending_appends s :
  appends env (job_pending env) s "submitted"
          ("Job ID: " ++ saga_id s ++ NL) ("    pending" ++ NL) 0 1.
Proof.
  intros r w. eexists. split; [run_status_fn job_pending; reflexivity|].
  cbn [dicts set_dicts ticks set_ticks remote written lists].
  rewrite !Nat.eqb_refl. cbn [status log with_status with_log].
  rewrite Nat.add_0_r.
  repeat split; try lia. now rewrite !append_assoc.
Qed.

Lemma job_running_appends s :
  appends env (job_running env) s "running" "" ("    running" ++ NL) 0 1.
Proof.
  intros r w. eexists. split; [run_status_fn job_running; reflexivity|].
  cbn [dicts set_dicts ticks set_ticks remote written lists].
  rewrite !Nat.eqb_refl. cbn [status log with_status with_log].
  rewrite Nat.add_0_r.
  repeat split; try lia.
Qed.


Lemma read_output_streams s w : read_output env s w = Ok (streams env s) w.
Proof.
  unfold read_output, streams.
  destruct (read_file env _); [destruct (read_file env _)|]; reflexivity.
Qed.

Lemma job_done_appends s :
  appends env (job_done env) s "finished" ""
          ("    finished" ++ NL ++ (NL ++ NL)
             ++ truncate_string (fst (streams env s)) MAX_LOG_SIZE
             ++ (NL ++ NL) ++ truncate_string (snd (streams env s)) MAX_LOG_SIZE)
          1 2.
Proof.
  intros r w. eexists. split.
  - run_status_fn job_done. rewrite read_output_streams.
    cbn [dicts set_dicts]. reflexivity.
  - cbn [dicts set_dicts ticks set_ticks remote written lists].
    rewrite !Nat.eqb_refl. cbn [status log with_status with_log].
    repeat split; try lia.
    replace (S (ticks w)) with (ticks w + 1)%nat by lia.
    now rewrite !append_assoc.
Qed.

Lemma job_failed_appends s :
  appends env (job_failed env) s "error" ""
          ("    failed" ++ NL ++ NL
             ++ truncate_string (fst (streams env s)) MAX_LOG_SIZE
             ++ (NL ++ NL ++ "stdout" ++ NL ++ "------" ++ NL ++ NL)
             ++ truncate_string (snd (streams env s)) MAX_LOG_SIZE)
          0 1.
Proof.
  intros r w. eexists. split.
  - run_status_fn job_failed. rewrite read_output_streams.
    cbn [dicts set_dicts]. reflexivity.
  - cbn [dicts set_dicts ticks set_ticks remote written lists].
    rewrite !Nat.eqb_refl. cbn [status log with_status with_log].
    rewrite Nat.add_0_r.
    repeat split; try lia.
    now rewrite !append_assoc.
Qed.

Lemma mapped_state_appends st f s :
  lookup_state st (default_job_states env) = Some f ->
  exists target pre suf k n, (k < n)%nat /\ appends env f s target pre suf k n.
Proof.
  intros H. destruct st; simpl in H; inversion H; subst f.
  - do 5 eexists. split; [|apply job_pending_appends]. lia.
  - do 5 eexists. split; [|apply job_running_appends]. lia.
  - do 5 eexists. split; [|apply job_done_appends]. lia.
  - do 5 eexists. split; [|apply job_failed_appends]. lia.
Qed.

(** What a status function of the switch leaves alone: the keys of the
    request, the completion keys unless the state is DONE, and everything
    in the world but the dictionary it was given and the clock. *)
Lemma status_fn_frame st f r s w w1 :
  lookup_state st (default_job_states env) = Some f ->
  f r s w = Ok r w1 ->
  same_request (dicts w r) (dicts w1 r)
  /\ completion env st (ticks w) (dicts w r) (dicts w1 r)
  /\ in_place r w w1.
Proof.
  intros H. destruct st; simpl in H; inversion H; subst f; clear H.
  - unfold job_pending, bind, modify, pop_log, bind, get_dict, modify, now, ret.
    intros E; inversion E; subst; clear E. status_fn_world r.
  - unfold job_running, bind, modify, pop_log, bind, get_dict, modify, now, ret.
    intros E; inversion E; subst; clear E. status_fn_world r.
  - unfold job_done, bind, modify, pop_log, bind, get_dict, modify, now,
      read_output, ret.
    destruct (read_file env _); [destruct (read_file env _)|];
      intros E; inversion E; subst; clear E; status_fn_world r.
  - unfold job_failed, bind, modify, pop_log, bind, get_dict, modify, now,
      read_output, ret.
    destruct (read_file env _); [destruct (read_file env _)|];
      intros E; inversion E; subst; clear E; status_fn_world r.
Qed.

End StatusMapping.


(** C7, as stated, fails on "side-effect-free": the status functions write
    into the dictionary they are given.  Job 1 (status "submitted", no log)
    handed to [job_done]: the call returns the same dictionary, which now has
    the status "finished" and a log. *)
Lemma status_mapping_side_effect_counterexample :
  (exists w1,
      job_done Example.env0 0 Example.saga1 Example.w0 = Ok 0%nat w1
      /\ status (dicts Example.w0 0%nat) = "submitted"
      /\ status (dicts w1 0%nat) = "finished"
      /\ log (dicts Example.w0 0%nat) = None
      /\ log (dicts w1 0%nat) <> None)
  /\ ~ side_effect_free (job_done Example.env0) Example.saga1.
Proof.
  assert (E : exists w1,
             job_done Example.env0 0 Example.saga1 Example.w0 = Ok 0%nat w1
             /\ status (dicts w1 0%nat) = "finished"
             /\ log (dicts w1 0%nat) <> None).
  { eexists. split; [vm_compute; reflexivity|].
    split; [reflexivity|]. vm_compute. discriminate. }
  destruct E as (w1 & E & S1 & L1). split.
  - exists w1. repeat split; assumption.
  - intros H. specialize (H 0%nat Example.w0 0%nat w1 E).
    apply (f_equal (fun d => status (d 0%nat))) in H.
    rewrite S1 in H. discriminate H.
Qed.

(** C7 (amended): for each backend state with an entry in the states switch
    (pending, running, done, failed), its status function updates the job
    dictionary it is given in place and returns that dictionary.  Applied
    twice, the status after the second call is the status after the first,
    and the two blocks appended to the log differ only in their timestamps.
    The keys of the request are untouched, the completion keys are written
    by [job_done] only, and apart from that one dictionary and the clock the
    world is as before: no other job, no list, nothing sent to the queue, no
    file written or copied, no directory made, no poll of the backend. *)
Theorem status_mapping_idempotent (env : Env) (st : State)
        (f : nat -> SagaJob -> M nat) (saga_job : SagaJob) :
  lookup_state st (default_job_states env) = Some f ->
  repeatable env st f saga_job.
Proof.
  intros H.
  destruct (mapped_state_appends env st f saga_job H)
    as (target & pre & suf & k & n & Hkn & Happ).
  exists target, pre, suf. intros r w.
  destruct (Happ r w) as (w1 & E1 & S1 & L1 & T1 & _).
  destruct (Happ r w1) as (w2 & E2 & S2 & L2 & T2 & _).
  destruct (status_fn_frame env st f r saga_job w w1 H E1) as (Q1 & C1 & F1).
  destruct (status_fn_frame env st f r saga_job w1 w2 H E2) as (Q2 & C2 & F2).
  exists w1, w2, (ticks w + k)%nat, (ticks w1 + k)%nat.
  repeat (split; [first [assumption | lia]|]).
  split.
  - rewrite L2, L1. cbn [or_default]. now rewrite !append_assoc.
  - repeat (split; [assumption|]). exact F2.
Qed.

(** The theorem at the DONE entry of the switch on the example platform. *)
Lemma status_mapping_idempotent_witness :
  lookup_state DONE (default_job_states Example.env0)
  = Some (job_done Example.env0)
  /\ repeatable Example.env0 DONE (job_done Example.env0) Example.saga1.
Proof.
  split; [reflexivity|].
  apply (status_mapping_idempotent Example.env0 DONE (job_done Example.env0)
                                   Example.saga1 eq_refl).
Defined.

(** ** The states switch and the canceled state *)

Section Canceled.

Variable env : Env.
Variable cfg : Config.

(** A state other than DONE and FAILED brings the wait loop to the test
    against [saga_job.job.CANCELED], which raises. *)
Lemma wait_step_other_state a r s w :
  saga_state env (handle s) (S (polls w)) <> DONE ->
  saga_state env (handle s) (S (polls w)) <> FAILED ->
  exists w',
    wait_step env cfg a r s w
    = Raise (AttributeError "'Job' object has no attribute 'job'") w'
    /\ dicts w' = dicts w /\ remote w' = remote w /\ lists w' = lists w.
Proof.
  intros Hd Hf. unfold wait_step. unfold bind at 1, saga_wait.
  unfold bind at 1, get_state. cbn [polls set_polls].
  destruct (saga_state env (handle s) (S (polls w))); try congruence;
    eexists; (split; [reflexivity|]); repeat split.
Qed.

Lemma update_status_canceled r s w :
  saga_state env (handle s) (polls w) = CANCELED ->
  exists w',
    _update_status env cfg r s (default_job_states env) w
    = Raise (KeyError "Canceled") w'
    /\ dicts w' = dicts w /\ remote w' = remote w.
Proof.
  intros H. unfold _update_status. unfold bind at 1, get_state. rewrite H.
  eexists. split; [reflexivity|]. split; reflexivity.
Qed.

End Canceled.

(** C9: the states switch has an entry for pending, running, done and
    failed, each the status function of that state, and none for canceled:
    [_update_status] on a canceled job raises KeyError and leaves the job
    and the queue untouched.  In the wait loop a canceled job raises
    AttributeError at the test against [saga_job.job.CANCELED], before the
    job is removed from the list or its status is updated. *)
Theorem states_switch_partial (env : Env) (cfg : Config) :
  lookup_state PENDING (default_job_states env) = Some (job_pending env)
  /\ lookup_state RUNNING (default_job_states env) = Some (job_running env)
  /\ lookup_state DONE (default_job_states env) = Some (job_done env)
  /\ lookup_state FAILED (default_job_states env) = Some (job_failed env)
  /\ lookup_state CANCELED (default_job_states env) = None
  /\ (forall r s w,
        saga_state env (handle s) (polls w) = CANCELED ->
        exists w',
          _update_status env cfg r s (default_job_states env) w
          = Raise (KeyError "Canceled") w'
          /\ dicts w' = dicts w /\ remote w' = remote w)
  /\ (forall a r s w,
        saga_state env (handle s) (S (polls w)) = CANCELED ->
        exists w',
          wait_step env cfg a r s w
          = Raise (AttributeError "'Job' object has no attribute 'job'") w'
          /\ dicts w' = dicts w /\ remote w' = remote w /\ lists w' = lists w).
Proof.
  repeat (split; [reflexivity|]). split.
  - intros r s w H. now apply update_status_canceled.
  - intros a r s w H. apply wait_step_other_state; rewrite H; discriminate.
Qed.

(** On a backend that reports the job canceled: the status update raises
    KeyError, the wait loop AttributeError. *)
Lemma states_switch_partial_witness :
  saga_state Example.env_canceled (handle Example.saga1) 0 = CANCELED
  /\ (exists w',
        _update_status Example.env_canceled Example.cfg0 0 Example.saga1
                       (default_job_states Example.env_canceled) Example.w1
        = Raise (KeyError "Canceled") w')
  /\ (exists w',
        wait_step Example.env_canceled Example.cfg0 0 0 Example.saga1 Example.w1
        = Raise (AttributeError "'Job' object has no attribute 'job'") w'
        /\ lists w' 0%nat = [(0%nat, Example.saga1)]).
Proof.
  pose proof (states_switch_partial Example.env_canceled Example.cfg0)
    as (_ & _ & _ & _ & _ & Hu & Hw).
  split; [reflexivity|]. split.
  - destruct (Hu 0%nat Example.saga1 Example.w1 eq_refl) as (w' & E & _).
    exists w'. exact E.
  - destruct (Hw 0%nat 0%nat Example.saga1 Example.w1 eq_refl) as (w' & E & _ & _ & L).
    exists w'. split; [exact E|]. rewrite L. reflexivity.
Defined.

(** ** Harvesting: registration of the new files *)

Section Registration.

Variable env : Env.
Variable cfg : Config.


Lemma dicts_copy_new_files wd od l : preserves dicts (copy_new_files env wd od l).
Proof. induction l as [|f l IH]; simpl; frame. Qed.

Lemma dicts_copy_output d l : preserves dicts (copy_output env cfg d l).
Proof. unfold copy_output. frame. apply dicts_copy_new_files. Qed.

(** The registration loop stops at the first refusal and keeps what it
    appended before. *)
Lemma post_data_items_stops r wd pre f post uri_of e w :
  (forall x, In x pre -> create_data_item env (item_url cfg wd x) = inr (uri_of x)) ->
  create_data_item env (item_url cfg wd f) = inl e ->
  exists w',
    post_data_items env cfg r wd (pre ++ f :: post) w
    = Ok (Some ("Failed to create data item remotely at " ++ item_url cfg wd f
                  ++ ": " ++ repr e)) w'
    /\ output_data (dicts w' r) = (output_data (dicts w r) ++ map uri_of pre)%list.
Proof.
  intros Hpre Hf. revert w. induction pre as [|x pre IH]; intros w.
  - cbn [app post_data_items]. unfold bind at 1, try_except.
    unfold bind at 1, client_create_data_item. fold (item_url cfg wd f). rewrite Hf.
    unfold ret. eexists. split; [reflexivity|]. cbn [map]. now rewrite app_nil_r.
  - cbn [app post_data_items]. unfold bind at 1, try_except.
    unfold bind at 1, client_create_data_item. fold (item_url cfg wd x).
    rewrite (Hpre x (or_introl eq_refl)).
    unfold bind at 1, modify. unfold ret at 1.
    match goal with |- context [post_data_items env cfg r wd _ ?w0] =>
      destruct (IH (fun y Hy => Hpre y (or_intror Hy)) w0) as (w' & E & O)
    end.
    exists w'. split; [exact E|]. rewrite O.
    cbn [dicts set_dicts set_remote]. unfold upd. rewrite Nat.eqb_refl.
    cbn [output_data with_output_data map]. now rewrite <- app_assoc.
Qed.

End Registration.

(** C10: when the copy of the new files reported no error, registration
    succeeded for the first k new files and failed for the next one,
    [_handle_output_data] returns the message of that failure and the job's
    [output_data] holds, after what it held before, the k references
    obtained before the failure. *)
Theorem handle_output_data_keeps_partial_appends
        (env : Env) (cfg : Config) (nmpi_job : nat) (saga_job : SagaJob)
        (w w1 : World) (pre post : list string) (f : string)
        (uri_of : string -> string) (e : exn) :
  let wd := working_directory (description saga_job) in
  _find_new_data_files (tree_at env wd) wd (start_time saga_job)
                       default_ignoredirs default_ignore_extensions
  = (pre ++ f :: post)%list ->
  copy_output env cfg (description saga_job) (pre ++ f :: post) w = Ok None w1 ->
  (forall x, In x pre -> create_data_item env (item_url cfg wd x) = inr (uri_of x)) ->
  create_data_item env (item_url cfg wd f) = inl e ->
  exists w',
    _handle_output_data env cfg nmpi_job saga_job w
    = Ok (Some ("Failed to create data item remotely at " ++ item_url cfg wd f
                  ++ ": " ++ repr e)) w'
    /\ output_data (dicts w' nmpi_job)
       = (output_data (dicts w nmpi_job) ++ map uri_of pre)%list
    /\ List.length (output_data (dicts w' nmpi_job))
       = (List.length (output_data (dicts w nmpi_job)) + List.length pre)%nat.
Proof.
  intros wd Hfiles Hcopy Hpre Hf.
  destruct (post_data_items_stops env cfg nmpi_job wd pre f post uri_of e w1 Hpre Hf)
    as (w' & E & O).
  exists w'.
  assert (Hd : dicts w1 = dicts w)
    by exact (preserves_ok dicts _ _ _ _ (dicts_copy_output env cfg _ _) Hcopy).
  assert (Ho : output_data (dicts w' nmpi_job)
               = (output_data (dicts w nmpi_job) ++ map uri_of pre)%list)
    by (rewrite O, Hd; reflexivity).
  split; [|split; [exact Ho|]].
  - unfold _handle_output_data, handle_new_files. fold wd. rewrite Hfiles.
    unfold bind at 1. rewrite Hcopy. unfold bind at 1. rewrite E. reflexivity.
  - rewrite Ho, List.length_app, List.length_map. reflexivity.
Qed.

(** On the example platform the harvest finds a.txt and sub/x; the data
    server registers the first and refuses the second. *)
Lemma handle_output_data_keeps_partial_appends_witness :
  exists w',
    _handle_output_data Example.env0 Example.cfg0 0 Example.saga1 Example.w1
    = Ok (Some ("Failed to create data item remotely at "
                  ++ "https://data.example/job_1/sub/x" ++ ": "
                  ++ repr (IOError "refused"))) w'
    /\ output_data (dicts w' 0%nat)
       = ["/api/v2/dataitem/https://data.example/job_1/a.txt"].
Proof.
  destruct (handle_output_data_keeps_partial_appends
              Example.env0 Example.cfg0 0 Example.saga1 Example.w1 Example.w1
              ["a.txt"] [] "sub/x" (fun x => "/api/v2/dataitem/"
                                               ++ item_url Example.cfg0 "/work/job_1" x)
              (IOError "refused"))
    as (w' & E & O & _).
  - vm_compute. reflexivity.
  - vm_compute. reflexivity.
  - intros x [Hx|[]]. subst x. vm_compute. reflexivity.
  - vm_compute. reflexivity.
  - exists w'. split; [exact E|]. rewrite O. vm_compute. reflexivity.
Defined.

(** ** Code provisioning *)

Section Provisioning.

Variable env : Env.
Variable cfg : Config.

Lemma split_space_nonempty (s : string) : PyPath.split_space s <> [].
Proof.
  induction s as [|a r IH]; simpl; [discriminate|].
  destruct (PyPath.split_space r); [discriminate|].
  destruct (Ascii.eqb a " "); discriminate.
Qed.

(** A job description that was built has a first argument, and building it
    changes nothing. *)
Lemma build_job_description_ok nmpi_job w job_desc w1 :
  _build_job_description env cfg nmpi_job w = Ok job_desc w1 ->
  w1 = w /\ arguments job_desc <> [].
Proof.
  unfold _build_job_description. unfold bind at 1, get_dict.
  unfold bind at 1.
  destruct (String.eqb _ "0.7");
    [|destruct (String.eqb _ "0.8"); [|discriminate]];
    unfold ret at 1;
    (destruct (format_system env _ _); [discriminate|]);
    unfold ret; intros E; inversion E; subst; cbn [arguments];
    (split; [reflexivity | apply split_space_nonempty]).
Qed.

(** [get_code] with its arguments in the declared order, on a code that is
    neither an archive URL nor an http, https or ssh URL: the text is
    written to the script file. *)
Lemma get_code_writes_literal_script wd nmpi_job script_name w :
  let c := code (dicts w nmpi_job) in
  let url_candidate := urlparse env c in
  negb (String.eqb (fst url_candidate) "")
  && endswith_any [".tar.gz"; ".zip"; ".tgz"] (snd url_candidate) = false ->
  PyStr.mem (fst url_candidate) ["http"; "https"; "ssh"] = false ->
  path_exists env wd = true ->
  write_ok env script_name = true ->
  get_code env (PStr wd) (PDict nmpi_job) script_name w
  = Ok None (set_written w (written w ++ [(script_name, c)])).
Proof.
  intros c url_candidate Harch Hurl Hwd Hwr.
  unfold get_code. unfold bind at 1. cbn [subscript_code].
  unfold bind at 1, get_dict, ret. fold c. fold url_candidate.
  rewrite Harch, Hurl.
  unfold write_script, try_except, bind, as_path, ret, create_working_directory,
    bind, exists_path, subscript_code, bind, get_dict, ret, write_file.
  rewrite Hwd. cbn [orb negb]. unfold ret. rewrite Hwr. reflexivity.
Qed.

End Provisioning.

(** C8 (the code departs from it): [run] calls [get_code] with the job where
    the working directory is expected and the working directory where the
    job is expected, so [get_code] subscripts a string with ['code'] and
    raises TypeError; whenever the job description could be built, [run]
    ends with that exception and no script has been written. *)
Theorem run_get_code_raises_type_error
        (env : Env) (cfg : Config) (nmpi_job : nat) (w w1 : World)
        (job_desc : JobDescription) :
  _build_job_description env cfg nmpi_job w = Ok job_desc w1 ->
  run env cfg nmpi_job w
  = Raise (TypeError "string indices must be integers, not str") w
  /\ written w = written w1.
Proof.
  intros H.
  destruct (build_job_description_ok env cfg nmpi_job w job_desc w1 H) as [-> Hargs].
  split; [|reflexivity].
  unfold run. unfold bind at 1, try_except. unfold bind at 1. rewrite H.
  unfold ret at 1. unfold bind at 1.
  destruct (arguments job_desc) as [|x rest]; [congruence|].
  unfold ret at 1. unfold bind at 1, get_code. unfold bind at 1.
  reflexivity.
Qed.

(** The job whose code is the text print('hi'): its description is built,
    [run] raises TypeError and no file is written, while [get_code] called
    on the same job with its arguments in the declared order writes the
    text to the script. *)
Lemma run_get_code_raises_type_error_witness :
  code Example.job1 = "print('hi')"
  /\ _build_job_description Example.env0 Example.cfg0 0 Example.w0
     = Ok Example.desc1 Example.w0
  /\ run Example.env0 Example.cfg0 0 Example.w0
     = Raise (TypeError "string indices must be integers, not str") Example.w0
  /\ get_code Example.env0 (PStr "/work/job_1") (PDict 0) "/work/job_1/run.py"
              Example.w0
     = Ok None (set_written Example.w0 [("/work/job_1/run.py", "print('hi')")]).
Proof.
  split; [reflexivity|]. split; [reflexivity|]. split.
  - apply (proj1 (run_get_code_raises_type_error
                    Example.env0 Example.cfg0 0 Example.w0 Example.w0
                    Example.desc1 eq_refl)).
  - reflexivity.
Defined.

(** ** Harvesting: the files found *)

Section PathStrings.


Lemma drop_all (s : string) : PyStr.drop (String.length s) s = "".
Proof. induction s as [|c r IH]; simpl; auto. Qed.

Lemma drop_app (a b : string) (k : nat) :
  PyStr.drop (String.length a + k) (a ++ b) = PyStr.drop k b.
Proof. induction a as [|c a IH]; simpl; auto. Qed.

Lemma last_chars_cons (c d : ascii) (r : string) :
  PyStr.last_chars 1 (String c (String d r)) = PyStr.last_chars 1 (String d r).
Proof.
  unfold PyStr.last_chars. cbn [String.length].
  replace (S (S (String.length r)) - 1)%nat with (S (String.length r)) by lia.
  replace (S (String.length r) - 1)%nat with (String.length r) by lia.
  reflexivity.
Qed.

Lemma endswith_slash (s : string) :
  PyStr.endswith "/" s
  = match last_char s with
    | Some c => Ascii.eqb c "/"
    | None => false
    end.
Proof.
  unfold PyStr.endswith.
  induction s as [|c r IH]; [reflexivity|].
  destruct r as [|d r].
  - unfold PyStr.last_chars. cbn. destruct (Ascii.eqb c "/"); reflexivity.
  - change (last_char (String c (String d r))) with (last_char (String d r)).
    rewrite <- IH. change (String.length "/") with 1%nat.
    rewrite last_chars_cons. reflexivity.
Qed.

Lemma last_char_app (a b : string) :
  b <> "" -> last_char (a ++ b) = last_char b.
Proof.
  intros Hb. induction a as [|c a IH]; [reflexivity|].
  cbn [append last_char]. rewrite IH.
  destruct (a ++ b) eqn:E; [|reflexivity].
  destruct a; [simpl in E; congruence | discriminate E].
Qed.

Lemma valid_name_spec (n : string) :
  valid_name n = true ->
  n <> "" /\ PyStr.startswith "/" n = false
  /\ (exists c, last_char n = Some c /\ Ascii.eqb c "/" = false).
Proof.
  unfold valid_name. rewrite andb_true_iff. intros [Hne Hall].
  split; [intros ->; discriminate Hne|]. split.
  - destruct n as [|c r]; [reflexivity|].
    cbn [list_ascii_of_string forallb] in Hall. cbn [PyStr.startswith].
    apply andb_true_iff in Hall. destruct Hall as [Hc _].
    rewrite Ascii.eqb_sym. destruct (Ascii.eqb c "/"); [discriminate Hc|reflexivity].
  - assert (Hn : n <> "") by (intros ->; discriminate Hne). clear Hne.
    induction n as [|c r IH]; [congruence|].
    cbn [list_ascii_of_string forallb] in Hall.
    apply andb_true_iff in Hall. destruct Hall as [Hc Hr].
    destruct r as [|d r].
    + exists c. split; [reflexivity|].
      destruct (Ascii.eqb c "/"); [discriminate Hc|reflexivity].
    + destruct (IH Hr) as (x & Hx & Hs); [discriminate|].
      exists x. split; [exact Hx|exact Hs].
Qed.


Lemma valid_root_good (root : string) : valid_root root = true -> good root.
Proof.
  unfold valid_root, good. rewrite andb_true_iff, !negb_true_iff.
  intros [H1 H2]. split; [intros ->; discriminate H1 | exact H2].
Qed.

Lemma good_app (a n : string) : valid_name n = true -> good (a ++ n).
Proof.
  intros Hn. destruct (valid_name_spec n Hn) as (Hne & _ & c & Hc & Hs).
  split.
  - destruct a; simpl; [exact Hne|discriminate].
  - rewrite endswith_slash, last_char_app, Hc by exact Hne. exact Hs.
Qed.

Lemma join_good (top n : string) :
  good top -> valid_name n = true -> PyPath.join top n = top ++ "/" ++ n.
Proof.
  intros [Hne Hend] Hn. destruct (valid_name_spec n Hn) as (_ & Hst & _).
  unfold PyPath.join. rewrite Hst, Hend.
  destruct (String.eqb_spec top ""); [congruence|reflexivity].
Qed.

Lemma join_empty (n : string) : valid_name n = true -> PyPath.join "" n = n.
Proof.
  intros Hn. destruct (valid_name_spec n Hn) as (_ & Hst & _).
  unfold PyPath.join. rewrite Hst. reflexivity.
Qed.


Lemma under_snoc (top : string) (ds : list string) (n : string) :
  under top (ds ++ [n]) = under top ds ++ "/" ++ n.
Proof. revert top; induction ds as [|d ds IH]; intros top; simpl; auto. Qed.

Lemma under_good (top : string) (ds : list string) :
  good top -> forallb valid_name ds = true -> good (under top ds).
Proof.
  revert top; induction ds as [|d ds IH]; intros top Ht Hds; [exact Ht|].
  cbn in Hds. apply andb_true_iff in Hds. destruct Hds as [Hd Hds].
  cbn [under]. apply IH; [|exact Hds].
  rewrite <- append_assoc. now apply good_app.
Qed.

Lemma append_empty_r (s : string) : s ++ "" = s.
Proof. induction s as [|c r IH]; simpl; congruence. Qed.

(** [under root ds] is [root] followed by each component behind a separator. *)
Lemma under_app (root : string) (ds : list string) :
  under root ds = root ++ String.concat "" (map (fun n => "/" ++ n) ds).
Proof.
  revert root; induction ds as [|d ds IH]; intros root; cbn [under map].
  - cbn [String.concat]. now rewrite append_empty_r.
  - rewrite IH. rewrite (append_assoc root). f_equal.
    destruct ds as [|e ds]; cbn [map String.concat].
    + now rewrite append_empty_r.
    + reflexivity.
Qed.

End PathStrings.

Section RelativePaths.

Lemma concat_empty_cons (x : string) (xs : list string) :
  String.concat "" (x :: xs) = x ++ String.concat "" xs.
Proof.
  destruct xs; cbn [String.concat]; [now rewrite append_empty_r|reflexivity].
Qed.

Lemma concat_empty_app (l1 l2 : list string) :
  String.concat "" (l1 ++ l2) = String.concat "" l1 ++ String.concat "" l2.
Proof.
  induction l1 as [|x l1 IH]; [reflexivity|].
  rewrite <- app_comm_cons, !concat_empty_cons, IH. now rewrite append_assoc.
Qed.

Lemma concat_slash (d : string) (ds : list string) :
  String.concat "/" (d :: ds)
  = d ++ String.concat "" (map (fun n => "/" ++ n) ds).
Proof.
  revert d; induction ds as [|e ds IH]; intros d.
  - cbn [String.concat map]. now rewrite append_empty_r.
  - change (String.concat "/" (d :: e :: ds))
      with (d ++ "/" ++ String.concat "/" (e :: ds)).
    rewrite IH. cbn [map]. rewrite concat_empty_cons.
    now rewrite !append_assoc.
Qed.

Lemma relative_snoc (d : string) (ds : list string) (f : string) :
  relative (d :: ds) f = String.concat "/" (d :: ds) ++ "/" ++ f.
Proof.
  unfold relative. rewrite <- app_comm_cons, !concat_slash.
  rewrite map_app, concat_empty_app. cbn [map String.concat].
  now rewrite !append_assoc.
Qed.

Lemma good_prefix (a x : string) : good x -> good (a ++ x).
Proof.
  intros [Hne Hend]. split.
  - destruct a; simpl; [exact Hne|discriminate].
  - rewrite endswith_slash, last_char_app by exact Hne.
    now rewrite <- endswith_slash.
Qed.

Lemma concat_slash_good (d : string) (ds : list string) :
  forallb valid_name (d :: ds) = true -> good (String.concat "/" (d :: ds)).
Proof.
  revert d; induction ds as [|e ds IH]; intros d Hv;
    cbn [forallb] in Hv; apply andb_true_iff in Hv; destruct Hv as [Hd Hds].
  - cbn [String.concat]. exact (good_app "" d Hd).
  - change (String.concat "/" (d :: e :: ds))
      with (d ++ "/" ++ String.concat "/" (e :: ds)).
    rewrite <- append_assoc. apply good_prefix. apply IH. exact Hds.
Qed.

(** The path the code builds for a file is its path relative to the root. *)
Lemma join_relative (ds : list string) (f : string) :
  forallb valid_name ds = true -> valid_name f = true ->
  PyPath.join (String.concat "/" ds) f = relative ds f.
Proof.
  intros Hds Hf. destruct ds as [|d ds].
  - cbn [String.concat]. rewrite join_empty by exact Hf. reflexivity.
  - rewrite join_good by (try apply concat_slash_good; assumption).
    now rewrite relative_snoc.
Qed.

(** Cutting the root and one separator off the path of a directory leaves
    the components that lead to it. *)
Lemma slice_under (root : string) (ds : list string) :
  PyStr.slice_from (under root ds) (PyStr.len root + PyStr.len "/")
  = String.concat "/" ds.
Proof.
  unfold PyStr.slice_from, PyStr.clip.
  change (PyStr.len "/") with 1.
  destruct (Z.ltb_spec (PyStr.len root + 1) 0) as [H|_];
    [unfold PyStr.len in H; lia|].
  destruct ds as [|d ds].
  - cbn [under String.concat].
    rewrite Z.min_r by lia. unfold PyStr.len. rewrite Nat2Z.id. apply drop_all.
  - rewrite under_app. cbn [map]. rewrite concat_empty_cons, concat_slash.
    rewrite Z.min_l.
    + replace (Z.to_nat (PyStr.len root + 1)) with (String.length root + 1)%nat
        by (unfold PyStr.len; lia).
      rewrite drop_app. rewrite (append_assoc "/"). reflexivity.
    + rewrite len_append. unfold PyStr.len. cbn [append String.length]. lia.
Qed.

End RelativePaths.

Section Walk.


Lemma os_walk_eq on_dirs top files subs :
  os_walk on_dirs top (Dir files subs)
  = (top, on_dirs (map fst subs), files)
      :: flat_map
           (fun name =>
              match assoc name
                          (map (fun p => (fst p,
                                          os_walk on_dirs (PyPath.join top (fst p))
                                                  (snd p))) subs)
              with
              | Some triples => triples
              | None => []
              end)
           (on_dirs (map fst subs)).
Proof.
  cbn [os_walk].
  match goal with
  | |- context [assoc _ (?F subs)] =>
      assert (E : forall l,
                 F l = map (fun p => (fst p,
                                      os_walk on_dirs (PyPath.join top (fst p))
                                              (snd p))) l)
  end.
  { induction l as [|[n sd] l IH]; [reflexivity|].
    cbn [map fst snd]. now rewrite IH. }
  now rewrite E.
Qed.

Lemma wf_dir_eq files subs :
  wf_dir (Dir files subs)
  = forallb (fun fm => valid_name (fst fm)) files
    && nodupb (map fst subs)
    && forallb (fun p => valid_name (fst p) && wf_dir (snd p)) subs.
Proof.
  cbn [wf_dir]. f_equal.
  induction subs as [|[n sd] subs IH]; [reflexivity|].
  cbn [forallb fst snd]. now rewrite <- IH.
Qed.

Lemma remove_first_subset (x y : string) (l : list string) :
  In y (remove_first x l) -> In y l.
Proof.
  induction l as [|z l IH]; [simpl; tauto|].
  cbn [remove_first]. destruct (String.eqb x z); cbn [In]; tauto.
Qed.

Lemma remove_first_In (x y : string) (l : list string) :
  nodupb l = true ->
  nodupb (remove_first x l) = true
  /\ (In y (remove_first x l) <-> In y l /\ y <> x).
Proof.
  induction l as [|z l IH]; intros Hnd; [simpl; tauto|].
  cbn [nodupb] in Hnd. apply andb_true_iff in Hnd. destruct Hnd as [Hz Hnd].
  apply negb_true_iff, mem_not_In in Hz.
  specialize (IH Hnd). destruct IH as [IHn IHi].
  cbn [remove_first]. destruct (String.eqb_spec x z) as [->|Hxz].
  - split; [exact Hnd|]. cbn [In]. split.
    + intros Hy. split; [now right|]. intros ->. contradiction.
    + intros [[->|Hy] Hne]; [congruence|exact Hy].
  - cbn [nodupb In]. split.
    + apply andb_true_iff. split; [|exact IHn].
      apply negb_true_iff, mem_not_In.
      intros Hin. apply Hz. exact (remove_first_subset x z l Hin).
    + rewrite IHi. split.
      * intros [->|[Hy Hne]]; [split; [now left|congruence]|split; [now right|exact Hne]].
      * intros [[->|Hy] Hne]; [now left|right; split; assumption].
Qed.

(** On a list without repetitions the pruning loop removes exactly the
    ignored names. *)
Lemma prune_dirs_In (ignoredirs dirs : list string) (y : string) :
  nodupb dirs = true ->
  (In y (prune_dirs ignoredirs dirs) <-> In y dirs /\ ~ In y ignoredirs).
Proof.
  unfold prune_dirs. revert dirs.
  induction ignoredirs as [|g gs IH]; intros dirs Hnd; cbn [fold_left In].
  - tauto.
  - destruct (PyStr.mem g dirs) eqn:Hg.
    + destruct (remove_first_In g y dirs Hnd) as [Hnd' Hin].
      rewrite (IH _ Hnd'), Hin. intuition congruence.
    + apply mem_not_In in Hg. rewrite (IH _ Hnd).
      split; [|tauto]. intros [Hy Hn]. split; [exact Hy|].
      intros [->|H]; [contradiction|contradiction].
Qed.

Lemma assoc_map_In {A B : Type} (g : string -> A -> B)
      (l : list (string * A)) (n : string) (a : A) :
  nodupb (map fst l) = true -> In (n, a) l ->
  assoc n (map (fun p => (fst p, g (fst p) (snd p))) l) = Some (g n a).
Proof.
  induction l as [|[k v] l IH]; intros Hnd Hin; [destruct Hin|].
  cbn [map fst nodupb] in Hnd. apply andb_true_iff in Hnd.
  destruct Hnd as [Hk Hnd]. apply negb_true_iff, mem_not_In in Hk.
  cbn [map fst snd assoc]. destruct Hin as [E|Hin].
  - inversion E; subst. now rewrite String.eqb_refl.
  - destruct (String.eqb_spec n k) as [->|_]; [|now apply IH].
    exfalso. apply Hk. apply in_map_iff. now exists (k, a).
Qed.

Lemma assoc_map_Some {A B : Type} (g : string -> A -> B)
      (l : list (string * A)) (n : string) (t : B) :
  assoc n (map (fun p => (fst p, g (fst p) (snd p))) l) = Some t ->
  exists a, In (n, a) l /\ t = g n a.
Proof.
  induction l as [|[k v] l IH]; [discriminate|].
  cbn [map fst snd assoc]. destruct (String.eqb_spec n k) as [->|_].
  - intros E; inversion E. exists v. split; [now left|reflexivity].
  - intros E. destruct (IH E) as (a & Hin & Ht). exists a. split; [now right|exact Ht].
Qed.

Lemma in_flat_map_twice {A B C : Type} (f : B -> list C) (g : A -> list B)
      (l : list A) (c : C) :
  In c (flat_map f (flat_map g l)) <-> exists x, In x l /\ In c (flat_map f (g x)).
Proof.
  rewrite in_flat_map. split.
  - intros (b & Hb & Hc). apply in_flat_map in Hb. destruct Hb as (x & Hx & Hb).
    exists x. split; [exact Hx|]. apply in_flat_map. now exists b.
  - intros (x & Hx & Hc). apply in_flat_map in Hc. destruct Hc as (b & Hb & Hc).
    exists b. split; [|exact Hc]. apply in_flat_map. now exists x.
Qed.

Section Harvest.

Variable root : string.
Variable timestamp : Z.
Variables ignoredirs ignore_extensions : list string.
Hypothesis root_good : good root.


Lemma find_new_data_files_visit (t : dir) :
  _find_new_data_files t root timestamp ignoredirs ignore_extensions
  = flat_map (visit root timestamp ignore_extensions) (os_walk (prune_dirs ignoredirs) root t).
Proof. reflexivity. Qed.

(** The files taken from one directory. *)
Lemma visit_spec (ds0 dirs : list string) (files : list (string * Z)) (p : string) :
  forallb valid_name ds0 = true ->
  forallb (fun fm => valid_name (fst fm)) files = true ->
  In p (visit root timestamp ignore_extensions (under root ds0, dirs, files))
  <-> exists f m,
      In (f, m) files /\ timestamp <= m
      /\ ~ In (snd (PyPath.splitext f)) ignore_extensions
      /\ p = relative ds0 f.
Proof.
  intros Hds Hfiles. unfold visit. rewrite in_flat_map.
  rewrite forallb_forall in Hfiles. split.
  - intros ([f m] & Hin & Hp). cbn [fst snd] in Hp.
    destruct (PyStr.mem _ ignore_extensions) eqn:He; cbn [negb] in Hp; [destruct Hp|].
    rewrite Z.geb_leb in Hp. destruct (Z.leb_spec timestamp m); [|destruct Hp].
    destruct Hp as [<-|[]]. exists f, m.
    repeat split; try assumption; [now apply mem_not_In|].
    rewrite slice_under. apply join_relative; [exact Hds|exact (Hfiles _ Hin)].
  - intros (f & m & Hin & Hm & He & ->). exists (f, m). split; [exact Hin|].
    cbn [fst snd]. apply mem_not_In in He. rewrite He. cbn [negb].
    rewrite Z.geb_leb. destruct (Z.leb_spec timestamp m); [|lia].
    left. rewrite slice_under. apply join_relative; [exact Hds|exact (Hfiles _ Hin)].
Qed.

(** The walk below a directory reached through [ds0] finds exactly the files
    the specification selects there. *)
Lemma walk_spec (d : dir) :
  wf_dir d = true ->
  forall (ds0 : list string) (p : string),
    forallb valid_name ds0 = true ->
    In p (flat_map (visit root timestamp ignore_extensions) (os_walk (prune_dirs ignoredirs) (under root ds0) d))
    <-> exists ds f m,
        file_in d ds f m /\ timestamp <= m
        /\ (forall x, In x ds -> ~ In x ignoredirs)
        /\ ~ In (snd (PyPath.splitext f)) ignore_extensions
        /\ p = relative (ds0 ++ ds) f.
Proof.
  induction d as [files subs IH] using dir_rec'.
  intros Hwf ds0 p Hds. rewrite wf_dir_eq in Hwf.
  apply andb_true_iff in Hwf. destruct Hwf as [Hwf Hsubs].
  apply andb_true_iff in Hwf. destruct Hwf as [Hfiles Hnd].
  rewrite forallb_forall in Hsubs. rewrite Forall_forall in IH.
  assert (Htop : good (under root ds0)) by now apply under_good.
  rewrite os_walk_eq. cbn [flat_map]. rewrite in_app_iff.
  rewrite (visit_spec ds0 _ files p Hds Hfiles). rewrite in_flat_map_twice.
  split.
  - intros [(f & m & Hin & Hm & He & ->)|(name & Hname & Hp)].
    + exists [], f, m. rewrite app_nil_r.
      repeat split; try assumption; [now constructor|intros x []].
    + apply (prune_dirs_In _ _ _ Hnd) in Hname. destruct Hname as [Hname Hig].
      destruct (assoc name _) as [triples|] eqn:Ea; [|destruct Hp].
      apply (assoc_map_Some
               (fun n sd => os_walk (prune_dirs ignoredirs)
                                    (PyPath.join (under root ds0) n) sd)) in Ea.
      destruct Ea as (sd & Hsd & ->).
      pose proof (Hsubs _ Hsd) as Hv. cbn [fst snd] in Hv.
      apply andb_true_iff in Hv. destruct Hv as [Hvn Hwsd].
      rewrite (join_good _ _ Htop Hvn), <- under_snoc in Hp.
      apply (IH _ Hsd Hwsd) in Hp.
      * destruct Hp as (ds & f & m & Hf & Hm & Hds' & He & ->).
        exists (name :: ds), f, m. rewrite <- app_assoc in *. cbn [app].
        repeat split; try assumption.
        -- now apply file_below with (sd := sd).
        -- intros x [<-|Hx]; [exact Hig|now apply Hds'].
      * rewrite forallb_app, Hds. cbn [forallb]. now rewrite Hvn.
  - intros (ds & f & m & Hf & Hm & Hds' & He & ->).
    inversion Hf as [? ? ? ? Hin|? ? name sd ds1 ? ? Hsd Hf1]; subst.
    + left. exists f, m. rewrite app_nil_r. repeat split; assumption.
    + right. exists name.
      pose proof (Hsubs _ Hsd) as Hv. cbn [fst snd] in Hv.
      apply andb_true_iff in Hv. destruct Hv as [Hvn Hwsd].
      split.
      * apply (prune_dirs_In _ _ _ Hnd). split.
        -- apply in_map_iff. now exists (name, sd).
        -- apply Hds'. now left.
      * rewrite (assoc_map_In
                   (fun n sd => os_walk (prune_dirs ignoredirs)
                                        (PyPath.join (under root ds0) n) sd)
                   subs name sd Hnd Hsd).
        rewrite (join_good _ _ Htop Hvn), <- under_snoc.
        apply (IH _ Hsd Hwsd).
        -- rewrite forallb_app, Hds. cbn [forallb]. now rewrite Hvn.
        -- exists ds1, f, m. rewrite <- app_assoc. cbn [app].
           repeat split; try assumption.
           intros x Hx. apply Hds'. now right.
Qed.

End Harvest.

End Walk.

(** C4: over a well-formed directory tree, and for a root path written
    without a trailing separator, [_find_new_data_files] returns exactly the
    relative paths of the files whose modification time is at or after the
    timestamp, that lie under no ignored directory and whose extension is
    not ignored. *)
Theorem find_new_data_files_exact
        (t : dir) (root : string) (timestamp : Z)
        (ignoredirs ignore_extensions : list string) (p : string) :
  wf_dir t = true -> valid_root root = true ->
  In p (_find_new_data_files t root timestamp ignoredirs ignore_extensions)
  <-> harvest_spec t timestamp ignoredirs ignore_extensions p.
Proof.
  intros Hwf Hroot. rewrite find_new_data_files_visit.
  apply (walk_spec root timestamp ignoredirs ignore_extensions
                   (valid_root_good root Hroot) t Hwf [] p eq_refl).
Qed.

(** The example tree, harvested from /work/job_1 at timestamp 3: a.txt
    (modified at 5) and sub/x (modified at 3, the boundary) are found; old
    (modified at 1), b.pyc and the contents of the two .git directories are
    not. *)
Lemma find_new_data_files_exact_witness :
  wf_dir Example.tree0 = true
  /\ valid_root "/work/job_1" = true
  /\ _find_new_data_files Example.tree0 "/work/job_1" 3
                          default_ignoredirs default_ignore_extensions
     = ["a.txt"; "sub/x"]
  /\ harvest_spec Example.tree0 3 default_ignoredirs default_ignore_extensions
                  "sub/x"
  /\ ~ harvest_spec Example.tree0 3 default_ignoredirs default_ignore_extensions
                    "old".
Proof.
  split; [reflexivity|]. split; [reflexivity|]. split; [reflexivity|]. split.
  - apply (proj1 (find_new_data_files_exact
                    Example.tree0 "/work/job_1" 3 default_ignoredirs
                    default_ignore_extensions "sub/x" eq_refl eq_refl)).
    vm_compute. right. left. reflexivity.
  - intros H.
    apply (proj2 (find_new_data_files_exact
                    Example.tree0 "/work/job_1" 3 default_ignoredirs
                    default_ignore_extensions "old" eq_refl eq_refl)) in H.
    vm_compute in H. destruct H as [H|[H|[]]]; discriminate H.
Defined.

(** ** The working directory the orchestrator harvests from *)

Section WorkingDirectory.


Lemma string_of_uint_no_slash (d : Decimal.uint) :
  no_slash (NilEmpty.string_of_uint d) = true.
Proof. induction d; cbn; auto. Qed.

Lemma str_of_Z_no_slash (n : Z) : no_slash (str_of_Z n) = true.
Proof.
  unfold str_of_Z, NilZero.string_of_int.
  destruct (Z.to_int n) as [d|d]; unfold NilZero.string_of_uint;
    destruct d; try reflexivity; cbn; apply string_of_uint_no_slash.
Qed.

(** Every working directory built for a job is a root that
    [_find_new_data_files] reads without a trailing separator. *)
Lemma built_working_directory_valid env cfg nmpi_job w job_desc w1 :
  _build_job_description env cfg nmpi_job w = Ok job_desc w1 ->
  valid_root (working_directory job_desc) = true.
Proof.
  unfold _build_job_description. unfold bind at 1, get_dict. unfold bind at 1.
  set (name := "job_" ++ str_of_Z (id (dicts w nmpi_job))).
  assert (Hname : valid_name name = true).
  { unfold valid_name. apply andb_true_iff. split; [reflexivity|].
    subst name. cbn [append list_ascii_of_string forallb].
    apply (str_of_Z_no_slash (id (dicts w nmpi_job))). }
  assert (Hgood : valid_root (PyPath.join (WORKING_DIRECTORY cfg) name) = true).
  { assert (G : good (PyPath.join (WORKING_DIRECTORY cfg) name)).
    { unfold PyPath.join.
      destruct (PyStr.startswith "/" name); [exact (good_app "" name Hname)|].
      destruct (_ || _); [now apply good_app|].
      rewrite <- append_assoc. now apply good_app. }
    destruct G as [G1 G2]. unfold valid_root. rewrite G2.
    destruct (String.eqb_spec (PyPath.join (WORKING_DIRECTORY cfg) name) "");
      [contradiction|reflexivity]. }
  destruct (String.eqb _ "0.7");
    [|destruct (String.eqb _ "0.8"); [|discriminate]];
    unfold ret at 1;
    (destruct (format_system env _ _); [discriminate|]);
    unfold ret; intros E; inversion E; subst; exact Hgood.
Qed.

End WorkingDirectory.

(** With a separator at the end of the root the first character of every
    sub-directory path is cut off as well. *)
Example find_new_data_files_trailing_separator :
  _find_new_data_files Example.tree0 "/work/job_1/" 3
                       default_ignoredirs default_ignore_extensions
  = ["a.txt"; "ub/x"].
Proof. reflexivity. Qed.

(** * Further properties *)

(** ** truncate_string *)

Section TruncationMore.

Lemma take_app_exact (a b : string) : PyStr.take (String.length a) (a ++ b) = a.
Proof. induction a as [|c a IH]; simpl; [now destruct b|now rewrite IH]. Qed.

Lemma last_chars_app_exact (a b : string) :
  PyStr.last_chars (String.length b) (a ++ b) = b.
Proof.
  unfold PyStr.last_chars. rewrite str_length_app.
  replace (String.length a + String.length b - String.length b)%nat
    with (String.length a + 0)%nat by lia.
  now rewrite drop_app.
Qed.

(** The shape of a truncated string, from the two slices. *)
Lemma truncate_long (s : string) (M : Z) :
  1 <= M -> PyStr.len s > M ->
  truncate_string s M
  = PyStr.take (Z.to_nat (M / 2)) s ++ TRUNCATED
      ++ PyStr.last_chars (Z.to_nat ((M + 1) / 2)) s.
Proof.
  intros HM Hlen. unfold truncate_string.
  destruct (Z.gtb_spec (PyStr.len s) M); [|lia].
  now rewrite slice_to_head, slice_from_tail.
Qed.

Lemma halves (M : Z) :
  1 <= M -> 0 <= M / 2 /\ 1 <= (M + 1) / 2 /\ M / 2 + (M + 1) / 2 = M.
Proof.
  intros HM.
  pose proof (Z.div_mod M 2). pose proof (Z.div_mod (M + 1) 2).
  pose proof (Z.mod_pos_bound M 2). pose proof (Z.mod_pos_bound (M + 1) 2).
  lia.
Qed.

End TruncationMore.

(** X1: for a maximum M >= 1, truncating a string that was already
    truncated changes nothing: the head and the tail that were kept are
    exactly the head and the tail the second call keeps. *)
Theorem truncate_string_idempotent (s : string) (M : Z) :
  1 <= M ->
  truncate_string (truncate_string s M) M = truncate_string s M.
Proof.
  intros HM. destruct (Z_le_gt_dec (PyStr.len s) M) as [Hle|Hgt].
  - assert (E : truncate_string s M = s).
    { unfold truncate_string. destruct (Z.gtb_spec (PyStr.len s) M); [lia|reflexivity]. }
    now rewrite !E.
  - destruct (halves M HM) as (H0 & H1 & Hsum).
    rewrite (truncate_long s M HM Hgt).
    set (h := PyStr.take (Z.to_nat (M / 2)) s).
    set (t := PyStr.last_chars (Z.to_nat ((M + 1) / 2)) s).
    assert (Hh : String.length h = Z.to_nat (M / 2)).
    { subst h. rewrite take_length. unfold PyStr.len in Hgt. lia. }
    assert (Ht : String.length t = Z.to_nat ((M + 1) / 2)).
    { subst t. unfold PyStr.last_chars. rewrite drop_length.
      unfold PyStr.len in Hgt. lia. }
    assert (Hlong : PyStr.len (h ++ TRUNCATED ++ t) > M).
    { rewrite !len_append. unfold PyStr.len at 1 3. rewrite Hh, Ht.
      change (PyStr.len TRUNCATED) with 20. lia. }
    rewrite (truncate_long _ M HM Hlong).
    rewrite <- Hh at 1. rewrite take_app_exact.
    rewrite <- Ht at 1. rewrite <- (append_assoc h TRUNCATED t).
    now rewrite last_chars_app_exact, append_assoc.
Qed.

(** The theorem on "abcdefgh" with M = 3. *)
Lemma truncate_string_idempotent_witness :
  1 <= 3
  /\ truncate_string "abcdefgh" 3 <> "abcdefgh"
  /\ truncate_string (truncate_string "abcdefgh" 3) 3
     = truncate_string "abcdefgh" 3.
Proof.
  split; [lia|]. split; [vm_compute; discriminate|].
  apply (truncate_string_idempotent "abcdefgh" 3). lia.
Defined.

(** X2: with a maximum of 0 nothing is cut: every non-empty string comes
    back whole behind the marker, 20 characters longer than it went in. *)
Theorem truncate_string_zero_keeps_all (s : string) :
  s <> "" ->
  truncate_string s 0 = TRUNCATED ++ s
  /\ PyStr.len (truncate_string s 0) = PyStr.len s + 20.
Proof.
  intros Hs.
  assert (E : truncate_string s 0 = TRUNCATED ++ s).
  { unfold truncate_string.
    destruct (Z.gtb_spec (PyStr.len s) 0) as [_|H].
    - change (0 / 2) with 0. change (- 0 / 2) with 0.
      unfold PyStr.slice_to, PyStr.slice_from, PyStr.clip.
      change (0 <? 0) with false. cbv iota.
      rewrite Z.min_l by (unfold PyStr.len; lia).
      reflexivity.
    - destruct s; [congruence|]. unfold PyStr.len in H. cbn in H. lia. }
  split; [exact E|]. rewrite E, len_append.
  change (PyStr.len TRUNCATED) with 20. lia.
Qed.

Lemma truncate_string_zero_keeps_all_witness :
  "ab" <> "" /\ truncate_string "ab" 0 = TRUNCATED ++ "ab".
Proof.
  split; [discriminate|].
  apply (proj1 (truncate_string_zero_keeps_all "ab" ltac:(discriminate))).
Defined.

(** ** Pushing a job to the queue *)

Lemma update_job_effect (env : Env) (cfg : Config) (job : nat) (w : World) :
  let j := dicts w job in
  (forall rq, In rq (update_requests cfg j) -> put_ok env rq = true) ->
  exists w',
    update_job env cfg job w = Ok tt w'
    /\ dicts w' job = with_log None j
    /\ remote w' = (remote w ++ update_requests cfg j)%list.
Proof.
  intros j Hput. unfold update_requests in *.
  unfold update_job, bind, pop_log, bind, get_dict, modify, ret, _put.
  cbn [dicts set_dicts ndicts remote]. unfold upd. rewrite !Nat.eqb_refl.
  fold j. cbn [resource_uri with_log id].
  rewrite (Hput _ (or_introl eq_refl)).
  destruct (log j) as [[|c l]|] eqn:El.
  - eexists. split; [reflexivity|]. cbn. rewrite Nat.eqb_refl.
    split; reflexivity.
  - cbn [remote set_remote].
    rewrite (Hput _ (or_intror (or_introl eq_refl))).
    eexists. split; [reflexivity|]. cbn. rewrite Nat.eqb_refl.
    split; [reflexivity|]. now rewrite <- app_assoc.
  - eexists. split; [reflexivity|]. cbn. rewrite Nat.eqb_refl.
    split; reflexivity.
Qed.

(** X3: [update_job] takes the log out of the job, sends the job without
    it and then, only when the log is a non-empty text, the log on its own;
    afterwards the local job has no log. *)
Theorem update_job_sends_log_apart (env : Env) (cfg : Config) (job : nat)
        (w : World) :
  let j := dicts w job in
  (forall rq, In rq (update_requests cfg j) -> put_ok env rq = true) ->
  exists w',
    update_job env cfg job w = Ok tt w'
    /\ dicts w' job = with_log None j
    /\ remote w' = (remote w ++ update_requests cfg j)%list.
Proof.
  exact (update_job_effect env cfg job w).
Qed.

(** A job with the log "queued": two requests; the job is left without log. *)
Lemma update_job_sends_log_apart_witness :
  exists w',
    update_job Example.env0 Example.cfg0 0 Example2.w_bad = Ok tt w'
    /\ log (dicts w' 0%nat) = None
    /\ remote w'
       = [PutJob "https://nmpi.example/api/v2/queue/2"
                 (with_log None Example2.job_bad);
          PutLog 2 "queued"].
Proof.
  destruct (update_job_sends_log_apart Example.env0 Example.cfg0 0 Example2.w_bad)
    as (w' & E & D & R).
  - intros rq _. reflexivity.
  - exists w'. split; [exact E|]. split; [now rewrite D|]. rewrite R. reflexivity.
Defined.

Section StatusPush.

Variable env : Env.
Variable cfg : Config.
Hypothesis put_all : forall rq, put_ok env rq = true.

(** A status function changes the status, the log and, for DONE, the
    completion fields; the identity of the job and its output stay. *)
Lemma status_fn_keeps st f r s w w1 :
  lookup_state st (default_job_states env) = Some f ->
  f r s w = Ok r w1 ->
  id (dicts w1 r) = id (dicts w r)
  /\ resource_uri (dicts w1 r) = resource_uri (dicts w r)
  /\ output_data (dicts w1 r) = output_data (dicts w r).
Proof.
  intros H. destruct st; simpl in H; inversion H; subst f; clear H.
  - unfold job_pending, bind, modify, pop_log, bind, get_dict, modify, now, ret.
    intros E; inversion E; subst; clear E. cbn [dicts set_dicts set_ticks].
    unfold upd. rewrite !Nat.eqb_refl. repeat split.
  - unfold job_running, bind, modify, pop_log, bind, get_dict, modify, now, ret.
    intros E; inversion E; subst; clear E. cbn [dicts set_dicts set_ticks].
    unfold upd. rewrite !Nat.eqb_refl. repeat split.
  - unfold job_done, bind, modify, pop_log, bind, get_dict, modify, now,
      read_output, ret.
    destruct (read_file env _); [destruct (read_file env _)|];
      intros E; inversion E; subst; clear E; cbn [dicts set_dicts set_ticks];
      unfold upd; rewrite !Nat.eqb_refl; repeat split.
  - unfold job_failed, bind, modify, pop_log, bind, get_dict, modify, now,
      read_output, ret.
    destruct (read_file env _); [destruct (read_file env _)|];
      intros E; inversion E; subst; clear E; cbn [dicts set_dicts set_ticks];
      unfold upd; rewrite !Nat.eqb_refl; repeat split.
Qed.

Lemma append_nonempty (a b : string) :
  b <> "" -> exists c r, a ++ b = String c r.
Proof.
  intros Hb. destruct (a ++ b) as [|c r] eqn:E; [|now exists c, r].
  destruct a; [simpl in E; congruence|discriminate E].
Qed.

(** The status update for a state of the switch, when the server accepts
    every request. *)
Lemma update_status_effect st f r s w :
  lookup_state st (default_job_states env) = Some f ->
  saga_state env (handle s) (polls w) = st ->
  exists w' block,
    _update_status env cfg r s (default_job_states env) w = Ok r w'
    /\ status (dicts w' r) = status_of_state st
    /\ log (dicts w' r) = None
    /\ output_data (dicts w' r) = output_data (dicts w r)
    /\ block <> ""
    /\ remote w'
       = (remote w
            ++ [PutJob (job_server cfg ++ resource_uri (dicts w r)) (dicts w' r);
                PutLog (id (dicts w r))
                       (or_default (log (dicts w r)) "" ++ block)])%list.
Proof.
  intros Hf Hs. unfold _update_status. unfold bind at 1, get_state.
  rewrite Hs, Hf. set (w0 := set_polls w (S (polls w))).
  assert (Hblock : exists target pre suf k n,
             appends env f s target pre suf k n
             /\ target = status_of_state st /\ suf <> "").
  { destruct st; simpl in Hf; inversion Hf; subst f.
    - do 5 eexists. split; [apply job_pending_appends|]. split; [reflexivity|discriminate].
    - do 5 eexists. split; [apply job_running_appends|]. split; [reflexivity|discriminate].
    - do 5 eexists. split; [apply job_done_appends|]. split; [reflexivity|discriminate].
    - do 5 eexists. split; [apply job_failed_appends|]. split; [reflexivity|discriminate]. }
  destruct Hblock as (target & pre & suf & k & n & Happ & Ht & Hsuf).
  destruct (Happ r w0) as (w1 & E & S1 & L1 & _ & R1 & _).
  destruct (status_fn_keeps st f r s w0 w1 Hf E) as (I1 & U1 & O1).
  unfold bind at 1. rewrite E. unfold bind at 1.
  destruct (update_job_effect env cfg r w1 (fun rq _ => put_all rq))
    as (w2 & E2 & D2 & R2).
  rewrite E2. unfold ret.
  set (block := pre ++ isoformat env (ticks w0 + k) ++ suf) in *.
  assert (Hb : block <> "").
  { subst block. rewrite <- append_assoc.
    destruct (append_nonempty (pre ++ isoformat env (ticks w0 + k)) suf Hsuf)
      as (c & x & ->). discriminate. }
  exists w2, block. split; [reflexivity|].
  rewrite D2. cbn [status log output_data with_log].
  split; [now rewrite S1, Ht|]. split; [reflexivity|].
  split; [exact O1|]. split; [exact Hb|].
  rewrite R2, R1. unfold update_requests. rewrite U1, I1, L1.
  change (dicts w0 r) with (dicts w r). change (remote w0) with (remote w).
  destruct (append_nonempty (or_default (log (dicts w r)) "") block Hb)
    as (c & x & Ex).
  rewrite Ex. reflexivity.
Qed.

End StatusPush.

(** X4: for a backend state with an entry in the switch, and a server that
    accepts every request, [_update_status] sets the queue status of that
    state, sends the job and then the log it had with one non-empty block
    appended, and leaves the local job without log: the next update sends
    only what was added after this one. *)
Theorem update_status_pushes_and_empties_log
        (env : Env) (cfg : Config) (st : State) (f : nat -> SagaJob -> M nat)
        (r : nat) (s : SagaJob) (w : World) :
  (forall rq, put_ok env rq = true) ->
  lookup_state st (default_job_states env) = Some f ->
  saga_state env (handle s) (polls w) = st ->
  exists w' block,
    _update_status env cfg r s (default_job_states env) w = Ok r w'
    /\ status (dicts w' r) = status_of_state st
    /\ log (dicts w' r) = None
    /\ output_data (dicts w' r) = output_data (dicts w r)
    /\ block <> ""
    /\ remote w'
       = (remote w
            ++ [PutJob (job_server cfg ++ resource_uri (dicts w r)) (dicts w' r);
                PutLog (id (dicts w r))
                       (or_default (log (dicts w r)) "" ++ block)])%list.
Proof.
  intros Hput. exact (update_status_effect env cfg Hput st f r s w).
Qed.

(** A failed job on the example platform: status error, two requests. *)
Lemma update_status_pushes_and_empties_log_witness :
  exists w',
    _update_status Example2.env_failed Example.cfg0 0 Example.saga1
                   (default_job_states Example2.env_failed) Example2.w_bad
    = Ok 0%nat w'
    /\ status (dicts w' 0%nat) = "error"
    /\ log (dicts w' 0%nat) = None
    /\ List.length (remote w') = 2%nat.
Proof.
  destruct (update_status_pushes_and_empties_log
              Example2.env_failed Example.cfg0 FAILED
              (job_failed Example2.env_failed) 0 Example.saga1 Example2.w_bad
              (fun _ => eq_refl) eq_refl eq_refl)
    as (w' & block & E & S & L & _ & _ & R).
  exists w'. split; [exact E|]. split; [exact S|]. split; [exact L|].
  rewrite R. reflexivity.
Defined.

(** ** The size of what a terminal state adds to the log *)

Lemma truncate_string_bound (s : string) (M : Z) :
  1 <= M -> PyStr.len (truncate_string s M) <= M + 20.
Proof.
  intros HM. destruct (Z_le_gt_dec (PyStr.len s) M) as [Hle|Hgt].
  - unfold truncate_string.
    destruct (Z.gtb_spec (PyStr.len s) M); lia.
  - rewrite (truncate_long s M HM Hgt), !len_append.
    change (PyStr.len TRUNCATED) with 20.
    destruct (halves M HM) as (H0 & H1 & Hsum).
    unfold PyStr.len at 1 2. unfold PyStr.last_chars.
    rewrite take_length, drop_length. unfold PyStr.len in Hgt. lia.
Qed.

(** X5: however much the job wrote to its output streams, [job_done] adds
    to the log at most the timestamp and 20057 characters, and [job_failed]
    at most the timestamp and 20069 characters: each stream enters the log
    cut to the 10000 characters of MAX_LOG_SIZE plus the marker. *)
Theorem terminal_log_growth_bounded (env : Env) (r : nat) (s : SagaJob)
        (w : World) :
  (exists w1,
      job_done env r s w = Ok r w1
      /\ PyStr.len (or_default (log (dicts w1 r)) "")
         <= PyStr.len (or_default (log (dicts w r)) "")
            + PyStr.len (isoformat env (S (ticks w))) + 20057)
  /\ (exists w1,
         job_failed env r s w = Ok r w1
         /\ PyStr.len (or_default (log (dicts w1 r)) "")
            <= PyStr.len (or_default (log (dicts w r)) "")
               + PyStr.len (isoformat env (ticks w)) + 20069).
Proof.
  pose proof (truncate_string_bound (fst (streams env s)) MAX_LOG_SIZE) as Bo.
  pose proof (truncate_string_bound (snd (streams env s)) MAX_LOG_SIZE) as Be.
  unfold MAX_LOG_SIZE in Bo, Be. specialize (Bo ltac:(lia)). specialize (Be ltac:(lia)).
  split.
  - destruct (job_done_appends env s r w) as (w1 & E & _ & L & _).
    exists w1. split; [exact E|]. rewrite L. cbn [or_default].
    rewrite !len_append. replace (ticks w + 1)%nat with (S (ticks w)) by lia.
    change (PyStr.len "") with 0. change (PyStr.len "    finished") with 12.
    change (PyStr.len NL) with 1. unfold MAX_LOG_SIZE. lia.
  - destruct (job_failed_appends env s r w) as (w1 & E & _ & L & _).
    exists w1. split; [exact E|]. rewrite L. cbn [or_default].
    rewrite !len_append. rewrite Nat.add_0_r.
    change (PyStr.len "") with 0. change (PyStr.len "    failed") with 10.
    change (PyStr.len "stdout") with 6. change (PyStr.len "------") with 6.
    change (PyStr.len NL) with 1. unfold MAX_LOG_SIZE. lia.
Qed.

(** ** Killing and resetting *)

Section KillReset.

Variable env : Env.
Variable cfg : Config.
Hypothesis put_all : forall rq, put_ok env rq = true.

(** [kill_job] on a running or submitted job, the server accepting. *)
Lemma kill_job_ok job msg w :
  In (status (dicts w job)) ["running"; "submitted"] ->
  exists w',
    kill_job env cfg job msg w = Ok tt w'
    /\ dicts w' job = with_log None (with_status "error" (dicts w job))
    /\ (forall r, r <> job -> dicts w' r = dicts w r)
    /\ lists w' = lists w
    /\ remote w'
       = (remote w
            ++ [PutJob (job_server cfg ++ resource_uri (dicts w job))
                       (with_log None (with_status "error" (dicts w job)));
                PutLog (id (dicts w job))
                       ((or_default (log (dicts w job)) ""
                           ++ "Internal error. Please resubmit the job" ++ NL)
                          ++ msg)])%list.
Proof.
  intros Hin. apply mem_In in Hin.
  unfold kill_job. unfold bind at 1, get_dict. rewrite Hin. cbn [negb].
  unfold bind, modify, pop_log, get_dict, bind, modify, ret, _put.
  cbn [dicts set_dicts ndicts remote set_remote]. unfold upd.
  rewrite !Nat.eqb_refl. cbn [log with_log with_status resource_uri id].
  rewrite !put_all. eexists. split; [reflexivity|].
  cbn [dicts set_dicts set_remote lists remote]. rewrite Nat.eqb_refl.
  split; [reflexivity|]. split.
  - intros r Hr. destruct (Nat.eqb_spec r job); [contradiction|reflexivity].
  - split; [reflexivity|]. now rewrite <- app_assoc.
Qed.

Lemma kill_job_refused job msg w :
  ~ In (status (dicts w job)) ["running"; "submitted"] ->
  kill_job env cfg job msg w
  = Raise (Exception_ ("You cannot kill a job with status "
                         ++ status (dicts w job))) w.
Proof.
  intros Hout. apply mem_not_In in Hout.
  unfold kill_job. unfold bind at 1, get_dict. now rewrite Hout.
Qed.

Lemma reset_job_ok job w :
  exists w',
    reset_job env cfg job w = Ok tt w'
    /\ dicts w' job = with_status "submitted" (dicts w job)
    /\ remote w'
       = (remote w
            ++ [PutLog (id (dicts w job)) ("reset status to 'submitted'" ++ NL);
                PutJob (job_server cfg ++ resource_uri (dicts w job))
                       (with_status "submitted" (dicts w job))])%list.
Proof.
  unfold reset_job, bind, modify, get_dict, _put.
  cbn [dicts set_dicts ndicts remote set_remote]. unfold upd.
  rewrite !Nat.eqb_refl. cbn [id resource_uri with_status].
  rewrite !put_all. eexists. split; [reflexivity|].
  cbn [dicts set_dicts set_remote remote]. rewrite Nat.eqb_refl.
  split; [reflexivity|]. now rewrite <- app_assoc.
Qed.

End KillReset.

(** X6: a job can be killed once.  After a [kill_job] that went through,
    its status is "error", so a second [kill_job] raises the precondition
    error and sends nothing. *)
Theorem kill_job_only_once (env : Env) (cfg : Config) (job : nat)
        (msg msg' : string) (w : World) :
  (forall rq, put_ok env rq = true) ->
  In (status (dicts w job)) ["running"; "submitted"] ->
  exists w',
    kill_job env cfg job msg w = Ok tt w'
    /\ kill_job env cfg job msg' w'
       = Raise (Exception_ "You cannot kill a job with status error") w'.
Proof.
  intros Hput Hin.
  destruct (kill_job_ok env cfg Hput job msg w Hin) as (w' & E & D & _).
  exists w'. split; [exact E|].
  rewrite (kill_job_refused env cfg job msg' w').
  - rewrite D. reflexivity.
  - rewrite D. cbn. intros [H|[H|[]]]; discriminate H.
Qed.

Lemma kill_job_only_once_witness :
  exists w',
    kill_job Example.env0 Example.cfg0 0 "first" Example.w0 = Ok tt w'
    /\ kill_job Example.env0 Example.cfg0 0 "second" w'
       = Raise (Exception_ "You cannot kill a job with status error") w'.
Proof.
  apply (kill_job_only_once Example.env0 Example.cfg0 0 "first" "second" Example.w0).
  - intros rq. reflexivity.
  - right. left. reflexivity.
Defined.

(** X7: [reset_job] puts any job back to "submitted", whatever its status
    was, sends the log line and then the job with its log still in it; the
    job can then be killed again. *)
Theorem reset_job_makes_killable (env : Env) (cfg : Config) (job : nat)
        (msg : string) (w : World) :
  (forall rq, put_ok env rq = true) ->
  exists w1 w2,
    reset_job env cfg job w = Ok tt w1
    /\ dicts w1 job = with_status "submitted" (dicts w job)
    /\ remote w1
       = (remote w
            ++ [PutLog (id (dicts w job)) ("reset status to 'submitted'" ++ NL);
                PutJob (job_server cfg ++ resource_uri (dicts w job))
                       (with_status "submitted" (dicts w job))])%list
    /\ kill_job env cfg job msg w1 = Ok tt w2.
Proof.
  intros Hput.
  destruct (reset_job_ok env cfg Hput job w) as (w1 & E & D & R).
  destruct (kill_job_ok env cfg Hput job msg w1) as (w2 & E2 & _).
  - rewrite D. right. left. reflexivity.
  - exists w1, w2. repeat split; assumption.
Qed.

(** A finished job: it cannot be killed, and can be once reset. *)
Lemma reset_job_makes_killable_witness :
  let finished := set_dicts Example.w0
                    (upd (dicts Example.w0) 0%nat
                         (with_status "finished" Example.job1)) 1 in
  kill_job Example.env0 Example.cfg0 0 "boom" finished
  = Raise (Exception_ "You cannot kill a job with status finished") finished
  /\ exists w1 w2,
      reset_job Example.env0 Example.cfg0 0 finished = Ok tt w1
      /\ kill_job Example.env0 Example.cfg0 0 "boom" w1 = Ok tt w2.
Proof.
  intros finished. split; [reflexivity|].
  destruct (reset_job_makes_killable Example.env0 Example.cfg0 0 "boom" finished
              (fun _ => eq_refl))
    as (w1 & w2 & E1 & _ & _ & E2).
  exists w1, w2. split; assumption.
Defined.

(** ** Retrieval and submission *)

Section Submission.

Variable env : Env.
Variable cfg : Config.

Lemma retrieve_loop_busy fuel pending w :
  pending = [] ->
  (forall n, (fetches w <= n)%nat -> next_job env n <> None) ->
  retrieve_loop env fuel pending w = Diverge.
Proof.
  intros ->. revert w; induction fuel as [|k IH]; intros w Hbusy; [reflexivity|].
  cbn [retrieve_loop]. unfold bind at 1, get_next_job.
  destruct (next_job env (fetches w)) as [j|] eqn:E;
    [|exfalso; exact (Hbusy (fetches w) (Nat.le_refl _) E)].
  unfold bind at 1, new_dict. unfold ret at 1. unfold bind at 1, job_in.
  cbn [existsb]. apply IH. cbn [fetches set_fetches set_dicts].
  intros n Hn. apply Hbusy. lia.
Qed.

(** Building a job description ends, and changes nothing. *)
Lemma build_job_description_outcome r w :
  match _build_job_description env cfg r w with
  | Ok d w1 => w1 = w /\ arguments d <> []
  | Raise _ w1 => w1 = w
  | Diverge => False
  end.
Proof.
  destruct (_build_job_description env cfg r w) as [d w1|e w1|] eqn:B.
  - exact (build_job_description_ok env cfg r w d w1 B).
  - revert B. unfold _build_job_description. unfold bind at 1, get_dict.
    unfold bind at 1.
    destruct (String.eqb _ "0.7");
      [|destruct (String.eqb _ "0.8");
        [|unfold raise; intros E; now inversion E]];
      unfold ret at 1;
      (destruct (format_system env _ _);
       [unfold raise; intros E; now inversion E|discriminate]).
  - revert B. unfold _build_job_description. unfold bind at 1, get_dict.
    unfold bind at 1.
    destruct (String.eqb _ "0.7");
      [|destruct (String.eqb _ "0.8"); [|discriminate]];
      unfold ret at 1;
      (destruct (format_system env _ _); discriminate).
Qed.

(** [run] ends in one of two ways: a message about the description that
    could not be built, or the TypeError of the call of [get_code]. *)
Lemma run_outcome r w :
  (exists e,
      _build_job_description env cfg r w = Raise e w
      /\ run env cfg r w
         = Ok (None, "Failed to build job description with error: " ++ repr e) w)
  \/ (exists d,
         _build_job_description env cfg r w = Ok d w
         /\ run env cfg r w
            = Raise (TypeError "string indices must be integers, not str") w).
Proof.
  pose proof (build_job_description_outcome r w) as B.
  destruct (_build_job_description env cfg r w) as [d w1|e w1|] eqn:Eb;
    [| |destruct B].
  - destruct B as [-> Hargs]. right. exists d. split; [reflexivity|].
    unfold run. unfold bind at 1, try_except. unfold bind at 1. rewrite Eb.
    unfold ret at 1. unfold bind at 1.
    destruct (arguments d) as [|x rest]; [congruence|]. reflexivity.
  - subst w1. left. exists e. split; [reflexivity|].
    unfold run. unfold bind at 1, try_except. unfold bind at 1. rewrite Eb.
    reflexivity.
Qed.

(** The submission loop never appends to a list. *)
Lemma submit_loop_lists l a w :
  match submit_loop env cfg l a w with
  | Ok _ w' => lists w' = lists w
  | _ => True
  end.
Proof.
  revert w; induction l as [|r l IH]; intros w; [reflexivity|].
  cbn [submit_loop]. unfold bind at 1.
  destruct (run_outcome r w) as [(e & _ & ->)|(d & _ & ->)]; [|exact I].
  cbn [snd fst truthy append]. unfold bind at 1.
  pose proof (lists_of_store _ (store_kill_job env cfg r
     ("Failed to build job description with error: " ++ repr e)) w) as Hk.
  destruct (kill_job env cfg r _ w) as [u w1|e1 w1|]; [|exact I|exact I].
  specialize (IH w1). destruct (submit_loop env cfg l a w1); [|exact I|exact I].
  congruence.
Qed.

End Submission.

(** X8: while the queue keeps serving a job (as it does for a job that
    stays submitted) [retrieve_pending_jobs] does not return: the list it
    tests for duplicates stays empty, so no answer ends the loop. *)
Theorem retrieve_pending_jobs_spins (env : Env) (fuel : nat) (w : World) :
  (forall n, (fetches w <= n)%nat -> next_job env n <> None) ->
  retrieve_pending_jobs env fuel w = Diverge.
Proof.
  intros Hbusy. unfold retrieve_pending_jobs.
  now apply retrieve_loop_busy.
Qed.

Lemma retrieve_pending_jobs_spins_witness :
  retrieve_pending_jobs Example2.env_busy 50 Example.w0 = Diverge.
Proof.
  apply (retrieve_pending_jobs_spins Example2.env_busy 50 Example.w0).
  intros n _. discriminate.
Defined.

(** X9: [submit_jobs] never puts a job in flight: whatever jobs it is
    given, if it returns, the list it returns is empty, because [run] never
    hands back a SAGA job. *)
Theorem submit_jobs_returns_empty (env : Env) (cfg : Config)
        (pending_jobs : list nat) (w w' : World) (saga_jobs : nat) :
  submit_jobs env cfg pending_jobs w = Ok saga_jobs w' ->
  lists w' saga_jobs = [].
Proof.
  unfold submit_jobs. unfold bind at 1, new_list. unfold bind at 1.
  match goal with |- context [submit_loop env cfg pending_jobs ?a ?w0] =>
    pose proof (submit_loop_lists env cfg pending_jobs a w0) as H;
    destruct (submit_loop env cfg pending_jobs a w0) as [u w1|e w1|]
  end; [|discriminate|discriminate].
  unfold ret. intros E. inversion E; subst. rewrite H.
  cbn [lists set_lists]. unfold upd. now rewrite Nat.eqb_refl.
Qed.

(** A job whose description cannot be built: it is killed and the list
    returned is empty. *)
Lemma submit_jobs_returns_empty_witness :
  exists a w',
    submit_jobs Example.env0 Example.cfg0 [0%nat] Example2.w_bad = Ok a w'
    /\ lists w' a = []
    /\ status (dicts w' 0%nat) = "error".
Proof.
  destruct (submit_jobs Example.env0 Example.cfg0 [0%nat] Example2.w_bad)
    as [a w'| |] eqn:E; [|vm_compute in E; discriminate E..].
  exists a, w'. split; [reflexivity|]. split.
  - exact (submit_jobs_returns_empty Example.env0 Example.cfg0 [0%nat]
             Example2.w_bad w' a E).
  - vm_compute in E. inversion E. reflexivity.
Defined.

(** X10: one job whose description can be built stops the submission of
    all: [submit_jobs] ends with the TypeError raised in [get_code], the job
    is neither killed nor submitted, and the jobs behind it are not looked
    at. *)
Theorem submit_jobs_aborts_on_buildable_job
        (env : Env) (cfg : Config) (nmpi_job : nat) (rest : list nat)
        (w w1 : World) (job_desc : JobDescription) :
  _build_job_description env cfg nmpi_job w = Ok job_desc w1 ->
  exists w',
    submit_jobs env cfg (nmpi_job :: rest) w
    = Raise (TypeError "string indices must be integers, not str") w'
    /\ dicts w' = dicts w /\ remote w' = remote w.
Proof.
  intros B. unfold submit_jobs. unfold bind at 1, new_list.
  cbn [submit_loop]. unfold bind at 1. unfold bind at 1.
  match goal with |- context [run env cfg nmpi_job ?w0] =>
    destruct (run_outcome env cfg nmpi_job w0) as [(e & B' & _)|(d & _ & ->)]
  end.
  - exfalso. revert B B'. unfold _build_job_description.
    unfold bind at 1, get_dict. unfold bind at 1.
    unfold bind at 1, get_dict. unfold bind at 1.
    cbn [dicts set_lists].
    destruct (String.eqb _ "0.7");
      [|destruct (String.eqb _ "0.8"); [|discriminate]];
      unfold ret at 1; unfold ret at 2;
      (destruct (format_system env _ _); [discriminate|]);
      intros _; discriminate.
  - eexists. split; [reflexivity|]. split; reflexivity.
Qed.

Lemma submit_jobs_aborts_on_buildable_job_witness :
  exists w',
    submit_jobs Example.env0 Example.cfg0 [0%nat; 0%nat] Example.w0
    = Raise (TypeError "string indices must be integers, not str") w'
    /\ remote w' = [].
Proof.
  destruct (submit_jobs_aborts_on_buildable_job
              Example.env0 Example.cfg0 0 [0%nat] Example.w0 Example.w0
              Example.desc1 eq_refl)
    as (w' & E & _ & R).
  exists w'. split; [exact E|exact R].
Defined.

(** X11: a job whose description cannot be built (an unsupported PyNN
    version, a command template that does not format) is killed with the
    message of that failure and the loop goes on with the next job; no
    other job and no list is touched. *)
Theorem submit_loop_kills_unbuildable_job
        (env : Env) (cfg : Config) (nmpi_job : nat) (rest : list nat)
        (saga_jobs : nat) (w w0 : World) (e : exn) :
  (forall rq, put_ok env rq = true) ->
  _build_job_description env cfg nmpi_job w = Raise e w0 ->
  In (status (dicts w nmpi_job)) ["running"; "submitted"] ->
  exists w1,
    submit_loop env cfg (nmpi_job :: rest) saga_jobs w
    = submit_loop env cfg rest saga_jobs w1
    /\ status (dicts w1 nmpi_job) = "error"
    /\ (forall r, r <> nmpi_job -> dicts w1 r = dicts w r)
    /\ lists w1 = lists w
    /\ remote w1
       = (remote w
            ++ [PutJob (job_server cfg ++ resource_uri (dicts w nmpi_job))
                       (with_log None (with_status "error" (dicts w nmpi_job)));
                PutLog (id (dicts w nmpi_job))
                       ((or_default (log (dicts w nmpi_job)) ""
                           ++ "Internal error. Please resubmit the job" ++ NL)
                          ++ "Failed to build job description with error: "
                          ++ repr e)])%list.
Proof.
  intros Hput B Hin.
  destruct (run_outcome env cfg nmpi_job w) as [(e' & B' & R)|(d & B' & _)];
    [|congruence].
  assert (e' = e) by congruence. subst e'.
  destruct (kill_job_ok env cfg Hput nmpi_job
              ("Failed to build job description with error: " ++ repr e) w Hin)
    as (w1 & K & D & Dr & L & Rm).
  exists w1. split.
  - cbn [submit_loop]. unfold bind at 1. rewrite R. cbn [snd fst].
    change (truthy (Some ("Failed to build job description with error: "
                            ++ repr e))) with true.
    cbv iota. unfold bind at 1. rewrite K. reflexivity.
  - split; [now rewrite D|]. split; [exact Dr|]. split; [exact L|exact Rm].
Qed.

(** A job that asks for PyNN 0.9: killed, with the ValueError in its log. *)
Lemma submit_loop_kills_unbuildable_job_witness :
  exists w1,
    submit_loop Example.env0 Example.cfg0 [0%nat] 0 Example2.w_bad = Ok tt w1
    /\ status (dicts w1 0%nat) = "error"
    /\ remote w1
       = [PutJob "https://nmpi.example/api/v2/queue/2"
                 (with_log None (with_status "error" Example2.job_bad));
          PutLog 2 ("queued" ++ "Internal error. Please resubmit the job" ++ NL
                      ++ "Failed to build job description with error: "
                      ++ "ValueError('Supported PyNN versions: 0.7, 0.8. 0.9 not supported',)")].
Proof.
  destruct (submit_loop_kills_unbuildable_job
              Example.env0 Example.cfg0 0 [] 0 Example2.w_bad Example2.w_bad
              (ValueError "Supported PyNN versions: 0.7, 0.8. 0.9 not supported")
              (fun _ => eq_refl) eq_refl (or_intror (or_introl eq_refl)))
    as (w1 & E & S & _ & _ & R).
  exists w1. split; [exact E|]. split; [exact S|]. rewrite R. reflexivity.
Defined.

(** ** Code provisioning, with the arguments in the declared order *)

Section GetCode.

Variable env : Env.

(** On an archive URL [get_code] reaches the download. *)
Lemma get_code_archive_branch wd r script_name w :
  let c := code (dicts w r) in
  let u := urlparse env c in
  fst u <> "" ->
  endswith_any [".tar.gz"; ".zip"; ".tgz"] (snd u) = true ->
  get_code env (PStr wd) (PDict r) script_name w
  = bind (create_working_directory env wd)
         (fun _ =>
            let target := PyPath.join wd (PyPath.basename (snd u)) in
            if negb (subprocess_call env ["curl"; c; "-o"; target] =? 0) then
              ret (Some ("Unable to retrieve code from url: " ++ c))
            else if endswith_any [".tar.gz"; ".tgz"] (snd u) then
              if negb (subprocess_call env ["tar"; "xfz"; target; "--directory"; wd] =? 0)
              then ret (Some "Unable extract tar file, malformed archive?")
              else ret None
            else if PyStr.endswith ".zip" (snd u) then
              if negb (subprocess_call env ["unzip"; "-o"; target; "-d"; wd] =? 0)
              then ret (Some "Unable expand zip file, malformed archive?")
              else ret None
            else raise (AssertionError "unreachable")) w.
Proof.
  intros c u Hs Ha.
  assert (Hcond : negb (String.eqb (fst u) "")
                  && endswith_any [".tar.gz"; ".zip"; ".tgz"] (snd u) = true).
  { rewrite Ha. destruct (String.eqb_spec (fst u) ""); [contradiction|reflexivity]. }
  unfold get_code. unfold bind at 1. cbn [subscript_code].
  unfold bind at 1, get_dict, ret. fold c. fold u. rewrite Hcond.
  unfold bind at 1. cbn [subscript_code]. unfold bind at 1, get_dict, ret.
  fold c. unfold bind at 1, as_path, ret. reflexivity.
Qed.

(** The branch [get_code] takes when the code is no archive URL and either
    has no http, https or ssh scheme or could not be cloned. *)
Lemma get_code_script_branch wd r script_name w :
  let c := code (dicts w r) in
  let u := urlparse env c in
  negb (String.eqb (fst u) "")
  && endswith_any [".tar.gz"; ".zip"; ".tgz"] (snd u) = false ->
  (PyStr.mem (fst u) ["http"; "https"; "ssh"] = true ->
   subprocess_call env ["git"; "clone"; "--recursive"; c; wd] <> 0) ->
  get_code env (PStr wd) (PDict r) script_name w
  = write_script env (PStr wd) (PDict r) script_name w.
Proof.
  intros c u Hcond Hclone.
  unfold get_code. unfold bind at 1. cbn [subscript_code].
  unfold bind at 1, get_dict, ret. fold c. fold u. rewrite Hcond.
  destruct (PyStr.mem (fst u) ["http"; "https"; "ssh"]); [|reflexivity].
  unfold bind at 1. cbn [subscript_code]. unfold bind at 1, get_dict, ret.
  fold c. unfold bind at 1, as_path, ret.
  destruct (Z.eqb_spec (subprocess_call env ["git"; "clone"; "--recursive"; c; wd]) 0)
    as [E|_]; [|reflexivity].
  exfalso. exact (Hclone eq_refl E).
Qed.

Lemma write_script_ok wd r script_name w :
  path_exists env wd = true -> write_ok env script_name = true ->
  write_script env (PStr wd) (PDict r) script_name w
  = Ok None (set_written w (written w ++ [(script_name, code (dicts w r))])).
Proof.
  intros Hwd Hwr.
  unfold write_script, try_except, bind, as_path, ret, create_working_directory,
    bind, exists_path, subscript_code, bind, get_dict, ret, write_file.
  rewrite Hwd. cbn [orb negb]. unfold ret. now rewrite Hwr.
Qed.

Lemma write_script_no_directory wd r script_name w :
  path_exists env wd = false -> makedirs_ok env wd = false ->
  ~ In wd (made_dirs w) ->
  exists msg,
    write_script env (PStr wd) (PDict r) script_name w = Ok (Some msg) w
    /\ msg <> "".
Proof.
  intros Hp Hm Hn. apply mem_not_In in Hn.
  unfold write_script, try_except, bind, as_path, ret, create_working_directory,
    bind, exists_path, makedirs.
  rewrite Hp, Hn, Hm. cbn [orb negb]. eexists. split; [reflexivity|discriminate].
Qed.

End GetCode.

(** X12: when the code is the URL of an archive, [get_code] never creates
    the script file, whether the download and the extraction succeed, fail
    or raise. *)
Theorem get_code_archive_writes_no_script
        (env : Env) (wd : string) (nmpi_job : nat) (script_name : string)
        (w : World) :
  let u := urlparse env (code (dicts w nmpi_job)) in
  fst u <> "" ->
  endswith_any [".tar.gz"; ".zip"; ".tgz"] (snd u) = true ->
  match get_code env (PStr wd) (PDict nmpi_job) script_name w with
  | Ok _ w' | Raise _ w' => written w' = written w
  | Diverge => False
  end.
Proof.
  intros u Hs Ha.
  rewrite (get_code_archive_branch env wd nmpi_job script_name w Hs Ha).
  unfold bind, create_working_directory, bind, exists_path, makedirs, ret, raise.
  destruct (path_exists env wd || PyStr.mem wd (made_dirs w)); cbn [negb];
    [|destruct (makedirs_ok env wd); [|reflexivity]];
    repeat match goal with
           | |- context [if ?b then _ else _] => destruct b
           end; reflexivity.
Qed.

Lemma get_code_archive_writes_no_script_witness :
  exists msg w',
    get_code (Example2.env_url true) (PStr "/work/job_3") (PDict 0)
             "/work/job_3/run.py" Example2.w_archive
    = Ok (Some msg) w'
    /\ written w' = [].
Proof.
  pose proof (get_code_archive_writes_no_script
                (Example2.env_url true) "/work/job_3" 0 "/work/job_3/run.py"
                Example2.w_archive ltac:(discriminate) eq_refl) as H.
  destruct (get_code (Example2.env_url true) (PStr "/work/job_3") (PDict 0)
                     "/work/job_3/run.py" Example2.w_archive)
    as [[msg|] w'| |] eqn:E; try (vm_compute in E; discriminate E).
  exists msg, w'. split; [reflexivity|exact H].
Defined.

(** X13: when the code is an http, https or ssh URL that is no archive and
    the clone fails, [get_code] reports no error: it writes the URL itself
    to the script file, as if it were the program. *)
Theorem get_code_failed_clone_writes_url
        (env : Env) (wd : string) (nmpi_job : nat) (script_name : string)
        (w : World) :
  let c := code (dicts w nmpi_job) in
  let u := urlparse env c in
  PyStr.mem (fst u) ["http"; "https"; "ssh"] = true ->
  endswith_any [".tar.gz"; ".zip"; ".tgz"] (snd u) = false ->
  subprocess_call env ["git"; "clone"; "--recursive"; c; wd] <> 0 ->
  path_exists env wd = true ->
  write_ok env script_name = true ->
  get_code env (PStr wd) (PDict nmpi_job) script_name w
  = Ok None (set_written w (written w ++ [(script_name, c)])).
Proof.
  intros c u Hm Ha Hclone Hwd Hwr.
  rewrite (get_code_script_branch env wd nmpi_job script_name w).
  - now apply write_script_ok.
  - fold c. fold u. rewrite Ha. apply andb_false_r.
  - intros _. exact Hclone.
Qed.

Lemma get_code_failed_clone_writes_url_witness :
  get_code (Example2.env_url true) (PStr "/work/job_4") (PDict 0)
           "/work/job_4/run.py" Example2.w_repo
  = Ok None (set_written Example2.w_repo
                         [("/work/job_4/run.py", "https://example.com/repo")]).
Proof.
  apply (get_code_failed_clone_writes_url
           (Example2.env_url true) "/work/job_4" 0 "/work/job_4/run.py"
           Example2.w_repo eq_refl eq_refl ltac:(discriminate) eq_refl eq_refl).
Defined.

(** X14: when the working directory does not exist and cannot be made,
    [get_code] raises on an archive URL (the directory is made outside any
    handler) but returns a message on a literal script (there it is made
    inside the handler). *)
Theorem get_code_directory_failure
        (env : Env) (wd : string) (nmpi_job : nat) (script_name : string)
        (w : World) :
  let u := urlparse env (code (dicts w nmpi_job)) in
  path_exists env wd = false ->
  makedirs_ok env wd = false ->
  ~ In wd (made_dirs w) ->
  (fst u <> "" ->
   endswith_any [".tar.gz"; ".zip"; ".tgz"] (snd u) = true ->
   exists e, get_code env (PStr wd) (PDict nmpi_job) script_name w = Raise e w)
  /\ (endswith_any [".tar.gz"; ".zip"; ".tgz"] (snd u) = false ->
      PyStr.mem (fst u) ["http"; "https"; "ssh"] = false ->
      exists msg,
        get_code env (PStr wd) (PDict nmpi_job) script_name w = Ok (Some msg) w
        /\ msg <> "").
Proof.
  intros u Hp Hm Hn. split.
  - intros Hs Ha.
    rewrite (get_code_archive_branch env wd nmpi_job script_name w Hs Ha).
    apply mem_not_In in Hn.
    unfold bind, create_working_directory, bind, exists_path, makedirs.
    rewrite Hp, Hn, Hm. cbn [orb negb]. eexists. reflexivity.
  - intros Ha Hsch.
    rewrite (get_code_script_branch env wd nmpi_job script_name w).
    + now apply write_script_no_directory.
    + fold u. rewrite Ha. apply andb_false_r.
    + fold u. rewrite Hsch. discriminate.
Qed.

Lemma get_code_directory_failure_witness :
  (exists e,
      get_code (Example2.env_url false) (PStr "/work/job_3") (PDict 0)
               "/work/job_3/run.py" Example2.w_archive
      = Raise e Example2.w_archive)
  /\ (exists msg,
         get_code (Example2.env_url false) (PStr "/work/job_1") (PDict 0)
                  "/work/job_1/run.py" Example.w0
         = Ok (Some msg) Example.w0).
Proof.
  split.
  - apply (proj1 (get_code_directory_failure
                    (Example2.env_url false) "/work/job_3" 0 "/work/job_3/run.py"
                    Example2.w_archive eq_refl eq_refl (fun H => H))).
    + discriminate.
    + reflexivity.
  - destruct (proj2 (get_code_directory_failure
                       (Example2.env_url false) "/work/job_1" 0
                       "/work/job_1/run.py" Example.w0 eq_refl eq_refl
                       (fun H => H)) eq_refl eq_refl)
      as (msg & E & _).
    exists msg. exact E.
Defined.

(** ** Harvesting: the whole of _handle_output_data *)

Section HarvestReturns.

Variable env : Env.
Variable cfg : Config.

Lemma returns_ret {A : Type} (a : A) : always_returns (ret a).
Proof. intros w. now exists a, w. Qed.

Lemma returns_bind {A B : Type} (c : M A) (k : A -> M B) :
  always_returns c -> (forall a, always_returns (k a)) ->
  always_returns (bind c k).
Proof.
  intros Hc Hk w. unfold bind. destruct (Hc w) as (a & w1 & ->). apply Hk.
Qed.

(** A handler that returns makes the whole [try] return, provided the body
    ends. *)
Lemma returns_try {A X : Type} (proj : World -> X) (c : M A) (h : exn -> M A) :
  preserves proj c -> (forall e, always_returns (h e)) ->
  always_returns (try_except c h).
Proof.
  intros Hc Hh w. unfold try_except. specialize (Hc w).
  destruct (c w) as [a w1|e w1|]; [now exists a, w1|apply Hh|destruct Hc].
Qed.

Lemma returns_exists_path p : always_returns (exists_path env p).
Proof. intros w. eexists _, w. reflexivity. Qed.

Lemma returns_copy_new_files wd od l :
  always_returns (copy_new_files env wd od l).
Proof.
  induction l as [|f l IH]; cbn [copy_new_files]; [apply returns_ret|].
  apply returns_bind.
  - apply (returns_try list_store); [frame|intros e; apply returns_ret].
  - intros [msg|]; [apply returns_ret|exact IH].
Qed.

Lemma returns_copy_output d l : always_returns (copy_output env cfg d l).
Proof.
  unfold copy_output. destruct (negb _); [|apply returns_ret].
  apply returns_bind; [apply returns_exists_path|intros ex].
  apply returns_bind.
  - destruct (negb ex); [|apply returns_ret].
    apply (returns_try list_store); [frame|intros e; apply returns_ret].
  - intros [msg|]; [apply returns_ret|apply returns_copy_new_files].
Qed.

Lemma returns_post_data_items r wd l :
  always_returns (post_data_items env cfg r wd l).
Proof.
  induction l as [|f l IH]; cbn [post_data_items]; [apply returns_ret|].
  apply returns_bind.
  - apply (returns_try list_store); [frame|intros e; apply returns_ret].
  - intros [msg|]; [apply returns_ret|exact IH].
Qed.

(** The registration loop when the data server accepts every file. *)
Lemma post_data_items_all r wd l uri_of w :
  (forall x, In x l -> create_data_item env (item_url cfg wd x) = inr (uri_of x)) ->
  exists w',
    post_data_items env cfg r wd l w = Ok None w'
    /\ dicts w' r
       = with_output_data (output_data (dicts w r) ++ map uri_of l)%list (dicts w r)
    /\ remote w' = (remote w ++ map (fun x => PostDataItem (item_url cfg wd x)) l)%list.
Proof.
  revert w; induction l as [|x l IH]; intros w Hall.
  - exists w. cbn [post_data_items map]. rewrite !app_nil_r.
    split; [reflexivity|]. split; [now destruct (dicts w r)|reflexivity].
  - cbn [post_data_items]. unfold bind at 1, try_except.
    unfold bind at 1, client_create_data_item. fold (item_url cfg wd x).
    rewrite (Hall x (or_introl eq_refl)).
    unfold bind at 1, modify. unfold ret at 1.
    match goal with |- context [post_data_items env cfg r wd l ?w0] =>
      destruct (IH w0 (fun y Hy => Hall y (or_intror Hy))) as (w' & E & D & R)
    end.
    exists w'. split; [exact E|]. rewrite D, R.
    cbn [dicts set_dicts set_remote remote]. unfold upd. rewrite Nat.eqb_refl.
    cbn [output_data with_output_data map]. rewrite <- !app_assoc.
    split; reflexivity.
Qed.

(** The copy sends nothing. *)
Lemma remote_copy_new_files wd od l : preserves remote (copy_new_files env wd od l).
Proof. induction l as [|f l IH]; simpl; frame. Qed.

Lemma remote_copy_output d l : preserves remote (copy_output env cfg d l).
Proof. unfold copy_output. frame. apply remote_copy_new_files. Qed.

(** Writing into one dictionary leaves the others. *)
Lemma other_dict_modify r r' g :
  r' <> r -> preserves (fun w => dicts w r') (modify r g).
Proof.
  intros Hr w. cbn. unfold upd.
  destruct (Nat.eqb_spec r' r); [contradiction|reflexivity].
Qed.

Lemma other_dict_update_job r r' :
  r' <> r -> preserves (fun w => dicts w r') (update_job env cfg r).
Proof.
  intros Hr. unfold update_job, pop_log.
  frame; apply other_dict_modify; exact Hr.
Qed.

Lemma other_dict_post_data_items r r' wd l :
  r' <> r -> preserves (fun w => dicts w r') (post_data_items env cfg r wd l).
Proof.
  intros Hr. induction l as [|f l IH]; simpl; frame.
  apply other_dict_modify; exact Hr.
Qed.

(** The registration and the update of the job touch no file. *)
Lemma files_post_data_items r wd l :
  preserves (fun w => (made_dirs w, copied w, written w))
            (post_data_items env cfg r wd l).
Proof. induction l as [|f l IH]; simpl; frame. Qed.

Lemma files_update_job r :
  preserves (fun w => (made_dirs w, copied w, written w)) (update_job env cfg r).
Proof. unfold update_job, pop_log. frame. Qed.

Lemma written_copy_new_files wd od l :
  preserves written (copy_new_files env wd od l).
Proof. induction l as [|f l IH]; simpl; frame. Qed.

Lemma written_copy_output d l : preserves written (copy_output env cfg d l).
Proof. unfold copy_output. frame. apply written_copy_new_files. Qed.

End HarvestReturns.

(** X15: once the harvest has returned its list, [_handle_output_data] never
    raises: whatever the list of new files, a directory that cannot be made,
    a copy that fails, a refusal of the data server or of the queue all come
    back as the result of l.613-654.  (The harvest itself, l.611-612, stands
    outside every handler and is not part of this statement.) *)
Theorem handle_new_files_never_raises (env : Env) (cfg : Config)
        (nmpi_job : nat) (job_desc : JobDescription) (new_files : list string) :
  always_returns (handle_new_files env cfg nmpi_job job_desc new_files).
Proof.
  unfold handle_new_files.
  apply returns_bind; [apply returns_copy_output|].
  intros [msg|]; [apply returns_ret|].
  apply returns_bind; [apply returns_post_data_items|].
  intros [msg|]; [apply returns_ret|].
  apply (returns_try list_store).
  - apply preserves_bind; [apply store_update_job|intros ?; apply preserves_ret].
  - intros e. apply returns_ret.
Qed.

(** X16: when the harvest returned [new_files], the copy reported no error,
    the data server accepts every new file and the queue accepts the job,
    [_handle_output_data] returns no error; the job's [output_data] has
    gained one reference per new file in the order of the walk and its local
    log is gone, every other key and every other job being as before; and
    the requests sent are one registration per new file, in that order,
    followed by the update of the job (the job without its log, then its log
    when it had a non-empty one); after the copy no directory is made and no
    file copied or written, and the lists are as before. *)
Theorem handle_output_data_registers_all
        (env : Env) (cfg : Config) (nmpi_job : nat) (saga_job : SagaJob)
        (w w1 : World) (new_files : list string) (uri_of : string -> string) :
  let wd := working_directory (description saga_job) in
  let pushed :=
    with_output_data (output_data (dicts w nmpi_job) ++ map uri_of new_files)%list
                     (dicts w nmpi_job) in
  _find_new_data_files (tree_at env wd) wd (start_time saga_job)
                       default_ignoredirs default_ignore_extensions
  = new_files ->
  (forall rq, put_ok env rq = true) ->
  copy_output env cfg (description saga_job) new_files w = Ok None w1 ->
  (forall x, In x new_files ->
             create_data_item env (item_url cfg wd x) = inr (uri_of x)) ->
  exists w',
    _handle_output_data env cfg nmpi_job saga_job w = Ok None w'
    /\ output_data (dicts w' nmpi_job)
       = (output_data (dicts w nmpi_job) ++ map uri_of new_files)%list
    /\ log (dicts w' nmpi_job) = None
    /\ status (dicts w' nmpi_job) = status (dicts w nmpi_job)
    /\ dicts w' nmpi_job = with_log None pushed
    /\ (forall r, r <> nmpi_job -> dicts w' r = dicts w r)
    /\ remote w'
       = (remote w
            ++ map (fun x => PostDataItem (item_url cfg wd x)) new_files
            ++ update_requests cfg pushed)%list
    /\ made_dirs w' = made_dirs w1 /\ copied w' = copied w1
    /\ written w' = written w /\ lists w' = lists w.
Proof.
  intros wd pushed Hfiles Hput Hcopy Hall.
  destruct (post_data_items_all env cfg nmpi_job wd new_files uri_of w1 Hall)
    as (w2 & E2 & D2 & R2).
  destruct (update_job_effect env cfg nmpi_job w2 (fun rq _ => Hput rq))
    as (w3 & E3 & D3 & R3).
  assert (Hd : dicts w1 = dicts w)
    by exact (preserves_ok dicts _ _ _ _ (dicts_copy_output env cfg _ _) Hcopy).
  assert (Hr : remote w1 = remote w)
    by exact (preserves_ok remote _ _ _ _ (remote_copy_output env cfg _ _) Hcopy).
  assert (Hp : dicts w2 nmpi_job = pushed) by (rewrite D2, Hd; reflexivity).
  exists w3. split.
  - unfold _handle_output_data, handle_new_files. fold wd. rewrite Hfiles.
    unfold bind at 1. rewrite Hcopy. unfold bind at 1. rewrite E2.
    unfold try_except, bind. rewrite E3. reflexivity.
  - rewrite D3, Hp. repeat (split; [reflexivity|]). split.
    + intros r Hne.
      rewrite (preserves_ok (fun x => dicts x r) _ _ _ _
                 (other_dict_update_job env cfg nmpi_job r Hne) E3).
      rewrite (preserves_ok (fun x => dicts x r) _ _ _ _
                 (other_dict_post_data_items env cfg nmpi_job r wd new_files Hne) E2).
      now rewrite Hd.
    + split; [rewrite R3, R2, Hr, Hp; now rewrite <- app_assoc|].
      pose proof (preserves_ok _ _ _ _ _ (files_update_job env cfg nmpi_job) E3) as F3.
      pose proof (preserves_ok _ _ _ _ _
                    (files_post_data_items env cfg nmpi_job wd new_files) E2) as F2.
      pose proof (preserves_ok _ _ _ _ _ (written_copy_output env cfg _ _) Hcopy) as W1.
      pose proof (preserves_ok _ _ _ _ _ (store_update_job env cfg nmpi_job) E3) as S3.
      pose proof (preserves_ok _ _ _ _ _
                    (store_post_data_items env cfg nmpi_job wd new_files) E2) as S2.
      pose proof (preserves_ok _ _ _ _ _ (store_copy_output env cfg _ _) Hcopy) as S1.
      cbv beta in F3, F2. unfold list_store in S3, S2, S1.
      inversion F3 as [[Fa Fb Fc]]. inversion F2 as [[Ga Gb Gc]].
      inversion S3 as [[Sa Sb]]. inversion S2 as [[Ta Tb]]. inversion S1 as [[Ua Ub]].
      repeat split; congruence.
Qed.

(** The example harvest on a data server that accepts both files: two
    registrations, then the job. *)
Lemma handle_output_data_registers_all_witness :
  exists w',
    _handle_output_data Example2.env_open Example.cfg0 0 Example.saga1 Example.w1
    = Ok None w'
    /\ output_data (dicts w' 0%nat)
       = ["/api/v2/dataitem/https://data.example/job_1/a.txt";
          "/api/v2/dataitem/https://data.example/job_1/sub/x"]
    /\ List.length (remote w') = 3%nat.
Proof.
  destruct (handle_output_data_registers_all
              Example2.env_open Example.cfg0 0 Example.saga1 Example.w1 Example.w1
              ["a.txt"; "sub/x"]
              (fun x => "/api/v2/dataitem/" ++ item_url Example.cfg0 "/work/job_1" x)
              eq_refl (fun _ => eq_refl) eq_refl (fun _ _ => eq_refl))
    as (w' & E & O & _ & _ & _ & _ & R & _).
  exists w'. split; [exact E|]. split; [rewrite O; reflexivity|].
  rewrite R. reflexivity.
Defined.

(** ** The wait loop on failed jobs *)

Section WaitFailed.

Variable env : Env.
Variable cfg : Config.
Hypothesis put_all : forall rq, put_ok env rq = true.

(** The removal looks at the dictionaries only. *)
Lemma remove_tuple_ext w1 w2 x l :
  dicts w1 = dicts w2 -> remove_tuple w1 x l = remove_tuple w2 x l.
Proof.
  intros Hd. induction l as [|y l IH]; cbn [remove_tuple]; [reflexivity|].
  unfold tuple_eqb. now rewrite Hd, IH.
Qed.

(** One tuple whose job has FAILED: it leaves the list and its status is
    pushed; nothing is harvested. *)
Lemma wait_step_failed a r s w l' :
  saga_state env (handle s) (S (polls w)) = FAILED ->
  saga_state env (handle s) (S (S (polls w))) = FAILED ->
  remove_tuple w (r, s) (lists w a) = Some l' ->
  exists w' block,
    wait_step env cfg a r s w = Ok tt w'
    /\ lists w' a = l'
    /\ status (dicts w' r) = "error"
    /\ log (dicts w' r) = None
    /\ output_data (dicts w' r) = output_data (dicts w r)
    /\ remote w'
       = (remote w
            ++ [PutJob (job_server cfg ++ resource_uri (dicts w r)) (dicts w' r);
                PutLog (id (dicts w r))
                       (or_default (log (dicts w r)) "" ++ block)])%list.
Proof.
  intros H1 H2 Hrem.
  unfold wait_step. unfold bind at 1, saga_wait. unfold bind at 1, get_state.
  cbn [polls set_polls]. rewrite H1.
  set (w0 := set_polls (set_polls w (S (polls w))) (S (S (polls w)))).
  assert (Hrem0 : remove_tuple w0 (r, s) (lists w0 a) = Some l')
    by (rewrite (remove_tuple_ext w0 w (r, s) _ eq_refl); exact Hrem).
  unfold bind at 1, list_remove. rewrite Hrem0. unfold set_list.
  unfold bind at 1.
  match goal with |- context [_update_status env cfg r s _ ?w2] =>
    destruct (update_status_effect env cfg put_all FAILED (job_failed env) r s w2
                                   eq_refl H2)
      as (w' & block & E & S' & L' & O' & _ & R')
  end.
  rewrite E. exists w', block. split; [reflexivity|].
  split.
  - pose proof (lists_of_store _ (store_update_status env cfg r s)) as Hl.
    match type of E with _ ?w2 = _ => specialize (Hl w2) end.
    rewrite E in Hl. rewrite Hl. cbn [lists set_lists]. unfold upd.
    now rewrite Nat.eqb_refl.
  - repeat split; assumption.
Qed.

(** Removing a tuple whose handle occurs nowhere before it. *)
Lemma remove_tuple_at w kept x rest :
  ~ In (handle (snd x)) (map (fun t => handle (snd t)) kept) ->
  remove_tuple w x (kept ++ x :: rest) = Some (kept ++ rest)%list.
Proof.
  induction kept as [|y kept IH]; intros Hn; cbn [app remove_tuple].
  - unfold tuple_eqb, Job_eqb.
    destruct (Job_eq_dec (dicts w (fst x)) (dicts w (fst x))); [|congruence].
    now rewrite Nat.eqb_refl.
  - unfold tuple_eqb at 1.
    destruct (Nat.eqb_spec (handle (snd y)) (handle (snd x))) as [E|_].
    + exfalso. apply Hn. left. exact E.
    + rewrite andb_false_r. rewrite IH; [reflexivity|].
      intros H. apply Hn. now right.
Qed.

(** One pass over failed jobs, from index [length kept] on. *)
Lemma for_pending_failed_from n :
  (forall h k, saga_state env h k = FAILED) ->
  forall rest kept steps a w,
    (List.length rest <= n)%nat ->
    (List.length rest < steps)%nat ->
    lists w a = (kept ++ rest)%list ->
    NoDup (map (fun t => handle (snd t)) (kept ++ rest)) ->
    exists w',
      for_pending env cfg steps (List.length kept) a w = Ok tt w'
      /\ lists w' a = (kept ++ passed_over rest)%list.
Proof.
  intros Hfailed. induction n as [|n IH]; intros rest kept steps a w Hn Hsteps Hl Hnd.
  - destruct rest; [|cbn in Hn; lia]. destruct steps; [cbn in Hsteps; lia|].
    cbn [for_pending]. unfold bind at 1, get_list. rewrite Hl, app_nil_r.
    rewrite (proj2 (nth_error_None kept (List.length kept)) (Nat.le_refl _)).
    exists w. split; [reflexivity|]. now rewrite Hl.
  - destruct rest as [|[r s] rest].
    + destruct steps; [cbn in Hsteps; lia|].
      cbn [for_pending]. unfold bind at 1, get_list. rewrite Hl, app_nil_r.
      rewrite (proj2 (nth_error_None kept (List.length kept)) (Nat.le_refl _)).
      exists w. split; [reflexivity|]. now rewrite Hl.
    + destruct steps as [|steps]; [cbn in Hsteps; lia|].
      cbn [for_pending]. unfold bind at 1, get_list. rewrite Hl.
      rewrite nth_error_app2 by lia. rewrite Nat.sub_diag. cbn [nth_error].
      assert (Hfresh : ~ In (handle (snd (r, s)))
                         (map (fun t => handle (snd t)) kept)).
      { rewrite map_app in Hnd. cbn [map] in Hnd.
        apply NoDup_remove_2 in Hnd. intros H. apply Hnd.
        apply in_or_app. now left. }
      destruct (wait_step_failed a r s w (kept ++ rest)
                  (Hfailed _ _) (Hfailed _ _))
        as (w1 & block & E & L1 & _).
      { rewrite Hl. now apply remove_tuple_at. }
      unfold bind at 1. rewrite E.
      assert (Hnd1 : NoDup (map (fun t => handle (snd t)) (kept ++ rest))).
      { rewrite map_app in *. cbn [map] in Hnd.
        now apply NoDup_remove_1 in Hnd. }
      destruct rest as [|y rest].
      * destruct steps as [|steps]; [cbn in Hsteps; lia|].
        cbn [for_pending]. unfold bind at 1, get_list. rewrite L1, app_nil_r.
        rewrite (proj2 (nth_error_None kept (S (List.length kept))));
          [|lia].
        exists w1. split; [reflexivity|]. cbn [passed_over]. exact L1.
      * destruct (IH rest (kept ++ [y])%list steps a w1) as (w' & E' & L').
        -- cbn [List.length] in Hn. lia.
        -- cbn [List.length] in Hsteps. lia.
        -- rewrite L1, <- app_assoc. reflexivity.
        -- rewrite <- app_assoc. exact Hnd1.
        -- exists w'. rewrite List.length_app, Nat.add_1_r in E'.
           split; [exact E'|]. rewrite L', <- app_assoc. reflexivity.
Qed.

End WaitFailed.

(** X17: a tuple whose job the backend reports FAILED: [wait_step] takes it
    out of the in-flight list, sets the job to "error" and sends the job
    and its log; the job's [output_data] is untouched and no data item is
    registered. *)
Theorem wait_step_failed_job (env : Env) (cfg : Config)
        (pending_jobs nmpi_job : nat) (saga_job : SagaJob) (w : World)
        (l' : list (nat * SagaJob)) :
  (forall rq, put_ok env rq = true) ->
  saga_state env (handle saga_job) (S (polls w)) = FAILED ->
  saga_state env (handle saga_job) (S (S (polls w))) = FAILED ->
  remove_tuple w (nmpi_job, saga_job) (lists w pending_jobs) = Some l' ->
  exists w' block,
    wait_step env cfg pending_jobs nmpi_job saga_job w = Ok tt w'
    /\ lists w' pending_jobs = l'
    /\ status (dicts w' nmpi_job) = "error"
    /\ log (dicts w' nmpi_job) = None
    /\ output_data (dicts w' nmpi_job) = output_data (dicts w nmpi_job)
    /\ remote w'
       = (remote w
            ++ [PutJob (job_server cfg ++ resource_uri (dicts w nmpi_job))
                       (dicts w' nmpi_job);
                PutLog (id (dicts w nmpi_job))
                       (or_default (log (dicts w nmpi_job)) "" ++ block)])%list.
Proof.
  intros Hput. exact (wait_step_failed env cfg Hput pending_jobs nmpi_job saga_job w l').
Qed.

Lemma wait_step_failed_job_witness :
  exists w',
    wait_step Example2.env_failed Example.cfg0 0 0 Example.saga1 Example.w1
    = Ok tt w'
    /\ lists w' 0%nat = []
    /\ status (dicts w' 0%nat) = "error"
    /\ List.length (remote w') = 2%nat.
Proof.
  destruct (wait_step_failed_job
              Example2.env_failed Example.cfg0 0 0 Example.saga1 Example.w1 []
              (fun _ => eq_refl) eq_refl eq_refl eq_refl)
    as (w' & block & E & L & S & _ & _ & R).
  exists w'. split; [exact E|]. split; [exact L|]. split; [exact S|].
  rewrite R. reflexivity.
Defined.

(** X18: one pass of the [for] loop over in-flight jobs that have all
    FAILED removes only every other job: removing the tuple at the index
    the iterator stands on moves the next tuple under it, and the iterator
    steps past it.  The tuples at the odd positions are still in the list
    after the pass. *)
Theorem for_pending_passes_over_every_other
        (env : Env) (cfg : Config) (pending_jobs : nat) (w : World) :
  (forall rq, put_ok env rq = true) ->
  (forall h k, saga_state env h k = FAILED) ->
  NoDup (map (fun t => handle (snd t)) (lists w pending_jobs)) ->
  exists w',
    for_pending env cfg (S (List.length (lists w pending_jobs))) 0 pending_jobs w
    = Ok tt w'
    /\ lists w' pending_jobs = passed_over (lists w pending_jobs).
Proof.
  intros Hput Hfailed Hnd.
  exact (for_pending_failed_from env cfg Hput _ Hfailed (lists w pending_jobs) []
           _ pending_jobs w (Nat.le_refl _) (Nat.lt_succ_diag_r _) eq_refl Hnd).
Qed.

(** Three failed jobs in flight: after the pass the second is still there. *)
Lemma for_pending_passes_over_every_other_witness :
  exists w',
    for_pending Example2.env_failed Example.cfg0 4 0 0 Example2.w3 = Ok tt w'
    /\ lists w' 0%nat = [(0%nat, Example2.saga_n 1)].
Proof.
  apply (for_pending_passes_over_every_other
           Example2.env_failed Example.cfg0 0 Example2.w3
           (fun _ => eq_refl) (fun _ _ => eq_refl)).
  cbn. repeat constructor; cbn; intuition discriminate.
Defined.

(** ** Harvesting and the reference time *)

(** X19: moving the reference time later never adds a file to the harvest:
    every path found for a timestamp is found for any earlier one. *)
Theorem find_new_data_files_later_finds_less
        (t : dir) (root : string) (earlier later : Z)
        (ignoredirs ignore_extensions : list string) (p : string) :
  earlier <= later ->
  In p (_find_new_data_files t root later ignoredirs ignore_extensions) ->
  In p (_find_new_data_files t root earlier ignoredirs ignore_extensions).
Proof.
  intros Hle. unfold _find_new_data_files. rewrite !in_flat_map.
  intros ([[r dirs] files] & Ht & Hp). exists (r, dirs, files).
  split; [exact Ht|]. rewrite in_flat_map in *.
  destruct Hp as (file & Hf & Hp). exists file. split; [exact Hf|].
  destruct (negb _); [|exact Hp].
  rewrite Z.geb_leb in *.
  destruct (Z.leb_spec later (snd file)); [|destruct Hp].
  destruct (Z.leb_spec earlier (snd file)); [exact Hp|lia].
Qed.

Lemma find_new_data_files_later_finds_less_witness :
  In "sub/x" (_find_new_data_files Example.tree0 "/work/job_1" 2
                                   default_ignoredirs default_ignore_extensions)
  /\ ~ In "sub/x" (_find_new_data_files Example.tree0 "/work/job_1" 4
                                        default_ignoredirs default_ignore_extensions).
Proof.
  split.
  - apply (find_new_data_files_later_finds_less
             Example.tree0 "/work/job_1" 2 3 default_ignoredirs
             default_ignore_extensions "sub/x" ltac:(lia)).
    vm_compute. right. left. reflexivity.
  - vm_compute. intros [H|[]]. discriminate H.
Defined.

(** ** The configuration file *)

Section LoadConfig.

Lemma load_lines_app conf a b :
  load_lines conf (a ++ b)
  = match load_lines conf a with
    | inl e => inl e
    | inr conf' => load_lines conf' b
    end.
Proof.
  revert conf; induction a as [|x a IH]; intros conf; [reflexivity|].
  cbn [app load_lines]. destruct (load_line conf x); [reflexivity|apply IH].
Qed.

Lemma load_line_skipped conf line :
  read_line line = false -> load_line conf line = inr conf.
Proof. unfold load_line, read_line. now intros ->. Qed.

Lemma split_on_count c s : List.length (split_on c s) = S (count_char c s).
Proof.
  induction s as [|a r IH]; [reflexivity|].
  cbn [split_on count_char].
  destruct (split_on c r) as [|x xs]; [discriminate IH|].
  destruct (Ascii.eqb a c); cbn [List.length] in *; lia.
Qed.

Lemma load_line_malformed conf line :
  read_line line = true -> count_char "=" line <> 1%nat ->
  exists m, load_line conf line = inl (ValueError m).
Proof.
  intros Hr Hc. unfold load_line. fold (read_line line). rewrite Hr.
  pose proof (split_on_count "=" line) as Hl.
  destruct (split_on "=" line) as [|k [|v [|x xs]]]; cbn [List.length] in Hl.
  - eexists; reflexivity.
  - eexists; reflexivity.
  - exfalso. apply Hc. lia.
  - eexists; reflexivity.
Qed.

Lemma assoc_dict_set {A : Type} (k : string) (v : A) (d : list (string * A)) :
  assoc k (dict_set k v d) = Some v.
Proof.
  induction d as [|[k' v'] d IH]; cbn [dict_set assoc].
  - now rewrite String.eqb_refl.
  - destruct (String.eqb_spec k k') as [->|Hne]; cbn [assoc].
    + now rewrite String.eqb_refl.
    + destruct (String.eqb_spec k k'); [contradiction|exact IH].
Qed.

Lemma assoc_map_values {A B : Type} (f : A -> B) (k : string)
      (d : list (string * A)) :
  assoc k (map (fun kv => (fst kv, f (snd kv))) d) = option_map f (assoc k d).
Proof.
  induction d as [|[k' v'] d IH]; [reflexivity|].
  cbn [map assoc fst snd]. destruct (String.eqb k k'); [reflexivity|exact IH].
Qed.

End LoadConfig.

(** X20: a comment line, and any line of fewer than five characters (its
    line end counted), has no effect on the configuration: "A=1" followed by
    a newline is dropped without a word. *)
Theorem load_config_skips_short_lines (pre post : list string) (line : string) :
  PyStr.startswith "#" line = true \/ PyStr.len line < 5 ->
  load_config (pre ++ line :: post) = load_config (pre ++ post).
Proof.
  intros H.
  assert (Hr : read_line line = false).
  { unfold read_line. destruct H as [->|H]; [reflexivity|].
    destruct (Z.leb_spec 5 (PyStr.len line)); [lia|apply andb_false_r]. }
  unfold load_config. rewrite !load_lines_app.
  destruct (load_lines [] pre) as [e|conf]; [reflexivity|].
  cbn [load_lines]. now rewrite (load_line_skipped conf line Hr).
Qed.

Lemma load_config_skips_short_lines_witness :
  load_config ["AUTH_USER = nmpi" ++ NL; "A=1" ++ NL]
  = load_config ["AUTH_USER = nmpi" ++ NL]
  /\ load_config ["AUTH_USER = nmpi" ++ NL] = inr [("AUTH_USER", CStr "nmpi")].
Proof.
  split; [|reflexivity].
  apply (load_config_skips_short_lines ["AUTH_USER = nmpi" ++ NL] [] ("A=1" ++ NL)).
  right. vm_compute. reflexivity.
Defined.

(** X21: a line that is read (no comment, five characters or more) and
    does not hold exactly one "=" makes [load_config] raise ValueError,
    whatever follows it, once the lines before it have been read. *)
Theorem load_config_rejects_malformed_line
        (pre post : list string) (line : string) (conf : list (string * string)) :
  load_lines [] pre = inr conf ->
  read_line line = true ->
  count_char "=" line <> 1%nat ->
  exists m, load_config (pre ++ line :: post) = inl (ValueError m).
Proof.
  intros Hpre Hr Hc. unfold load_config. rewrite load_lines_app, Hpre.
  cbn [load_lines].
  destruct (load_line_malformed conf line Hr Hc) as (m & ->).
  now exists m.
Qed.

Lemma load_config_rejects_malformed_line_witness :
  exists m,
    load_config ["AUTH_USER = nmpi" ++ NL; "NMPI_HOST=https://h/?a=b" ++ NL]
    = inl (ValueError m).
Proof.
  apply (load_config_rejects_malformed_line
           ["AUTH_USER = nmpi" ++ NL] [] ("NMPI_HOST=https://h/?a=b" ++ NL)
           [("AUTH_USER", "nmpi")] eq_refl eq_refl).
  vm_compute. discriminate.
Defined.

(** X22: the last line that sets a key decides its value: after a file
    whose last line is a well-formed "key = value", the configuration maps
    the stripped key to the stripped value, with True, False and None turned
    into the literals and every other value kept as text. *)
Theorem load_config_last_line_wins
        (pre : list string) (line key val : string)
        (conf : list (string * string)) :
  load_lines [] pre = inr conf ->
  read_line line = true ->
  split_on "=" line = [key; val] ->
  exists d,
    load_config (pre ++ [line]) = inr d
    /\ assoc (strip key) d = Some (eval_literal (strip val)).
Proof.
  intros Hpre Hr Hs. unfold load_config. rewrite load_lines_app, Hpre.
  cbn [load_lines]. unfold load_line. fold (read_line line). rewrite Hr, Hs.
  eexists. split; [reflexivity|].
  rewrite assoc_map_values, assoc_dict_set. reflexivity.
Qed.

Lemma load_config_last_line_wins_witness :
  exists d,
    load_config Example2.cfg_lines = inr d
    /\ assoc "AUTH_USER" d = Some (CStr "other")
    /\ assoc "VERIFY_SSL" d = Some (CBool false)
    /\ assoc "A" d = None.
Proof.
  destruct (load_config_last_line_wins
              (removelast Example2.cfg_lines) ("AUTH_USER = other" ++ NL)
              "AUTH_USER " (" other" ++ NL)
              [("AUTH_USER", "nmpi"); ("VERIFY_SSL", "False"); ("JOB_QUEUE", "None")]
              eq_refl eq_refl eq_refl)
    as (d & E & A).
  exists d. split; [exact E|]. split; [exact A|].
  vm_compute in E. inversion E. split; reflexivity.
Defined.

(** ** The output streams in the log *)

(** X23: when the file of the error stream cannot be read, [job_done]
    writes neither stream to the log, the output stream that could be read
    included: the block is the timestamped line followed by empty lines. *)
Theorem job_done_drops_both_streams (env : Env) (r : nat) (s : SagaJob)
        (w : World) :
  read_file env (PyPath.join (working_directory (description s))
                             (error (description s))) = None ->
  exists w1,
    job_done env r s w = Ok r w1
    /\ log (dicts w1 r)
       = Some (or_default (log (dicts w r)) ""
                 ++ isoformat env (S (ticks w)) ++ "    finished"
                 ++ NL ++ NL ++ NL ++ NL ++ NL).
Proof.
  intros Herr.
  destruct (job_done_appends env s r w) as (w1 & E & _ & L & _).
  exists w1. split; [exact E|]. rewrite L.
  assert (Hs : streams env s = ("", "")).
  { unfold streams. cbv zeta. rewrite Herr.
    destruct (read_file env (PyPath.join (working_directory (description s))
                                         (output (description s))));
      reflexivity. }
  rewrite Hs. cbn [fst snd]. replace (ticks w + 1)%nat with (S (ticks w)) by lia.
  reflexivity.
Qed.

Lemma job_done_drops_both_streams_witness :
  read_file Example2.env_nostderr "/work/job_1/saga_1.out"
  = Some "contents of /work/job_1/saga_1.out"
  /\ exists w1,
      job_done Example2.env_nostderr 0 Example.saga1 Example.w0 = Ok 0%nat w1
      /\ log (dicts w1 0%nat)
         = Some ("2016-01-01T00:00:01" ++ "    finished" ++ NL ++ NL ++ NL ++ NL ++ NL).
Proof.
  split; [reflexivity|].
  destruct (job_done_drops_both_streams Example2.env_nostderr 0 Example.saga1
              Example.w0 eq_refl)
    as (w1 & E & L).
  exists w1. split; [exact E|]. rewrite L. reflexivity.
Defined.

(** ** One working directory per job *)

Section DistinctDirectories.

Lemma to_int_not_nil (n : Z) :
  Z.to_int n <> Decimal.Pos Decimal.Nil /\ Z.to_int n <> Decimal.Neg Decimal.Nil.
Proof.
  destruct n as [|p|p]; cbn; split; try discriminate;
    intros H; inversion H as [H1];
    exact (DecimalPos.Unsigned.to_uint_nonnil p H1).
Qed.

Lemma str_of_Z_inj (a b : Z) : str_of_Z a = str_of_Z b -> a = b.
Proof.
  unfold str_of_Z. intros H.
  apply (f_equal NilZero.int_of_string) in H.
  destruct (to_int_not_nil a) as [Ha1 Ha2]. destruct (to_int_not_nil b) as [Hb1 Hb2].
  rewrite !NilZero.isi in H by assumption.
  inversion H as [H1]. now apply DecimalZ.to_int_inj.
Qed.

Lemma append_inj_l (a x y : string) : a ++ x = a ++ y -> x = y.
Proof.
  induction a as [|c a IH]; cbn; [auto|]. intros H. inversion H. auto.
Qed.

Lemma append_inj_r (x y c : string) : x ++ c = y ++ c -> x = y.
Proof.
  revert y; induction x as [|a x IH]; intros [|b y] H; cbn in H.
  - reflexivity.
  - exfalso. apply (f_equal String.length) in H. cbn in H.
    rewrite str_length_app in H. lia.
  - exfalso. apply (f_equal String.length) in H. cbn in H.
    rewrite str_length_app in H. lia.
  - inversion H. f_equal. now apply IH.
Qed.

(** What a built description holds, by the id of the job. *)
Lemma built_names env cfg r w d w1 :
  _build_job_description env cfg r w = Ok d w1 ->
  let n := str_of_Z (id (dicts w r)) in
  working_directory d = PyPath.join (WORKING_DIRECTORY cfg) ("job_" ++ n)
  /\ output d = "saga_" ++ n ++ ".out"
  /\ error d = "saga_" ++ n ++ ".err".
Proof.
  unfold _build_job_description. unfold bind at 1, get_dict. unfold bind at 1.
  destruct (String.eqb _ "0.7");
    [|destruct (String.eqb _ "0.8"); [|discriminate]];
    unfold ret at 1;
    (destruct (format_system env _ _); [discriminate|]);
    unfold ret; intros E; inversion E; subst; cbn; repeat split.
Qed.

Lemma join_job_inj (a x y : string) :
  PyPath.join a ("job_" ++ x) = PyPath.join a ("job_" ++ y) -> x = y.
Proof.
  unfold PyPath.join. cbn [PyStr.startswith append Ascii.eqb].
  change (PyStr.startswith "/" (String "j" (String "o" (String "b" (String "_" x)))))
    with false.
  change (PyStr.startswith "/" (String "j" (String "o" (String "b" (String "_" y)))))
    with false.
  destruct (_ || _); intros H.
  - apply append_inj_l in H. now inversion H.
  - apply append_inj_l in H. now inversion H.
Qed.

End DistinctDirectories.

(** X24: two jobs with different ids get different working directories and
    different files for their output and error streams. *)
Theorem job_descriptions_distinct
        (env : Env) (cfg : Config) (r1 r2 : nat) (w1 w2 w1' w2' : World)
        (d1 d2 : JobDescription) :
  _build_job_description env cfg r1 w1 = Ok d1 w1' ->
  _build_job_description env cfg r2 w2 = Ok d2 w2' ->
  id (dicts w1 r1) <> id (dicts w2 r2) ->
  working_directory d1 <> working_directory d2
  /\ output d1 <> output d2
  /\ error d1 <> error d2.
Proof.
  intros B1 B2 Hid.
  destruct (built_names env cfg r1 w1 d1 w1' B1) as (W1 & O1 & E1).
  destruct (built_names env cfg r2 w2 d2 w2' B2) as (W2 & O2 & E2).
  rewrite W1, W2, O1, O2, E1, E2. repeat split; intros H; apply Hid.
  - apply str_of_Z_inj. exact (join_job_inj _ _ _ H).
  - apply str_of_Z_inj. apply (append_inj_l "saga_") in H.
    exact (append_inj_r _ _ _ H).
  - apply str_of_Z_inj. apply (append_inj_l "saga_") in H.
    exact (append_inj_r _ _ _ H).
Qed.

(** Jobs 1 and 11 on the example platform. *)
Lemma job_descriptions_distinct_witness :
  let w11 := set_dicts Example.w0
               (upd (dicts Example.w0) 0%nat
                    (mkJob 11 "print('hi')" None None "submitted" None None []
                           "/api/v2/queue/11" None None None)) 1 in
  exists d1 d2,
    _build_job_description Example.env0 Example.cfg0 0 Example.w0 = Ok d1 Example.w0
    /\ _build_job_description Example.env0 Example.cfg0 0 w11 = Ok d2 w11
    /\ working_directory d1 <> working_directory d2.
Proof.
  intros w11.
  destruct (_build_job_description Example.env0 Example.cfg0 0 Example.w0)
    as [d1 x1| |] eqn:B1; try (vm_compute in B1; discriminate B1).
  destruct (_build_job_description Example.env0 Example.cfg0 0 w11)
    as [d2 x2| |] eqn:B2; try (vm_compute in B2; discriminate B2).
  exists d1, d2.
  assert (x1 = Example.w0) by (vm_compute in B1; now inversion B1).
  assert (x2 = w11) by (vm_compute in B2; now inversion B2).
  subst x1 x2. split; [reflexivity|]. split; [reflexivity|].
  apply (proj1 (job_descriptions_distinct
                  Example.env0 Example.cfg0 0 0 Example.w0 w11 Example.w0 w11
                  d1 d2 B1 B2 ltac:(vm_compute; discriminate))).
Defined.
